(** * Saleor webhook utilities and product search documents

    A shallow embedding of [saleor/plugins/webhook/utils.py] and
    [saleor/product/search.py], with the properties of their
    specification proved over it.

    Conventions of the embedding.
    - A Python [str] is a [string] whose characters are the code points
      below 256; on those, [str.lower], [int()] and [Decimal()] act as
      written out below.
    - A call that can raise returns an [Outcome]: [Return v] or
      [Raise e]; [try ... except] is a match on the outcome.
    - A value decoded from JSON ([Any] in the annotations) is a [json].
    - Database rows live in a [DB]; a model instance in memory is a
      record of the same shape, and [save], [delete], [bulk_create] and
      [bulk_update] are functions on the [DB]. *)

From Stdlib Require Import ZArith NArith Ascii String List Bool Lia.
From Stdlib Require Import Floats.SpecFloat.
From stdpp Require Import base option list gmap strings.

Local Open Scope string_scope.
Local Open Scope Z_scope.
#[local] Set Warnings "-register-all".

(** ** Exceptions and outcomes *)

Module Py.

Inductive Exc : Type :=
  | KeyError
  | TypeError
  | ValueError
  | AttributeError
  | AssertionError
  | InvalidOperation   (* decimal.InvalidOperation, a DecimalException *)
  | DatabaseError.

Definition is_DecimalException (e : Exc) : bool :=
  match e with InvalidOperation => true | _ => false end.

Inductive Outcome (A : Type) : Type :=
  | Return (a : A)
  | Raise (e : Exc).
Arguments Return {A} a.
Arguments Raise {A} e.

Definition bind {A B} (m : Outcome A) (k : A -> Outcome B) : Outcome B :=
  match m with
  | Return a => k a
  | Raise e => Raise e
  end.

#[export] Instance outcome_ret : MRet Outcome := @Return.
#[export] Instance outcome_bind : MBind Outcome := fun A B k m => bind m k.
#[export] Instance outcome_fmap : FMap Outcome :=
  fun A B f m => bind m (fun a => Return (f a)).

(** [[f(x) for x in xs]]: left to right, stopping at the first raise. *)
Fixpoint for_each {A B} (f : A -> Outcome B) (xs : list A) : Outcome (list B) :=
  match xs with
  | [] => Return []
  | x :: xs' => y ← f x; ys ← for_each f xs'; Return (y :: ys)
  end.

(** [for x in xs: body], the loop's variables threaded as [s]. *)
Fixpoint for_in {A S} (xs : list A) (body : A -> S -> Outcome S) (s : S) : Outcome S :=
  match xs with
  | [] => Return s
  | x :: xs' => s' ← body x s; for_in xs' body s'
  end.

Definition returns {A} (m : Outcome A) : Prop := exists a, m = Return a.

(** ** Strings *)

Definition chr (n : N) : ascii := ascii_of_N n.
Definition ord (c : ascii) : N := N_of_ascii c.

Definition is_digit (c : ascii) : bool := (48 <=? ord c)%N && (ord c <=? 57)%N.
Definition digit_value (c : ascii) : Z := Z.of_N (ord c) - 48.
Definition digit_char (d : N) : ascii := chr (48 + d).

(** [s.split(sep)] for a separator of one character. *)
Fixpoint split (sep : ascii) (s : string) : list string :=
  match s with
  | EmptyString => [EmptyString]
  | String c s' =>
      if Ascii.eqb c sep then EmptyString :: split sep s'
      else match split sep s' with
           | h :: t => String c h :: t
           | [] => [String c EmptyString]
           end
  end.

(** [sep.join(parts)] *)
Fixpoint join (sep : string) (parts : list string) : string :=
  match parts with
  | [] => ""
  | [p] => p
  | p :: rest => p +:+ sep +:+ join sep rest
  end.

(** [bool(s)] for a string: non-empty. *)
Definition nonempty (s : string) : bool :=
  match s with EmptyString => false | _ => true end.

(** [c.lower()] on the code points below 256: A-Z, and the Latin-1
    capitals U+00C0..U+00DE without the multiplication sign U+00D7. *)
Definition lower_char (c : ascii) : ascii :=
  let n := ord c in
  if ((65 <=? n) && (n <=? 90))%N then chr (n + 32)
  else if ((192 <=? n) && (n <=? 222) && negb (n =? 215))%N then chr (n + 32)
  else c.

Fixpoint lower (s : string) : string :=
  match s with
  | EmptyString => EmptyString
  | String c s' => String (lower_char c) (lower s')
  end.

(** The characters [int()] skips at both ends of its argument. *)
Definition int_space (c : ascii) : bool :=
  let n := ord c in
  ((9 <=? n) && (n <=? 13) || (n =? 32) || (n =? 133) || (n =? 160))%N.

(** The characters [str.strip()] removes, which [Decimal()] skips. *)
Definition str_space (c : ascii) : bool :=
  let n := ord c in
  ((9 <=? n) && (n <=? 13) || (28 <=? n) && (n <=? 32)
   || (n =? 133) || (n =? 160))%N.

Fixpoint lstrip (sp : ascii -> bool) (l : list ascii) : list ascii :=
  match l with
  | c :: l' => if sp c then lstrip sp l' else l
  | [] => []
  end.

Definition strip (sp : ascii -> bool) (l : list ascii) : list ascii :=
  rev (lstrip sp (rev (lstrip sp l))).

(** Digits with single underscores between them: [digit ("_"? digit)*].
    [after_digit] tells whether the previous character was a digit. *)
Fixpoint int_digits (acc : Z) (after_digit : bool) (l : list ascii) : option Z :=
  match l with
  | [] => if after_digit then Some acc else None
  | c :: l' =>
      if is_digit c then int_digits (10 * acc + digit_value c) true l'
      else if Ascii.eqb c "_" then
        if after_digit then int_digits acc false l' else None
      else None
  end.

(** [int(s)] in base 10: [ValueError] unless [s] is, between optional
    white space, an optional sign and digits. *)
Definition signed_digits (body : list ascii) : option Z :=
  match body with
  | "-"%char :: ds => Z.opp <$> int_digits 0 false ds
  | "+"%char :: ds => int_digits 0 false ds
  | ds => int_digits 0 false ds
  end.

Definition int (s : string) : Outcome Z :=
  match signed_digits (strip int_space (list_ascii_of_string s)) with
  | Some z => Return z
  | None => Raise ValueError
  end.

(** Decimal digits of a natural number, most significant first. *)
Fixpoint digits_fuel (fuel : nat) (n : N) : list ascii :=
  match fuel with
  | O => []
  | S fuel' =>
      if (n <? 10)%N then [digit_char n]
      else digits_fuel fuel' (n / 10)%N ++ [digit_char (n mod 10)%N]
  end.

Definition digits (n : N) : list ascii :=
  digits_fuel (S (N.to_nat (N.log2 n))) n.

(** [str(z)] for an integer. *)
Definition str_of_int (z : Z) : string :=
  match z with
  | Zneg p => String "-" (string_of_list_ascii (digits (Npos p)))
  | _ => string_of_list_ascii (digits (Z.to_N z))
  end.

(** ** Values decoded from JSON

    [json.loads] yields [None], [bool], [int], [float], [str], [list]
    and [dict] with string keys.  A [dict] is the list of its items in
    insertion order, and a lookup takes the first binding of the key.  A
    [float] is a binary floating-point number [(-1)^s * m * 2^e]. *)

Inductive json : Type :=
  | JNull
  | JBool (b : bool)
  | JInt (z : Z)
  | JFloat (f : spec_float)
  | JStr (s : string)
  | JList (l : list json)
  | JDict (items : list (string * json)).

Fixpoint assoc (k : string) (items : list (string * json)) : option json :=
  match items with
  | [] => None
  | (k', v) :: rest => if String.eqb k' k then Some v else assoc k rest
  end.

(** [bool(v)] *)
Definition truthy (v : json) : bool :=
  match v with
  | JNull => false
  | JBool b => b
  | JInt z => negb (z =? 0)
  | JFloat (S754_zero _) => false
  | JFloat _ => true
  | JStr s => nonempty s
  | JList l => match l with [] => false | _ => true end
  | JDict items => match items with [] => false | _ => true end
  end.

(** [v[k]] for a string key [k]: [KeyError] on a [dict] without the
    key, [TypeError] on anything that is not a [dict]. *)
Definition getitem (v : json) (k : string) : Outcome json :=
  match v with
  | JDict items =>
      match assoc k items with
      | Some x => Return x
      | None => Raise KeyError
      end
  | _ => Raise TypeError
  end.

(** [v.get(k, d)]; only a [dict] has the method. *)
Definition get_or (v : json) (k : string) (d : json) : Outcome json :=
  match v with
  | JDict items => Return (default d (assoc k items))
  | _ => Raise AttributeError
  end.

(** [v.get(k)] *)
Definition get (v : json) (k : string) : Outcome json := get_or v k JNull.

(** [needle in s] for strings. *)
Fixpoint prefix_of (p s : string) : bool :=
  match p, s with
  | EmptyString, _ => true
  | String a p', String b s' => Ascii.eqb a b && prefix_of p' s'
  | String _ _, EmptyString => false
  end.

Fixpoint str_contains (needle s : string) : bool :=
  prefix_of needle s ||
  match s with
  | EmptyString => false
  | String _ s' => str_contains needle s'
  end.

(** [k in v] for a string [k]: a key of a [dict], an element of a
    [list], a substring of a [str]. *)
Definition contains (k : string) (v : json) : Outcome bool :=
  match v with
  | JDict items => Return (bool_decide (is_Some (assoc k items)))
  | JList l =>
      Return (existsb (fun x => match x with JStr s => String.eqb s k | _ => false end) l)
  | JStr s => Return (str_contains k s)
  | _ => Raise TypeError
  end.

(** [for x in v]: the elements of a [list], the characters of a [str],
    the keys of a [dict]. *)
Definition iterate (v : json) : Outcome (list json) :=
  match v with
  | JList l => Return l
  | JStr s => Return (map (fun c => JStr (String c EmptyString)) (list_ascii_of_string s))
  | JDict items => Return (map (fun kv => JStr (fst kv)) items)
  | _ => Raise TypeError
  end.

(** ** decimal.Decimal *)

Inductive Decimal : Type :=
  | DFinite (sign : bool) (coefficient : N) (exponent : Z)
  | DInfinity (sign : bool)
  | DNaN (sign : bool) (signaling : bool) (payload : N).

Definition Emax : Z := 999999999999999999.
Definition Etiny : Z := -1999999999999999997.

(** The constructor converts exactly or signals [InvalidOperation]: the
    adjusted exponent may not exceed [Emax] nor the exponent fall below
    [Etiny].  (Its limit of 999999999999999999 digits on the coefficient
    is beyond any input and left out.) *)
Definition exactly (d : Decimal) : Outcome Decimal :=
  match d with
  | DFinite _ c e =>
      let adjusted := e + Z.of_nat (length (digits c)) - 1 in
      if (adjusted <=? Emax) && (Etiny <=? e) then Return d
      else Raise InvalidOperation
  | _ => Return d
  end.

(** The longest prefix of digits: its value on top of [acc], its length,
    and what follows it. *)
Fixpoint span_digits (acc : N) (count : Z) (l : list ascii) : N * Z * list ascii :=
  match l with
  | c :: l' =>
      if is_digit c
      then span_digits (10 * acc + Z.to_N (digit_value c))%N (count + 1) l'
      else (acc, count, l)
  | [] => (acc, count, [])
  end.

Definition take_sign (l : list ascii) : bool * list ascii :=
  match l with
  | "-"%char :: r => (true, r)
  | "+"%char :: r => (false, r)
  | _ => (false, l)
  end.

(** [digits [. digits] [e [sign] digits]] with at least one digit before
    the exponent. *)
Definition decimal_number (sign : bool) (l : list ascii) : option Decimal :=
  let '(c1, n1, r1) := span_digits 0 0 l in
  let '(c2, n2, r2) :=
    match r1 with
    | "."%char :: r => span_digits c1 0 r
    | _ => (c1, 0, r1)
    end in
  if n1 + n2 =? 0 then None
  else match r2 with
       | [] => Some (DFinite sign c2 (- n2))
       | c :: r =>
           if Ascii.eqb (lower_char c) "e" then
             let '(esign, r') := take_sign r in
             match span_digits 0 0 r' with
             | (e, n, []) =>
                 if n =? 0 then None
                 else Some (DFinite sign c2
                              ((if esign then - Z.of_N e else Z.of_N e) - n2))
             | _ => None
             end
           else None
       end.

Definition decimal_special (sign : bool) (l : list ascii) : option Decimal :=
  let word := string_of_list_ascii (map lower_char l) in
  if String.eqb word "inf" || String.eqb word "infinity" then Some (DInfinity sign)
  else
    let payload_of (signaling : bool) (r : list ascii) :=
      match span_digits 0 0 r with
      | (p, _, []) => Some (DNaN sign signaling p)
      | _ => None
      end in
    match map lower_char l with
    | "n"%char :: "a"%char :: "n"%char :: r => payload_of false r
    | "s"%char :: "n"%char :: "a"%char :: "n"%char :: r => payload_of true r
    | _ => None
    end.

(** [Decimal(s)] for a string: white space stripped at both ends, every
    underscore dropped, then a sign and a number, an infinity or a NaN. *)
Definition Decimal_of_str (s : string) : Outcome Decimal :=
  let body :=
    filter (fun c => c <> "_"%char) (strip str_space (list_ascii_of_string s)) in
  let '(sign, l) := take_sign body in
  match decimal_number sign l with
  | Some d => exactly d
  | None =>
      match decimal_special sign l with
      | Some d => Return d
      | None => Raise InvalidOperation
      end
  end.

(** [Decimal(f)] for a float: the exact value, as
    [Decimal.from_float] computes it from [f.as_integer_ratio()]. *)
Fixpoint strip_twos (fuel : nat) (m : positive) (e : Z) : positive * Z :=
  match fuel, m with
  | S fuel', xO m' => if e <? 0 then strip_twos fuel' m' (e + 1) else (m, e)
  | _, _ => (m, e)
  end.

Definition Decimal_of_float (f : spec_float) : Decimal :=
  match f with
  | S754_zero s => DFinite s 0 0
  | S754_infinity s => DInfinity s
  | S754_nan => DNaN false false 0
  | S754_finite s m e =>
      let '(n, e') := strip_twos (Pos.to_nat (Pos.size m)) m e in
      if 0 <=? e' then DFinite s (Npos n * 2 ^ Z.to_N e')%N 0
      else DFinite s (Npos n * 5 ^ Z.to_N (- e'))%N e'
  end.

(** An [int] in a sign, digit or exponent position; [bool] is an [int]. *)
Definition as_int (v : json) : option Z :=
  match v with
  | JInt z => Some z
  | JBool b => Some (if b then 1 else 0)
  | _ => None
  end.

Fixpoint digit_tuple (acc : N) (l : list json) : option N :=
  match l with
  | [] => Some acc
  | d :: l' =>
      match as_int d with
      | Some z => if (0 <=? z) && (z <=? 9)
                  then digit_tuple (10 * acc + Z.to_N z)%N l' else None
      | None => None
      end
  end.

(** [Decimal([sign, digits, exponent])]: every malformed part is a
    [ValueError]. *)
Definition Decimal_of_list (l : list json) : Outcome Decimal :=
  match l with
  | [s; JList ds; e] =>
      match as_int s, digit_tuple 0 ds with
      | Some z, Some c =>
          if (z =? 0) || (z =? 1) then
            let sign := z =? 1 in
            match e with
            | JStr "F" => Return (DInfinity sign)
            | JStr "n" => Return (DNaN sign false c)
            | JStr "N" => Return (DNaN sign true c)
            | _ => match as_int e with
                   | Some x => exactly (DFinite sign c x)
                   | None => Raise ValueError
                   end
            end
          else Raise ValueError
      | _, _ => Raise ValueError
      end
  | _ => Raise ValueError
  end.

(** [decimal.Decimal(v)] *)
Definition Decimal_new (v : json) : Outcome Decimal :=
  match v with
  | JStr s => Decimal_of_str s
  | JInt z => Return (DFinite (z <? 0) (Z.abs_N z) 0)
  | JBool b => Return (DFinite false (if b then 1 else 0)%N 0)
  | JFloat f => Return (Decimal_of_float f)
  | JList l => Decimal_of_list l
  | JNull | JDict _ => Raise TypeError
  end.

(** ** Text of values: [repr], [str], [json.dumps] *)

Definition dquote : ascii := "034"%char.

Definition hex_digit (d : N) : ascii :=
  if (d <? 10)%N then chr (48 + d) else chr (87 + d).

Definition of_chars (l : list ascii) : string := string_of_list_ascii l.

(** [repr(x)] for a positive finite float [m * 2^e]: the shortest
    decimal that rounds to [x], the nearest one when several do.
    [binary64] gives the float's 53-bit mantissa and exponent, from which
    the interval of the reals that round to it follows. *)
Definition binary64 (m : positive) (e : Z) : Z * Z :=
  let bits := Z.log2 (Zpos m) + 1 in
  let E := Z.max (e + bits - 53) (-1074) in
  (Z.shiftl (Zpos m) (e - E), E).

Definition shortest_decimal (M E : Z) : Z * Z :=
  let t := 2 ^ Z.max 0 E in
  let V := 4 * M * t in
  let HI := V + 2 * t in
  let LO := V - (if (M =? 2 ^ 52) && (-1074 <? E) then t else 2 * t) in
  let DEN := 4 * 2 ^ Z.max 0 (- E) in
  let ge_pow10 k := 10 ^ Z.max 0 k * DEN <=? V * 10 ^ Z.max 0 (- k) in
  let k10 :=
    (fix up (fuel : nat) (k : Z) : Z :=
       match fuel with
       | O => k
       | S fuel' => if ge_pow10 (k + 1) then up fuel' (k + 1) else k
       end) 4%nat ((Z.log2 V - Z.log2 DEN) * 30103 / 100000 - 1) in
  (fix try (fuel : nat) (p : Z) : Z * Z :=
     match fuel with
     | O => (0, 0)
     | S fuel' =>
         let q := k10 - p + 1 in
         let A := 10 ^ Z.max 0 (- q) in
         let B := 10 ^ Z.max 0 q in
         let c := (V * A) / (DEN * B) in
         let inside x :=
           let y := x * B * DEN in
           if Z.even M then (LO * A <=? y) && (y <=? HI * A)
           else (LO * A <? y) && (y <? HI * A) in
         let dist x := Z.abs (x * B * DEN - V * A) in
         match inside c, inside (c + 1) with
         | true, true => if dist c <=? dist (c + 1) then (c, q) else (c + 1, q)
         | true, false => (c, q)
         | false, true => (c + 1, q)
         | false, false => try fuel' (p + 1)
         end
     end) 17%nat 1.

Fixpoint strip_zeros (fuel : nat) (c q : Z) : Z * Z :=
  match fuel with
  | S fuel' => if (c mod 10 =? 0) && negb (c =? 0)
               then strip_zeros fuel' (c / 10) (q + 1) else (c, q)
  | O => (c, q)
  end.

Definition zeros (n : Z) : list ascii := repeat "0"%char (Z.to_nat n).

Definition float_repr_pos (m : positive) (e : Z) : list ascii :=
  let '(M, E) := binary64 m e in
  let '(c0, q0) := shortest_decimal M E in
  let '(c, q) := strip_zeros 18 c0 q0 in
  let ds := digits (Z.to_N c) in
  let n := Z.of_nat (length ds) in
  let decpt := q + n in
  if (-4 <? decpt) && (decpt <=? 16) then
    if decpt <=? 0 then "0"%char :: "."%char :: zeros (- decpt) ++ ds
    else if n <=? decpt then ds ++ zeros (decpt - n) ++ [ "."%char; "0"%char ]
    else take (Z.to_nat decpt) ds ++ "."%char :: drop (Z.to_nat decpt) ds
  else
    let x := decpt - 1 in
    let mantissa :=
      match ds with
      | d :: (_ :: _) as rest => d :: "."%char :: rest
      | _ => ds
      end in
    let xs := digits (Z.abs_N x) in
    mantissa ++ "e"%char :: (if x <? 0 then "-"%char else "+"%char)
      :: (if Z.abs x <? 10 then "0"%char :: xs else xs).

(** [repr(f)], which is also [str(f)]. *)
Definition float_repr (f : spec_float) : string :=
  match f with
  | S754_zero s => if s then "-0.0" else "0.0"
  | S754_infinity s => if s then "-inf" else "inf"
  | S754_nan => "nan"
  | S754_finite s m e =>
      of_chars ((if s then ["-"%char] else []) ++ float_repr_pos m e)
  end.

(** [c.isprintable()] fails for the control characters, U+007F..U+00A0
    and the soft hyphen U+00AD. *)
Definition printable (c : ascii) : bool :=
  let n := ord c in
  negb ((n <? 32) || (127 <=? n) && (n <=? 160) || (n =? 173))%N.

Definition has_char (c : ascii) (s : string) : bool :=
  existsb (Ascii.eqb c) (list_ascii_of_string s).

(** [repr(s)] for a string. *)
Definition str_repr (s : string) : string :=
  let quote := if has_char "'" s && negb (has_char dquote s) then dquote else "'"%char in
  let escape (c : ascii) : list ascii :=
    if Ascii.eqb c quote || Ascii.eqb c "\" then ["\"%char; c]
    else if (ord c =? 9)%N then ["\"%char; "t"%char]
    else if (ord c =? 10)%N then ["\"%char; "n"%char]
    else if (ord c =? 13)%N then ["\"%char; "r"%char]
    else if printable c then [c]
    else ["\"%char; "x"%char; hex_digit (ord c / 16); hex_digit (ord c mod 16)] in
  of_chars (quote :: concat (map escape (list_ascii_of_string s)) ++ [quote]).

(** [repr(v)] *)
Fixpoint repr (v : json) : string :=
  match v with
  | JNull => "None"
  | JBool b => if b then "True" else "False"
  | JInt z => str_of_int z
  | JFloat f => float_repr f
  | JStr s => str_repr s
  | JList l => "[" +:+ join ", " (map repr l) +:+ "]"
  | JDict items =>
      "{" +:+ join ", " (map (fun kv => str_repr (fst kv) +:+ ": " +:+ repr (snd kv)) items)
      +:+ "}"
  end.

(** [str(v)], which is what [f"{v}"] puts in the string. *)
Definition str (v : json) : string :=
  match v with
  | JStr s => s
  | _ => repr v
  end.

(** A string literal of [json.dumps]: everything outside [' '..'~'] is
    escaped (ensure_ascii). *)
Definition dumps_str (s : string) : string :=
  let escape (c : ascii) : list ascii :=
    let n := ord c in
    if Ascii.eqb c dquote || Ascii.eqb c "\" then ["\"%char; c]
    else if (n =? 10)%N then ["\"%char; "n"%char]
    else if (n =? 13)%N then ["\"%char; "r"%char]
    else if (n =? 9)%N then ["\"%char; "t"%char]
    else if (n =? 8)%N then ["\"%char; "b"%char]
    else if (n =? 12)%N then ["\"%char; "f"%char]
    else if ((32 <=? n) && (n <=? 126))%N then [c]
    else ["\"%char; "u"%char; "0"%char; "0"%char;
          hex_digit (n / 16); hex_digit (n mod 16)] in
  of_chars (dquote :: concat (map escape (list_ascii_of_string s)) ++ [dquote]).

(** [json.dumps(v)] with its default separators. *)
Fixpoint dumps (v : json) : string :=
  match v with
  | JNull => "null"
  | JBool b => if b then "true" else "false"
  | JInt z => str_of_int z
  | JFloat S754_nan => "NaN"
  | JFloat (S754_infinity s) => if s then "-Infinity" else "Infinity"
  | JFloat f => float_repr f
  | JStr s => dumps_str s
  | JList l => "[" +:+ join ", " (map dumps l) +:+ "]"
  | JDict items =>
      "{" +:+ join ", " (map (fun kv => dumps_str (fst kv) +:+ ": " +:+ dumps (snd kv)) items)
      +:+ "}"
  end.

(** ** Bytes: [str.encode] and [base64.b64encode] *)

(** UTF-8 of a string of code points below 256. *)
Definition encode (s : string) : list N :=
  concat (map (fun c => let n := ord c in
                        if (n <? 128)%N then [n]
                        else [192 + n / 64; 128 + n mod 64]%N)
              (list_ascii_of_string s)).

Definition b64_char (d : N) : ascii :=
  if (d <? 26)%N then chr (65 + d)
  else if (d <? 52)%N then chr (71 + d)
  else if (d <? 62)%N then chr (d - 4)
  else if (d =? 62)%N then "+"%char else "/"%char.

Fixpoint b64_chars (bytes : list N) : list ascii :=
  match bytes with
  | [] => []
  | [a] =>
      [b64_char (a / 4); b64_char (a mod 4 * 16); "="%char; "="%char]%N
  | [a; b] =>
      [b64_char (a / 4); b64_char (a mod 4 * 16 + b / 16);
       b64_char (b mod 16 * 4); "="%char]%N
  | a :: b :: c :: rest =>
      [b64_char (a / 4); b64_char (a mod 4 * 16 + b / 16);
       b64_char (b mod 16 * 4 + c / 64); b64_char (c mod 64)]%N
      ++ b64_chars rest
  end.

(** [base64.b64encode(data).decode("utf-8")] *)
Definition b64encode (bytes : list N) : string := of_chars (b64_chars bytes).

End Py.
Import Py.

(** * saleor/plugins/webhook/utils.py *)

(** ** Payment app identifiers (lines 28-64) *)

Definition APP_ID_PREFIX : string := "app".

Module PaymentAppData.
Record t := mk { app_pk : Z; name : string }.
End PaymentAppData.

(** An [App], as far as these functions read it: its primary key. *)
Module App.
Record t := mk { pk : Z }.
End App.

(** [f"{APP_ID_PREFIX}:{app.pk}:{gateway_id}"]; the annotation asks for a
    [str], the f-string formats whatever it is given. *)
Definition to_payment_app_id (app : App.t) (gateway_id : json) : string :=
  APP_ID_PREFIX +:+ ":" +:+ str (JInt (App.pk app)) +:+ ":" +:+ str gateway_id.

Definition to_shipping_app_id (app : App.t) (shipping_method_id : json) : string :=
  b64encode
    (encode (APP_ID_PREFIX +:+ ":" +:+ str (JInt (App.pk app)) +:+ ":"
             +:+ str shipping_method_id)).

Definition from_payment_app_id (app_gateway_id : string)
  : Outcome (option PaymentAppData.t) :=
  let splitted_id := split ":" app_gateway_id in
  if Nat.eqb (length splitted_id) 3
     && String.eqb (nth 0 splitted_id "") APP_ID_PREFIX
     && forallb nonempty splitted_id
  then
    match int (nth 1 splitted_id "") with          (* try *)
    | Raise TypeError | Raise ValueError => Return None
    | Raise e => Raise e
    | Return app_pk =>                              (* else *)
        Return (Some (PaymentAppData.mk app_pk (nth 2 splitted_id "")))
    end
  else Return None.

(** ** List of payment gateways (lines 67-86) *)

Module PaymentGateway.
Record t := mk { id : string; name : json; currencies : json; config : json }.
End PaymentGateway.

Definition parse_list_payment_gateways_response (response_data : json) (app : App.t)
  : Outcome (list PaymentGateway.t) :=
  entries ← iterate response_data;
  for_in entries (fun gateway_data (gateways : list PaymentGateway.t) =>
    gateway_id ← get gateway_data "id";
    gateway_name ← get gateway_data "name";
    gateway_currencies ← get gateway_data "currencies";
    gateway_config ← get gateway_data "config";
    if truthy gateway_id then
      Return (gateways ++ [PaymentGateway.mk (to_payment_app_id app gateway_id)
                             gateway_name gateway_currencies gateway_config])%list
    else Return gateways) [].

(** ** Payment action response (lines 89-132) *)

(** [PaymentData], as far as the parser reads it. *)
Module PaymentData.
Record t := mk { amount : Decimal; currency : string }.
End PaymentData.

Module PaymentMethodInfo.
Record t := mk {
  brand : json; exp_month : json; exp_year : json;
  last_4 : json; name : json; type : json
}.
End PaymentMethodInfo.

Module GatewayResponse.
Record t := mk {
  action_required : json;
  action_required_data : json;
  amount : Decimal;
  currency : string;
  customer_id : json;
  error : json;
  is_success : bool;
  kind : json;
  payment_method_info : option PaymentMethodInfo.t;
  raw_response : json;
  psp_reference : json;
  transaction_id : json;
  transaction_already_processed : json
}.
End GatewayResponse.

Definition parse_payment_action_response
    (payment_information : PaymentData.t) (response_data : json)
    (transaction_kind : string) : Outcome GatewayResponse.t :=
  error ← get response_data "error";
  let is_success := negb (truthy error) in
  payment_method_data ← get response_data "payment_method";
  payment_method_info ←
    (if truthy payment_method_data then
       brand ← get payment_method_data "brand";
       exp_month ← get payment_method_data "exp_month";
       exp_year ← get payment_method_data "exp_year";
       last_4 ← get payment_method_data "last_4";
       name ← get payment_method_data "name";
       type ← get payment_method_data "type";
       Return (Some (PaymentMethodInfo.mk brand exp_month exp_year last_4 name type))
     else Return None);
  has_amount ← contains "amount" response_data;
  amount ←
    (if has_amount : bool then
       match getitem response_data "amount" ≫= Decimal_new with   (* try *)
       | Return d => Return d
       | Raise e =>
           if is_DecimalException e then Return (PaymentData.amount payment_information)
           else Raise e
       end
     else Return (PaymentData.amount payment_information));
  action_required ← get_or response_data "action_required" (JBool false);
  action_required_data ← get response_data "action_required_data";
  customer_id ← get response_data "customer_id";
  kind ← get_or response_data "kind" (JStr transaction_kind);
  psp_reference ← get response_data "psp_reference";
  transaction_id ← get_or response_data "transaction_id" (JStr "");
  transaction_already_processed ←
    get_or response_data "transaction_already_processed" (JBool false);
  Return (GatewayResponse.mk
            action_required action_required_data amount
            (PaymentData.currency payment_information)
            customer_id error is_success kind payment_method_info
            response_data psp_reference transaction_id
            transaction_already_processed).

(** ** Tax data (lines 135-201) *)

Module TaxLineData.
Record t := mk {
  id : json;
  currency : json;
  unit_net_amount : Decimal;
  unit_gross_amount : Decimal;
  total_gross_amount : Decimal;
  total_net_amount : Decimal;
  tax_rate : Decimal
}.
End TaxLineData.

Module TaxData.
Record t := mk {
  currency : json;
  total_net_amount : Decimal;
  total_gross_amount : Decimal;
  subtotal_net_amount : Decimal;
  subtotal_gross_amount : Decimal;
  shipping_price_gross_amount : Decimal;
  shipping_price_net_amount : Decimal;
  shipping_tax_rate : Decimal;
  lines : list TaxLineData.t
}.
End TaxData.

(** [decimal.Decimal(d[k])] *)
Definition decimal_at (d : json) (k : string) : Outcome Decimal :=
  getitem d k ≫= Decimal_new.

Definition _unsafe_parse_tax_line_data (tax_line_data_response : json)
  : Outcome TaxLineData.t :=
  id ← getitem tax_line_data_response "id";
  currency ← getitem tax_line_data_response "currency";
  unit_net_amount ← decimal_at tax_line_data_response "unit_net_amount";
  unit_gross_amount ← decimal_at tax_line_data_response "unit_gross_amount";
  total_gross_amount ← decimal_at tax_line_data_response "total_gross_amount";
  total_net_amount ← decimal_at tax_line_data_response "total_net_amount";
  tax_rate ← decimal_at tax_line_data_response "tax_rate";
  Return (TaxLineData.mk id currency unit_net_amount unit_gross_amount
            total_gross_amount total_net_amount tax_rate).

Definition _unsafe_parse_tax_data (tax_data_response : json) : Outcome TaxData.t :=
  currency ← getitem tax_data_response "currency";
  total_net_amount ← decimal_at tax_data_response "total_net_amount";
  total_gross_amount ← decimal_at tax_data_response "total_gross_amount";
  subtotal_net_amount ← decimal_at tax_data_response "subtotal_net_amount";
  subtotal_gross_amount ← decimal_at tax_data_response "subtotal_gross_amount";
  shipping_price_gross_amount ←
    decimal_at tax_data_response "shipping_price_gross_amount";
  shipping_price_net_amount ←
    decimal_at tax_data_response "shipping_price_net_amount";
  shipping_tax_rate ← decimal_at tax_data_response "shipping_tax_rate";
  lines_response ← getitem tax_data_response "lines";
  line_responses ← iterate lines_response;
  lines ← for_each _unsafe_parse_tax_line_data line_responses;
  Return (TaxData.mk currency total_net_amount total_gross_amount
            subtotal_net_amount subtotal_gross_amount
            shipping_price_gross_amount shipping_price_net_amount
            shipping_tax_rate lines).

Definition parse_tax_data (response_data : json) : Outcome (option TaxData.t) :=
  match _unsafe_parse_tax_data response_data with      (* try *)
  | Return tax_data => Return (Some tax_data)
  | Raise KeyError => Return None
  | Raise e => if is_DecimalException e then Return None else Raise e
  end.

(** ** List of shipping methods (lines 204-223) *)

(** [prices.Money(amount, currency)] keeps [Decimal(amount)] and the
    currency as given. *)
Module Money.
Record t := mk { amount : Decimal; currency : json }.
Definition new (amount currency : json) : Outcome t :=
  d ← Decimal_new amount; Return (mk d currency).
End Money.

Module ShippingMethodData.
Record t := mk {
  id : string; name : json; price : Money.t; maximum_delivery_days : json
}.
End ShippingMethodData.

Definition parse_list_shipping_methods_response (response_data : json) (app : App.t)
  : Outcome (list ShippingMethodData.t) :=
  entries ← iterate response_data;
  for_in entries (fun shipping_method_data (shipping_methods : list ShippingMethodData.t) =>
    method_id ← get shipping_method_data "id";
    method_name ← get shipping_method_data "name";
    method_amount ← get shipping_method_data "amount";
    method_currency ← get shipping_method_data "currency";
    method_maximum_delivery_days ← get shipping_method_data "maximum_delivery_days";
    price ← Money.new method_amount method_currency;
    Return (shipping_methods ++
              [ShippingMethodData.mk (to_shipping_app_id app method_id)
                 method_name price method_maximum_delivery_days])%list) [].

(** ** Tax codes (lines 226-248) *)

(** The numeric value of a [bool], [int] or finite [float], as
    [m * 2^e]; [None] for everything else. *)
Definition number_value (v : json) : option (Z * Z) :=
  match v with
  | JBool b => Some (if b then 1 else 0, 0)
  | JInt z => Some (z, 0)
  | JFloat (S754_zero _) => Some (0, 0)
  | JFloat (S754_finite s m e) => Some (if s then Zneg m else Zpos m, e)
  | _ => None
  end.

(** [a == b] for two values that can be keys of a [dict]: numbers
    compare by value, whatever their type; the one NaN that [json]
    hands out is found again by identity. *)
Definition key_eqb (a b : json) : bool :=
  match number_value a, number_value b with
  | Some (m1, e1), Some (m2, e2) =>
      let e := Z.min e1 e2 in
      m1 * 2 ^ (e1 - e) =? m2 * 2 ^ (e2 - e)
  | None, None =>
      match a, b with
      | JNull, JNull => true
      | JStr s, JStr t => String.eqb s t
      | JFloat (S754_infinity s), JFloat (S754_infinity t) => Bool.eqb s t
      | JFloat S754_nan, JFloat S754_nan => true
      | _, _ => false
      end
  | _, _ => false
  end.

(** A [dict] that the code builds: its items in insertion order, with
    keys that differ. *)
Fixpoint dict_get (d : list (json * json)) (k : json) : option json :=
  match d with
  | [] => None
  | (k', v) :: rest => if key_eqb k' k then Some v else dict_get rest k
  end.

Fixpoint dict_update (d : list (json * json)) (k v : json) : list (json * json) :=
  match d with
  | [] => [(k, v)]
  | (k', v') :: rest =>
      if key_eqb k' k then (k', v) :: rest else (k', v') :: dict_update rest k v
  end.

(** [d[k] = v]; a [list] or a [dict] cannot be hashed. *)
Definition setitem (d : list (json * json)) (k v : json) : Outcome (list (json * json)) :=
  match k with
  | JList _ | JDict _ => Raise TypeError
  | _ => Return (dict_update d k v)
  end.

(** The loop of [parse_tax_codes], which leaves the function at the
    first entry without code. *)
Fixpoint parse_tax_codes_loop (taxes : list json) (tax_types : list (json * json))
  : Outcome (option (list (json * json))) :=
  match taxes with
  | [] => Return (Some tax_types)
  | tax :: rest =>
      code ← get tax "code";
      description ← get tax "description";
      if negb (truthy code) then Return None
      else
        (* We assume here that the integration does not provide descriptions
           and tax codes have enough details for displaying them in dashboard *)
        let description := if negb (truthy description) then code else description in
        tax_types ← setitem tax_types code description;
        parse_tax_codes_loop rest tax_types
  end.

Definition parse_tax_codes (response_tax_data : json)
  : Outcome (option (list (json * json))) :=
  match response_tax_data with
  | JList taxes => parse_tax_codes_loop taxes []
  | _ => Return None                 (* not isinstance(response_tax_data, list) *)
  end.

(** ** Event deliveries and attempts (lines 257-321) *)

(** Modelled from the spec: the three delivery states, PENDING, SUCCESS
    and FAILED; [EventDeliveryStatus] is declared in saleor/core/models.py. *)
Inductive EventDeliveryStatus : Type := PENDING | SUCCESS | FAILED.

#[export] Instance EventDeliveryStatus_eq_dec : EqDecision EventDeliveryStatus.
Proof. solve_decision. Defined.

(** Modelled from the spec: an [EventDelivery] row has an id, a status,
    an event type, a payload reference, a webhook reference and a
    creation time.  A reference is the primary key of the row it points
    to; a field that is not set yet is [None]. *)
Module EventDelivery.
Record t := mk {
  pk : option Z;
  created_at : option Z;
  status : EventDeliveryStatus;
  event_type : string;
  payload : Z;
  webhook : Z
}.
End EventDelivery.

(** Modelled from the spec: an [EventDeliveryAttempt] row refers to its
    delivery and has a task id, a duration, a response body, serialized
    request and response headers and a status. *)
Module EventDeliveryAttempt.
Record t := mk {
  pk : option Z;
  created_at : option Z;
  delivery : option Z;
  task_id : option string;
  duration : option spec_float;
  response : option string;
  request_headers : option string;
  response_headers : option string;
  status : EventDeliveryStatus
}.
End EventDeliveryAttempt.

(** The fields of [WebhookResponse] (declared in tasks.py) that
    [attempt_update] reads. *)
Module WebhookResponse.
Record t := mk {
  content : string;
  request_headers : json;
  response_headers : json;
  status : EventDeliveryStatus;
  duration : spec_float
}.
End WebhookResponse.

(** ** The database *)

(** The full-text search expressions of django.contrib.postgres:
    [SearchVector(v1, ..., vn, weight=w)] and the sum of two vectors. *)
Inductive SearchVector : Type :=
  | SearchVector_of (values : list (option string)) (weight : string)
  | SearchVector_add (l r : SearchVector).

(** What the [search_vector] attribute of a product holds: the stored
    tsvector as loaded from the row, or an expression assigned to it. *)
Inductive SearchVectorField : Type :=
  | TsVector (text : string)
  | Expression (e : SearchVector).

(** [datetime.datetime]; [utcoffset] is in microseconds, [None] for a
    naive value. *)
Module datetime.
Record t := mk {
  year : Z; month : Z; day : Z;
  hour : Z; minute : Z; second : Z; microsecond : Z;
  utcoffset : option Z
}.

(** ["%0<width>d" % n] for [n >= 0] *)
Definition pad (width : nat) (n : Z) : string :=
  let ds := digits (Z.to_N n) in
  of_chars (repeat "0"%char (width - length ds) ++ ds).

Definition isoformat (d : t) : string :=
  pad 4 (year d) +:+ "-" +:+ pad 2 (month d) +:+ "-" +:+ pad 2 (day d)
  +:+ "T" +:+ pad 2 (hour d) +:+ ":" +:+ pad 2 (minute d) +:+ ":" +:+ pad 2 (second d)
  +:+ (if microsecond d =? 0 then "" else "." +:+ pad 6 (microsecond d))
  +:+ match utcoffset d with
      | None => ""
      | Some off =>
          let a := Z.abs off in
          let s := a / 1000000 mod 60 in
          let us := a mod 1000000 in
          (if off <? 0 then "-" else "+")
          +:+ pad 2 (a / 3600000000) +:+ ":" +:+ pad 2 (a / 60000000 mod 60)
          +:+ (if (s =? 0) && (us =? 0) then "" else ":" +:+ pad 2 s)
          +:+ (if us =? 0 then "" else "." +:+ pad 6 us)
      end.

(** [d.strftime("%Y-%m-%d %H:%M:%S")] *)
Definition strftime_seconds (d : t) : string :=
  pad 4 (year d) +:+ "-" +:+ pad 2 (month d) +:+ "-" +:+ pad 2 (day d)
  +:+ " " +:+ pad 2 (hour d) +:+ ":" +:+ pad 2 (minute d) +:+ ":" +:+ pad 2 (second d).
End datetime.

(** Modelled from the spec: the input types the search document
    distinguishes are dropdown and multiselect, rich text, numeric, date
    and datetime; [AttributeInputType] is declared in saleor/attribute,
    and every other member of it is an [OTHER]. *)
Inductive AttributeInputType : Type :=
  | DROPDOWN | MULTISELECT | RICH_TEXT | NUMERIC | DATE | DATE_TIME
  | OTHER (label : string).

Module AttributeValue.
Record t := mk {
  name : string;
  rich_text : json;
  date_time : option datetime.t
}.
End AttributeValue.

Module Attribute.
Record t := mk { input_type : AttributeInputType; unit : option string }.
End Attribute.

(** An assigned attribute with what the code reads through it:
    [assignment.attribute] and [values.all()]. *)
Module AssignedAttribute.
Record t := mk {
  attribute : Attribute.t;
  values : list AttributeValue.t
}.
End AssignedAttribute.

Module ProductVariant.
Record t := mk {
  sku : option string;
  name : string;
  attributes : list AssignedAttribute.t
}.
End ProductVariant.

(** A product with what the code reads through it: [attributes] and
    [variants] are the related rows that [product.attributes.all()] and
    [product.variants.all()] yield.  Prefetching decides when they are
    read, not what is read. *)
Module Product.
Record t := mk {
  pk : option Z;
  name : string;
  description_plaintext : string;
  search_document : string;
  search_vector : SearchVectorField;
  updated_at : Z;
  attributes : list AssignedAttribute.t;
  variants : list ProductVariant.t
}.
End Product.

Module DB.
Record t := mk {
  deliveries : gmap Z EventDelivery.t;
  attempts : gmap Z EventDeliveryAttempt.t;
  products : gmap Z Product.t;
  clock : Z          (* the time that auto_now fields read *)
}.

Definition with_deliveries (db : t) (m : gmap Z EventDelivery.t) : t :=
  mk m (attempts db) (products db) (clock db).
Definition with_attempts (db : t) (m : gmap Z EventDeliveryAttempt.t) : t :=
  mk (deliveries db) m (products db) (clock db).
Definition with_products (db : t) (m : gmap Z Product.t) : t :=
  mk (deliveries db) (attempts db) m (clock db).
End DB.

(** *** Django's model operations on these tables *)

(** [EventDelivery.objects.bulk_create(objs)] for instances without a
    primary key: the database gives each a key not in use and the
    creation time, and the instances come back with both set. *)
Fixpoint bulk_create (objs : list EventDelivery.t) (db : DB.t)
  : list EventDelivery.t * DB.t :=
  match objs with
  | [] => ([], db)
  | obj :: rest =>
      let k := fresh (dom (DB.deliveries db)) in
      let row := EventDelivery.mk (Some k) (Some (DB.clock db))
                   (EventDelivery.status obj) (EventDelivery.event_type obj)
                   (EventDelivery.payload obj) (EventDelivery.webhook obj) in
      let '(rows, db') :=
        bulk_create rest (DB.with_deliveries db (<[k := row]> (DB.deliveries db))) in
      (row :: rows, db')
  end.

(** [EventDeliveryAttempt.objects.create(...)] *)
Definition create (obj : EventDeliveryAttempt.t) (db : DB.t)
  : EventDeliveryAttempt.t * DB.t :=
  let k := fresh (dom (DB.attempts db)) in
  let row := EventDeliveryAttempt.mk (Some k) (Some (DB.clock db))
               (EventDeliveryAttempt.delivery obj) (EventDeliveryAttempt.task_id obj)
               (EventDeliveryAttempt.duration obj) (EventDeliveryAttempt.response obj)
               (EventDeliveryAttempt.request_headers obj)
               (EventDeliveryAttempt.response_headers obj)
               (EventDeliveryAttempt.status obj) in
  (row, DB.with_attempts db (<[k := row]> (DB.attempts db))).

(** One column of an attempt copied from the instance [obj] into [row];
    [None] for a name that is not a column. *)
Definition attempt_column (field : string) (obj row : EventDeliveryAttempt.t)
  : option EventDeliveryAttempt.t :=
  let '(EventDeliveryAttempt.mk pk created delivery task duration response
          request_headers response_headers status) := row in
  if String.eqb field "delivery" then
    Some (EventDeliveryAttempt.mk pk created (EventDeliveryAttempt.delivery obj) task
            duration response request_headers response_headers status)
  else if String.eqb field "task_id" then
    Some (EventDeliveryAttempt.mk pk created delivery (EventDeliveryAttempt.task_id obj)
            duration response request_headers response_headers status)
  else if String.eqb field "duration" then
    Some (EventDeliveryAttempt.mk pk created delivery task
            (EventDeliveryAttempt.duration obj) response request_headers
            response_headers status)
  else if String.eqb field "response" then
    Some (EventDeliveryAttempt.mk pk created delivery task duration
            (EventDeliveryAttempt.response obj) request_headers response_headers status)
  else if String.eqb field "request_headers" then
    Some (EventDeliveryAttempt.mk pk created delivery task duration response
            (EventDeliveryAttempt.request_headers obj) response_headers status)
  else if String.eqb field "response_headers" then
    Some (EventDeliveryAttempt.mk pk created delivery task duration response
            request_headers (EventDeliveryAttempt.response_headers obj) status)
  else if String.eqb field "status" then
    Some (EventDeliveryAttempt.mk pk created delivery task duration response
            request_headers response_headers (EventDeliveryAttempt.status obj))
  else None.

Definition delivery_column (field : string) (obj row : EventDelivery.t)
  : option EventDelivery.t :=
  let '(EventDelivery.mk pk created status event_type payload webhook) := row in
  if String.eqb field "status" then
    Some (EventDelivery.mk pk created (EventDelivery.status obj) event_type payload webhook)
  else if String.eqb field "event_type" then
    Some (EventDelivery.mk pk created status (EventDelivery.event_type obj) payload webhook)
  else if String.eqb field "payload" then
    Some (EventDelivery.mk pk created status event_type (EventDelivery.payload obj) webhook)
  else if String.eqb field "webhook" then
    Some (EventDelivery.mk pk created status event_type payload (EventDelivery.webhook obj))
  else None.

(** The columns named in [update_fields] copied into the row, in order. *)
Fixpoint write_columns {A} (column : string -> A -> A -> option A)
    (update_fields : list string) (obj row : A) : option A :=
  match update_fields with
  | [] => Some row
  | field :: rest =>
      match column field obj row with
      | Some row' => write_columns column rest obj row'
      | None => None
      end
  end.

(** [obj.save(update_fields=[...])]: an UPDATE of the named columns of
    the row with the instance's primary key; with no field named,
    nothing happens.  [ValueError] for an unknown field or an instance
    without primary key, [DatabaseError] when no row is updated. *)
Definition save_update_fields {A} (column : string -> A -> A -> option A)
    (pk : option Z) (obj : A) (update_fields : list string) (table : gmap Z A)
  : Outcome (gmap Z A) :=
  match update_fields with
  | [] => Return table                 (* nothing to save *)
  | _ =>
      match write_columns column update_fields obj obj, pk with
      | None, _ | _, None => Raise ValueError
      | Some _, Some k =>
          match table !! k with
          | None => Raise DatabaseError
          | Some row =>
              match write_columns column update_fields obj row with
              | Some row' => Return (<[k := row']> table)
              | None => Raise ValueError
              end
          end
      end
  end.

(** What deleting a delivery does to the attempts that refer to it is
    the [on_delete] rule of their foreign key, declared in
    saleor/core/models.py, outside these sources: [attempts_without k]
    is the table of attempts once delivery [k] is deleted.  [cascade]
    is the rule [models.CASCADE]. *)
Class OnDeleteDelivery :=
  attempts_without : Z -> gmap Z EventDeliveryAttempt.t -> gmap Z EventDeliveryAttempt.t.

Definition cascade : OnDeleteDelivery :=
  fun k attempts =>
    filter (fun kv => EventDeliveryAttempt.delivery (snd kv) <> Some k) attempts.

(** [delivery.delete()]: the row with the instance's primary key goes.
    In Django 3.2 an instance without primary key fails an assertion. *)
Definition delete `{OnDeleteDelivery} (obj : EventDelivery.t) (db : DB.t)
  : Outcome DB.t :=
  match EventDelivery.pk obj with
  | None => Raise AssertionError
  | Some k =>
      Return (DB.mk (base.delete k (DB.deliveries db))
                (attempts_without k (DB.attempts db))
                (DB.products db) (DB.clock db))
  end.

(** *** The functions of utils.py *)

Definition create_event_delivery_list_for_webhooks
    (webhooks : list Z) (event_payload : Z) (event_type : string) (db : DB.t)
  : list EventDelivery.t * DB.t :=
  bulk_create
    (map (fun webhook => EventDelivery.mk None None PENDING event_type event_payload webhook)
         webhooks)
    db.

(** Django refuses to save a row that refers to an instance without
    primary key ([ValueError]); the foreign key of the database refuses
    a delivery that has no row (an [IntegrityError], which is a
    [DatabaseError]). *)
Definition create_attempt (delivery : EventDelivery.t) (task_id : option string)
    (db : DB.t) : Outcome (EventDeliveryAttempt.t * DB.t) :=
  match EventDelivery.pk delivery with
  | None => Raise ValueError
  | Some k =>
      match DB.deliveries db !! k with
      | None => Raise DatabaseError
      | Some _ =>
          Return (create (EventDeliveryAttempt.mk None None (Some k) task_id
                            None None None None PENDING) db)
      end
  end.

Definition attempt_update (attempt : EventDeliveryAttempt.t)
    (webhook_response : WebhookResponse.t) (db : DB.t)
  : Outcome (EventDeliveryAttempt.t * DB.t) :=
  let attempt :=
    EventDeliveryAttempt.mk
      (EventDeliveryAttempt.pk attempt) (EventDeliveryAttempt.created_at attempt)
      (EventDeliveryAttempt.delivery attempt) (EventDeliveryAttempt.task_id attempt)
      (Some (WebhookResponse.duration webhook_response))
      (Some (WebhookResponse.content webhook_response))
      (Some (dumps (WebhookResponse.request_headers webhook_response)))
      (Some (dumps (WebhookResponse.response_headers webhook_response)))
      (WebhookResponse.status webhook_response) in
  table ← save_update_fields attempt_column (EventDeliveryAttempt.pk attempt) attempt
            ["duration"; "response"; "response_headers"; "request_headers"; "status"]
            (DB.attempts db);
  Return (attempt, DB.with_attempts db table).

Definition delivery_update (delivery : EventDelivery.t) (status : EventDeliveryStatus)
    (db : DB.t) : Outcome (EventDelivery.t * DB.t) :=
  let delivery :=
    EventDelivery.mk (EventDelivery.pk delivery) (EventDelivery.created_at delivery)
      status (EventDelivery.event_type delivery) (EventDelivery.payload delivery)
      (EventDelivery.webhook delivery) in
  table ← save_update_fields delivery_column (EventDelivery.pk delivery) delivery
            ["status"] (DB.deliveries db);
  Return (delivery, DB.with_deliveries db table).

Definition clear_successful_delivery `{OnDeleteDelivery}
    (delivery : EventDelivery.t) (db : DB.t) : Outcome DB.t :=
  if decide (EventDelivery.status delivery = SUCCESS) then delete delivery db
  else Return db.

(** * saleor/product/search.py *)

(** [clean_editor_js(definitions, to_string=True)] of
    saleor/core/utils/editorjs.py, which is outside these sources: the
    plain text of an EditorJS document.  The search functions are
    embedded, and their properties proved, for any such function. *)
Class EditorJs := clean_editor_js : json -> string.

Definition NL : string := String (chr 10) EmptyString.

(** [getattr(product, field)] for the two search fields. *)
Definition PRODUCT_SEARCH_FIELDS : list (Product.t -> string) :=
  [Product.name; Product.description_plaintext].

(** [prefetch_related_objects([product], ...)]: the related rows are
    part of the instance here, so there is nothing to load. *)
Definition prefetch_related_objects (product : Product.t) : Product.t := product.

Section Search.
Context `{EditorJs}.

Definition generate_product_fields_search_document_value (product : Product.t)
  : string :=
  let value :=
    join NL (filter (fun v => nonempty v)
                    (map (fun field => field product) PRODUCT_SEARCH_FIELDS)) in
  let value := if nonempty value then value +:+ NL else value in
  lower value.

(** The [if]/[elif] chain on the input type: the values to index. *)
Definition document_values_list (attribute : Attribute.t)
    (values : list AttributeValue.t) : Outcome (list string) :=
  match Attribute.input_type attribute with
  | DROPDOWN | MULTISELECT => Return (map AttributeValue.name values)
  | RICH_TEXT =>
      Return (map (fun value => clean_editor_js (AttributeValue.rich_text value)) values)
  | NUMERIC =>
      let unit := default "" (Attribute.unit attribute) in
      Return (map (fun value => AttributeValue.name value +:+ unit) values)
  | DATE | DATE_TIME =>
      for_each (fun value =>
                  match AttributeValue.date_time value with
                  | Some d => Return (datetime.isoformat d)
                  | None => Raise AttributeError
                  end) values
  | OTHER _ => Return []
  end.

Definition generate_attributes_search_document_value
    (assigned_attributes : list AssignedAttribute.t) : Outcome string :=
  attribute_data ←
    for_in assigned_attributes (fun assigned_attribute attribute_data =>
      let attribute := AssignedAttribute.attribute assigned_attribute in
      let values := AssignedAttribute.values assigned_attribute in
      values_list ← document_values_list attribute values;
      match values_list with
      | _ :: _ =>
          let values_data := join NL values_list in
          Return (attribute_data +:+ values_data +:+ NL)
      | [] => Return attribute_data
      end) "";
  Return (lower attribute_data).

(** [variant.sku] when it is truthy. *)
Definition truthy_sku (variant : ProductVariant.t) : option string :=
  match ProductVariant.sku variant with
  | Some sku => if nonempty sku then Some sku else None
  | None => None
  end.

Definition generate_variants_search_document_value (product : Product.t)
  : Outcome string :=
  let variants := Product.variants product in
  let variants_data := join NL (omap truthy_sku variants) in
  let variants_data :=
    if nonempty variants_data then variants_data +:+ NL else variants_data in
  variants_data ←
    for_in variants (fun variant variants_data =>
      variant_attribute_data ←
        generate_attributes_search_document_value (ProductVariant.attributes variant);
      if nonempty variant_attribute_data
      then Return (variants_data +:+ variant_attribute_data)
      else Return variants_data) variants_data;
  Return (lower variants_data).

Definition prepare_product_search_document_value
    (product : Product.t) (already_prefetched : bool) : Outcome string :=
  let product :=
    if already_prefetched then product else prefetch_related_objects product in
  let search_document := generate_product_fields_search_document_value product in
  attributes_document ←
    generate_attributes_search_document_value (Product.attributes product);
  let search_document := search_document +:+ attributes_document in
  variants_document ← generate_variants_search_document_value product;
  let search_document := search_document +:+ variants_document in
  Return (lower search_document).

(** [reduce(add, vectors)] for at least one vector. *)
Definition reduce_add (first : SearchVector) (others : list SearchVector)
  : SearchVector :=
  fold_left SearchVector_add others first.

Definition vector_values_list (attribute : Attribute.t)
    (values : list AttributeValue.t) : Outcome (list string) :=
  match Attribute.input_type attribute with
  | DROPDOWN | MULTISELECT => Return (map AttributeValue.name values)
  | RICH_TEXT =>
      Return (map (fun value => clean_editor_js (AttributeValue.rich_text value)) values)
  | NUMERIC =>
      let unit := default "" (Attribute.unit attribute) in
      Return (map (fun value => AttributeValue.name value +:+ " " +:+ unit) values)
  | DATE | DATE_TIME =>
      for_each (fun value =>
                  match AttributeValue.date_time value with
                  | Some d => Return (datetime.strftime_seconds d)
                  | None => Raise AttributeError
                  end) values
  | OTHER _ => Return []
  end.

Definition generate_attributes_search_vector_value
    (assigned_attributes : list AssignedAttribute.t) : Outcome (option SearchVector) :=
  for_in assigned_attributes (fun assigned_attribute search_vector =>
    let attribute := AssignedAttribute.attribute assigned_attribute in
    let values := AssignedAttribute.values assigned_attribute in
    values_list ← vector_values_list attribute values;
    match map (fun v => SearchVector_of [Some v] "B") values_list with
    | first :: others =>
        let new_vector := reduce_add first others in
        match search_vector with
        | Some vector => Return (Some (SearchVector_add vector new_vector))
        | None => Return (Some new_vector)
        end
    | [] => Return search_vector
    end) None.

Definition generate_variants_search_vector_value (product : Product.t)
  : Outcome (option SearchVector) :=
  let variants := Product.variants product in
  match map (fun variant =>
               SearchVector_of [ProductVariant.sku variant;
                                Some (ProductVariant.name variant)] "A") variants with
  | [] => Return None
  | first :: others =>
      let search_vector := reduce_add first others in
      search_vector ←
        for_in variants (fun variant search_vector =>
          attribute_vector ←
            generate_attributes_search_vector_value (ProductVariant.attributes variant);
          match attribute_vector with
          | Some vector => Return (SearchVector_add search_vector vector)
          | None => Return search_vector
          end) search_vector;
      Return (Some search_vector)
  end.

(** The vector is also printed to the standard output, which the
    embedding has no component for. *)
Definition prepare_product_search_vector_value
    (product : Product.t) (already_prefetched : bool) : Outcome SearchVector :=
  let product :=
    if already_prefetched then product else prefetch_related_objects product in
  let search_vector :=
    SearchVector_add (SearchVector_of [Some (Product.name product)] "A")
      (SearchVector_of [Some (Product.description_plaintext product)] "C") in
  attributes_vector ←
    generate_attributes_search_vector_value (Product.attributes product);
  let search_vector :=
    match attributes_vector with
    | Some vector => SearchVector_add search_vector vector
    | None => search_vector
    end in
  variants_vector ← generate_variants_search_vector_value product;
  let search_vector :=
    match variants_vector with
    | Some vector => SearchVector_add search_vector vector
    | None => search_vector
    end in
  Return search_vector.

(** *** Persisting products *)

Definition product_column (field : string) (obj row : Product.t) : option Product.t :=
  let '(Product.mk pk name description document vector updated attributes variants) :=
    row in
  if String.eqb field "name" then
    Some (Product.mk pk (Product.name obj) description document vector updated
            attributes variants)
  else if String.eqb field "description_plaintext" then
    Some (Product.mk pk name (Product.description_plaintext obj) document vector
            updated attributes variants)
  else if String.eqb field "search_document" then
    Some (Product.mk pk name description (Product.search_document obj) vector
            updated attributes variants)
  else if String.eqb field "search_vector" then
    Some (Product.mk pk name description document (Product.search_vector obj)
            updated attributes variants)
  else if String.eqb field "updated_at" then
    Some (Product.mk pk name description document vector (Product.updated_at obj)
            attributes variants)
  else None.

Definition set_search_document (product : Product.t) (value : string) : Product.t :=
  let '(Product.mk pk name description _ vector updated attributes variants) :=
    product in
  Product.mk pk name description value vector updated attributes variants.

Definition set_search_vector (product : Product.t) (value : SearchVector)
  : Product.t :=
  let '(Product.mk pk name description document _ updated attributes variants) :=
    product in
  Product.mk pk name description document (Expression value) updated attributes variants.

Definition set_updated_at (product : Product.t) (value : Z) : Product.t :=
  let '(Product.mk pk name description document vector _ attributes variants) :=
    product in
  Product.mk pk name description document vector value attributes variants.

(** [product.save(update_fields=[...])]; [updated_at] is an auto_now
    field, set to the current time when it is among the saved fields. *)
Definition save (product : Product.t) (update_fields : list string) (db : DB.t)
  : Outcome (Product.t * DB.t) :=
  let product :=
    if existsb (String.eqb "updated_at") update_fields
    then set_updated_at product (DB.clock db) else product in
  table ← save_update_fields product_column (Product.pk product) product
            update_fields (DB.products db);
  Return (product, DB.with_products db table).

(** [Product.objects.bulk_update(objs, fields)]: one UPDATE of the
    named columns per instance, from the values the instance holds; an
    instance whose row is gone updates nothing.  [ValueError] for an
    instance without primary key or an unknown field. *)
Definition bulk_update (objs : list Product.t) (fields : list string) (db : DB.t)
  : Outcome DB.t :=
  table ←
    for_in objs (fun obj (table : gmap Z Product.t) =>
      match Product.pk obj with
      | None => Raise ValueError
      | Some k =>
          match table !! k with
          | None => Return table
          | Some row =>
              match write_columns product_column fields obj row with
              | Some row' => Return (<[k := row']> table)
              | None => Raise ValueError
              end
          end
      end) (DB.products db);
  Return (DB.with_products db table).

(** A [QuerySet] of products is the list of the primary keys it
    selects; iterating it loads the rows that exist, with their related
    rows ([prefetch_related]). *)
Definition fetch (products : list Z) (db : DB.t) : list Product.t :=
  omap (fun k => DB.products db !! k) products.

(** The instances of the queryset are returned next to the database,
    to tell what was assigned in memory. *)
Definition update_products_search_document (products : list Z) (db : DB.t)
  : Outcome (list Product.t * DB.t) :=
  let products := fetch products db in
  products ←
    for_each (fun product =>
      search_document ← prepare_product_search_document_value product true;
      let product := set_search_document product search_document in
      search_vector ← prepare_product_search_vector_value product true;
      let product := set_search_vector product search_vector in
      Return product) products;
  db ← bulk_update products ["search_document"; "updated_at"] db;
  Return (products, db).

Definition update_product_search_document (product : Product.t) (db : DB.t)
  : Outcome (Product.t * DB.t) :=
  search_document ← prepare_product_search_document_value product false;
  let product := set_search_document product search_document in
  search_vector ← prepare_product_search_vector_value product false;
  let product := set_search_vector product search_vector in
  save product ["search_document"; "updated_at"] db.

End Search.

(** * Inputs and notions used in the statements *)

(** [d.get(k)] on the items of a [dict]. *)
Definition field (k : string) (items : list (string * json)) : json :=
  default JNull (assoc k items).


Definition only_raises {A} (allowed : Exc -> bool) (m : Outcome A) : Prop :=
  forall e, m = Raise e -> allowed e = true.

(** A string or a number: what [Decimal()] converts or rejects with a
    [DecimalException]. *)
Definition str_or_number (v : json) : bool :=
  match v with
  | JStr _ | JInt _ | JBool _ | JFloat _ => true
  | _ => false
  end.

(** A complete tax response, but for the null [total_net_amount]. *)
Definition tax_data_null_amount : json :=
  JDict [("currency", JStr "USD");
         ("total_net_amount", JNull);
         ("total_gross_amount", JStr "12.30");
         ("subtotal_net_amount", JStr "10.00");
         ("subtotal_gross_amount", JStr "12.30");
         ("shipping_price_gross_amount", JStr "0");
         ("shipping_price_net_amount", JStr "0");
         ("shipping_tax_rate", JStr "0.23");
         ("lines", JList [])].

(** The same response without its [total_net_amount]. *)
Definition tax_data_missing_amount : json :=
  JDict [("currency", JStr "USD");
         ("total_gross_amount", JStr "12.30");
         ("subtotal_net_amount", JStr "10.00");
         ("subtotal_gross_amount", JStr "12.30");
         ("shipping_price_gross_amount", JStr "0");
         ("shipping_price_net_amount", JStr "0");
         ("shipping_tax_rate", JStr "0.23");
         ("lines", JList [])].

(** The amount fields of a tax response. *)
Definition tax_amount_fields : list string :=
  ["total_net_amount"; "total_gross_amount"; "subtotal_net_amount";
   "subtotal_gross_amount"; "shipping_price_gross_amount";
   "shipping_price_net_amount"; "shipping_tax_rate"].

Definition tax_fields : list string :=
  "currency" :: tax_amount_fields ++ ["lines"].

(** The gateway that the payment list parser builds from an entry. *)
Definition has_gateway_id (items : list (string * json)) : bool :=
  truthy (field "id" items).

Definition gateway_of (app : App.t) (items : list (string * json)) : PaymentGateway.t :=
  PaymentGateway.mk (to_payment_app_id app (field "id" items))
    (field "name" items) (field "currencies" items) (field "config" items).

(** The shipping method that the shipping list parser builds from an
    entry whose amount converts to [amount]. *)
Definition shipping_method_of (app : App.t) (items : list (string * json))
    (amount : Decimal) : ShippingMethodData.t :=
  ShippingMethodData.mk (to_shipping_app_id app (field "id" items))
    (field "name" items) (Money.mk amount (field "currency" items))
    (field "maximum_delivery_days" items).

Definition converts_to (items : list (string * json)) (amount : Decimal) : Prop :=
  Decimal_new (field "amount" items) = Return amount.

Definition digits_value (l : list ascii) : Z :=
  fold_left (fun acc c => 10 * acc + digit_value c) l 0.

(** [needle in s] as a proposition. *)
Definition substring (needle s : string) : Prop :=
  exists before after, s = before +:+ needle +:+ after.

(** A section of the search document is empty or ends with a newline. *)
Definition terminated (section : string) : Prop :=
  section = "" \/ exists body, section = body +:+ NL.

(** The parts of a document, one after the other. *)
Fixpoint flatten (parts : list string) : string :=
  match parts with
  | [] => ""
  | part :: rest => part +:+ flatten rest
  end.

(** What the specification calls the rendered value of an attribute
    value: the name for a dropdown or multiselect, the plain text for
    rich text, the name followed by the unit for a numeric attribute,
    the ISO string for a date or datetime. *)
Definition rendered_value `{EditorJs} (attribute : Attribute.t) (value : AttributeValue.t)
  : option string :=
  match Attribute.input_type attribute with
  | DROPDOWN | MULTISELECT => Some (AttributeValue.name value)
  | RICH_TEXT => Some (clean_editor_js (AttributeValue.rich_text value))
  | NUMERIC =>
      Some (AttributeValue.name value +:+ default "" (Attribute.unit attribute))
  | DATE | DATE_TIME => datetime.isoformat <$> AttributeValue.date_time value
  | OTHER _ => None
  end.

(** The values of a date or datetime attribute carry a date. *)
Definition dated (assigned : AssignedAttribute.t) : bool :=
  match Attribute.input_type (AssignedAttribute.attribute assigned) with
  | DATE | DATE_TIME =>
      forallb (fun value => bool_decide (is_Some (AttributeValue.date_time value)))
              (AssignedAttribute.values assigned)
  | _ => true
  end.

Definition dated_product (product : Product.t) : bool :=
  forallb dated (Product.attributes product)
  && forallb (fun variant => forallb dated (ProductVariant.attributes variant))
             (Product.variants product).

(** The text that one assigned attribute adds to the document. *)
Definition attribute_text `{EditorJs} (assigned : AssignedAttribute.t) : string :=
  match omap (rendered_value (AssignedAttribute.attribute assigned))
             (AssignedAttribute.values assigned) with
  | [] => ""
  | values_list => join NL values_list +:+ NL
  end.

(** The text of the attributes of one variant. *)
Definition variant_text `{EditorJs} (variant : ProductVariant.t) : string :=
  lower (flatten (map attribute_text (ProductVariant.attributes variant))).

(** The SKUs of the variants, one per line. *)
Definition skus_text (product : Product.t) : string :=
  let variants_data := join NL (omap truthy_sku (Product.variants product)) in
  if nonempty variants_data then variants_data +:+ NL else variants_data.

(** Two rows that differ in [search_document] and [updated_at] at most. *)
Definition same_but_document (row row' : Product.t) : Prop :=
  row' = set_updated_at (set_search_document row (Product.search_document row'))
           (Product.updated_at row').

(** A plain-text extraction for the examples: the ["text"] of a
    document, or nothing. *)
Definition text_of_document : EditorJs :=
  fun definitions =>
    match definitions with
    | JDict items => str (field "text" items)
    | _ => ""
    end.

Definition example_product : Product.t :=
  Product.mk (Some 1) "T-Shirt" "Cotton shirt" "" (TsVector "'shirt':1") 900
    [AssignedAttribute.mk (Attribute.mk DROPDOWN None)
       [AttributeValue.mk "Red" JNull None; AttributeValue.mk "Blue" JNull None];
     AssignedAttribute.mk (Attribute.mk RICH_TEXT None)
       [AttributeValue.mk "" (JDict [("text", JStr "Soft Fabric")]) None];
     AssignedAttribute.mk (Attribute.mk NUMERIC (Some "KG"))
       [AttributeValue.mk "10" JNull None];
     AssignedAttribute.mk (Attribute.mk DATE None)
       [AttributeValue.mk "" JNull
          (Some (datetime.mk 2021 1 2 0 0 0 0 (Some 0)))]]
    [ProductVariant.mk (Some "SKU-1") "Small"
       [AssignedAttribute.mk (Attribute.mk MULTISELECT None)
          [AttributeValue.mk "XS" JNull None]]].

Definition example_db : DB.t :=
  DB.mk ∅ ∅ {[ 1 := example_product ]} 1000.

(** The gateway id of an entry is absent, null or a string without
    colon. *)
Definition colon_free_id (items : list (string * json)) : bool :=
  match field "id" items with
  | JNull => true
  | JStr s => negb (has_char ":" s)
  | _ => false
  end.

(** The exceptions that [parse_tax_data] catches. *)
Definition caught_by_parse_tax_data (e : Exc) : bool :=
  match e with
  | KeyError | InvalidOperation => true
  | _ => false
  end.


(** The fields of a line of a tax response, the amounts among them. *)
Definition tax_line_amount_fields : list string :=
  ["unit_net_amount"; "unit_gross_amount"; "total_gross_amount";
   "total_net_amount"; "tax_rate"].

Definition tax_line_fields : list string :=
  "id" :: "currency" :: tax_line_amount_fields.

(** Every amount among [fields] that [items] has is a string or a
    number. *)
Definition amounts_str_or_number (fields : list string)
    (items : list (string * json)) : bool :=
  forallb (fun k => match assoc k items with
                    | Some v => str_or_number v
                    | None => true
                    end) fields.

(** A tax response as an app sends it, complete or not: the amounts it
    has are strings or numbers, and its lines, if it has them, are a
    list of objects of which the same holds. *)
Definition tidy_tax_response (items : list (string * json)) : bool :=
  amounts_str_or_number tax_amount_fields items &&
  match assoc "lines" items with
  | None => true
  | Some (JList lines) =>
      forallb (fun line => match line with
                           | JDict line_items =>
                               amounts_str_or_number tax_line_amount_fields line_items
                           | _ => false
                           end) lines
  | Some _ => false
  end.

(** [Decimal()] converts the value of each of [fields] in [items]. *)
Definition amounts_convert (fields : list string) (items : list (string * json)) : Prop :=
  Forall (fun k => exists d, Decimal_new (field k items) = Return d) fields.

Definition has_fields (fields : list string) (items : list (string * json)) : Prop :=
  Forall (fun k => is_Some (assoc k items)) fields.

(** A complete tax response with one line. *)
Definition tax_data_complete : json :=
  JDict [("currency", JStr "USD");
         ("total_net_amount", JStr "10.00");
         ("total_gross_amount", JStr "12.30");
         ("subtotal_net_amount", JStr "10.00");
         ("subtotal_gross_amount", JStr "12.30");
         ("shipping_price_gross_amount", JInt 0);
         ("shipping_price_net_amount", JInt 0);
         ("shipping_tax_rate", JStr "0.23");
         ("lines", JList [JDict [("id", JInt 1);
                                 ("currency", JStr "USD");
                                 ("unit_net_amount", JStr "10.00");
                                 ("unit_gross_amount", JStr "12.30");
                                 ("total_gross_amount", JStr "12.30");
                                 ("total_net_amount", JStr "10.00");
                                 ("tax_rate", JStr "0.23")]])].

(** A value that can be the key of a [dict]. *)
Definition hashable (v : json) : bool :=
  match v with
  | JList _ | JDict _ => false
  | _ => true
  end.

(** The entry of a list of tax codes has the string [code] as its
    code. *)
Definition has_code (code : string) (items : list (string * json)) : bool :=
  match field "code" items with
  | JStr s => String.eqb s code
  | _ => false
  end.

(** The description of a tax code: the entry's own, or its code when it
    has none. *)
Definition tax_description (items : list (string * json)) : json :=
  if truthy (field "description" items) then field "description" items
  else field "code" items.

(** A delivery or an attempt with its status, or the outcome of a
    request, written over. *)
Definition with_status (status : EventDeliveryStatus) (delivery : EventDelivery.t)
  : EventDelivery.t :=
  EventDelivery.mk
    (EventDelivery.pk delivery) (EventDelivery.created_at delivery) status
    (EventDelivery.event_type delivery) (EventDelivery.payload delivery)
    (EventDelivery.webhook delivery).

Definition with_response (webhook_response : WebhookResponse.t)
    (attempt : EventDeliveryAttempt.t) : EventDeliveryAttempt.t :=
  EventDeliveryAttempt.mk
    (EventDeliveryAttempt.pk attempt) (EventDeliveryAttempt.created_at attempt)
    (EventDeliveryAttempt.delivery attempt) (EventDeliveryAttempt.task_id attempt)
    (Some (WebhookResponse.duration webhook_response))
    (Some (WebhookResponse.content webhook_response))
    (Some (dumps (WebhookResponse.request_headers webhook_response)))
    (Some (dumps (WebhookResponse.response_headers webhook_response)))
    (WebhookResponse.status webhook_response).

(** An assigned attribute that puts nothing into the search document
    and the search vector: it has no value, or its input type is none
    of those that are indexed. *)
Definition without_text (assigned : AssignedAttribute.t) : bool :=
  match AssignedAttribute.values assigned,
        Attribute.input_type (AssignedAttribute.attribute assigned) with
  | [], _ => true
  | _, OTHER _ => true
  | _, _ => false
  end.

(** A product with one date attribute whose value has no date. *)
Definition undated_product : Product.t :=
  Product.mk (Some 2) "Calendar" "" "" (TsVector "'calendar':1") 900
    [AssignedAttribute.mk (Attribute.mk DATE None) [AttributeValue.mk "" JNull None]]
    [].

(** The terms of a search vector, left to right: the values and the
    weight of each [SearchVector(...)] that was added into it. *)
Fixpoint terms (vector : SearchVector) : list (list (option string) * string) :=
  match vector with
  | SearchVector_of values weight => [(values, weight)]
  | SearchVector_add l r => (terms l ++ terms r)%list
  end.

(** The terms of a vector that may be [None]. *)
Definition option_terms (vector : option SearchVector)
  : list (list (option string) * string) :=
  match vector with
  | Some vector => terms vector
  | None => []
  end.

(** The text that the search vector indexes for a value of an
    attribute: as in the document, but for a space before the unit and
    the seconds format of dates. *)
Definition vector_value `{EditorJs} (attribute : Attribute.t) (value : AttributeValue.t)
  : option string :=
  match Attribute.input_type attribute with
  | DROPDOWN | MULTISELECT => Some (AttributeValue.name value)
  | RICH_TEXT => Some (clean_editor_js (AttributeValue.rich_text value))
  | NUMERIC =>
      Some (AttributeValue.name value +:+ " " +:+ default "" (Attribute.unit attribute))
  | DATE | DATE_TIME => datetime.strftime_seconds <$> AttributeValue.date_time value
  | OTHER _ => None
  end.

Definition attribute_terms `{EditorJs} (assigned_attributes : list AssignedAttribute.t)
  : list (list (option string) * string) :=
  concat (map (fun assigned =>
                 map (fun text => ([Some text], "B"))
                     (omap (vector_value (AssignedAttribute.attribute assigned))
                           (AssignedAttribute.values assigned)))
              assigned_attributes).

Definition variant_term (variant : ProductVariant.t) : list (option string) * string :=
  ([ProductVariant.sku variant; Some (ProductVariant.name variant)], "A").

(** The inverse of [b64_char] on the 64 digits, and of [b64_chars] and
    [encode] on what they produce: they recover the text of a shipping
    method identifier. *)
Definition b64_index (c : ascii) : N :=
  let n := ord c in
  if (65 <=? n)%N && (n <=? 90)%N then (n - 65)%N
  else if (97 <=? n)%N && (n <=? 122)%N then (n - 71)%N
  else if (48 <=? n)%N && (n <=? 57)%N then (n + 4)%N
  else if (n =? 43)%N then 62%N else 63%N.

Fixpoint b64_bytes (chars : list ascii) : list N :=
  match chars with
  | c1 :: c2 :: c3 :: c4 :: rest =>
      let i1 := b64_index c1 in
      let i2 := b64_index c2 in
      let i3 := b64_index c3 in
      let i4 := b64_index c4 in
      if Ascii.eqb c3 "="%char then [i1 * 4 + i2 / 16]%N
      else if Ascii.eqb c4 "="%char
           then [i1 * 4 + i2 / 16; i2 mod 16 * 16 + i3 / 4]%N
           else ([i1 * 4 + i2 / 16; i2 mod 16 * 16 + i3 / 4; i3 mod 4 * 64 + i4]%N
                 ++ b64_bytes rest)%list
  | _ => []
  end.

Fixpoint decode (bytes : list N) : list ascii :=
  match bytes with
  | [] => []
  | b :: rest =>
      if (b <? 128)%N then chr b :: decode rest
      else match rest with
           | b' :: rest' => chr ((b - 192) * 64 + (b' - 128)) :: decode rest'
           | [] => []
           end
  end.



(** * Properties *)

(** ** Characters and digits *)

Ltac ascii_cases c :=
  destruct c as [[|] [|] [|] [|] [|] [|] [|] [|]];
  try reflexivity; try discriminate.

Lemma digit_not_int_space c : is_digit c = true -> int_space c = false.
Proof. ascii_cases c. Qed.

Lemma digit_not_colon c : is_digit c = true -> Ascii.eqb ":" c = false.
Proof. ascii_cases c. Qed.

Lemma digit_char_is_digit (d : N) : (d < 10)%N -> is_digit (digit_char d) = true.
Proof.
  intros Hd. unfold is_digit, digit_char, ord, chr.
  rewrite N_ascii_embedding by lia.
  apply andb_true_intro; split; apply N.leb_le; lia.
Qed.

Lemma digit_value_char (d : N) : (d < 10)%N -> digit_value (digit_char d) = Z.of_N d.
Proof.
  intros Hd. unfold digit_value, digit_char, ord, chr.
  rewrite N_ascii_embedding by lia. lia.
Qed.

Lemma digits_fuel_all_digits fuel n : Forall (fun c => is_digit c = true) (digits_fuel fuel n).
Proof.
  revert n; induction fuel as [|fuel IH]; intros n; simpl; [constructor|].
  destruct (N.ltb_spec n 10).
  - repeat constructor. now apply digit_char_is_digit.
  - apply Forall_app; split; [apply IH|].
    repeat constructor. apply digit_char_is_digit. now apply N.mod_lt.
Qed.

Lemma digits_fuel_nonempty fuel n : digits_fuel (S fuel) n <> [].
Proof.
  simpl. destruct (n <? 10)%N; [discriminate|].
  intros Heq. apply app_eq_nil in Heq as [_ Heq]. discriminate.
Qed.


Lemma digits_fuel_value fuel n :
  (n < 10 ^ N.of_nat fuel)%N -> digits_value (digits_fuel fuel n) = Z.of_N n.
Proof.
  unfold digits_value.
  revert n; induction fuel as [|fuel IH]; intros n Hn.
  - simpl in *. lia.
  - cbn [digits_fuel]. destruct (N.ltb_spec n 10) as [Hlt|Hge].
    + simpl. rewrite digit_value_char by assumption. lia.
    + rewrite fold_left_app. cbn [fold_left].
      rewrite IH, digit_value_char by (try apply N.mod_lt; try lia;
        rewrite Nat2N.inj_succ, N.pow_succ_r' in Hn;
        apply N.Div0.div_lt_upper_bound; lia).
      rewrite N2Z.inj_div, N2Z.inj_mod.
      pose proof (Z.div_mod (Z.of_N n) 10). lia.
Qed.

Lemma digits_bound n : (n < 10 ^ N.of_nat (S (N.to_nat (N.log2 n))))%N.
Proof.
  rewrite Nat2N.inj_succ, N2Nat.id.
  destruct (N.eq_dec n 0%N) as [->|Hn]; [reflexivity|].
  destruct (N.log2_spec n) as [_ Hlt]; [lia|].
  eapply N.lt_le_trans; [exact Hlt|].
  apply N.pow_le_mono_l. lia.
Qed.

Lemma digits_value_digits n : digits_value (digits n) = Z.of_N n.
Proof. apply digits_fuel_value, digits_bound. Qed.

Lemma digits_all_digits n : Forall (fun c => is_digit c = true) (digits n).
Proof. apply digits_fuel_all_digits. Qed.

Lemma digits_nonempty n : digits n <> [].
Proof. apply digits_fuel_nonempty. Qed.

Lemma int_digits_all_digits l :
  Forall (fun c => is_digit c = true) l ->
  forall acc after_digit, (l <> [] \/ after_digit = true) ->
  int_digits acc after_digit l
  = Some (fold_left (fun a c => 10 * a + digit_value c) l acc).
Proof.
  induction 1 as [|c l Hc _ IH]; intros acc after_digit Hne.
  - destruct Hne as [Hne| ->]; [congruence|reflexivity].
  - simpl. rewrite Hc. apply IH. now right.
Qed.

(** ** Stripping and splitting *)

Lemma lstrip_id sp l : Forall (fun c => sp c = false) l -> lstrip sp l = l.
Proof. destruct 1 as [|c l Hc _]; simpl; [|rewrite Hc]; reflexivity. Qed.

Lemma strip_id sp l : Forall (fun c => sp c = false) l -> strip sp l = l.
Proof.
  intros Hl. unfold strip. rewrite (lstrip_id _ _ Hl), lstrip_id.
  - apply rev_involutive.
  - now apply List.Forall_rev.
Qed.

Lemma has_char_cons c a s :
  has_char c (String a s) = Ascii.eqb c a || has_char c s.
Proof. reflexivity. Qed.

Lemma split_without_sep sep s : has_char sep s = false -> split sep s = [s].
Proof.
  induction s as [|a s IH]; [reflexivity|].
  rewrite has_char_cons. intros Hs. apply orb_false_elim in Hs as [Ha Hs].
  cbn [split]. rewrite (Ascii.eqb_sym a sep), Ha, (IH Hs). reflexivity.
Qed.

Lemma split_app sep a b :
  has_char sep a = false -> split sep (a +:+ String sep b) = a :: split sep b.
Proof.
  induction a as [|c a IH]; intros Ha.
  - simpl. now rewrite Ascii.eqb_refl.
  - rewrite has_char_cons in Ha. apply orb_false_elim in Ha as [Hc Ha].
    change (String c a +:+ String sep b) with (String c (a +:+ String sep b)).
    cbn [split]. rewrite (Ascii.eqb_sym c sep), Hc, (IH Ha). reflexivity.
Qed.

Lemma has_char_of_chars c l : has_char c (of_chars l) = existsb (Ascii.eqb c) l.
Proof. unfold has_char, of_chars. now rewrite list_ascii_of_string_of_list_ascii. Qed.

Lemma existsb_false_digits c l :
  (forall d, is_digit d = true -> Ascii.eqb c d = false) ->
  Forall (fun d => is_digit d = true) l -> existsb (Ascii.eqb c) l = false.
Proof.
  intros Hc. induction 1 as [|d l Hd _ IH]; [reflexivity|].
  simpl. now rewrite (Hc d Hd), IH.
Qed.

(** ** [str] and [int] of an integer *)

Lemma digits_no_colon n : has_char ":" (string_of_list_ascii (digits n)) = false.
Proof.
  unfold has_char. rewrite list_ascii_of_string_of_list_ascii.
  apply (existsb_false_digits ":"); auto using digit_not_colon, digits_all_digits.
Qed.

Lemma str_of_int_no_colon z : has_char ":" (str_of_int z) = false.
Proof.
  destruct z as [|p|p]; cbn [str_of_int]; rewrite ?has_char_cons;
    rewrite digits_no_colon; reflexivity.
Qed.

Lemma str_of_int_nonempty z : nonempty (str_of_int z) = true.
Proof.
  destruct z as [|p|p]; cbn [str_of_int]; [reflexivity| |reflexivity].
  pose proof (digits_nonempty (Z.to_N (Zpos p))) as Hne.
  destruct (digits (Z.to_N (Zpos p))); [congruence|reflexivity].
Qed.

Lemma signed_digits_of_digits l :
  l <> [] -> Forall (fun c => is_digit c = true) l ->
  signed_digits l = Some (digits_value l).
Proof.
  intros Hne Hl.
  destruct l as [|c l]; [congruence|].
  assert (Hc : is_digit c = true) by now inversion Hl.
  transitivity (int_digits 0 false (c :: l)).
  - revert Hc. clear. ascii_cases c.
  - now rewrite (int_digits_all_digits _ Hl) by now left.
Qed.

Lemma int_str_of_int z : int (str_of_int z) = Return z.
Proof.
  unfold int. destruct z as [|p|p]; cbn [str_of_int].
  - reflexivity.
  - rewrite list_ascii_of_string_of_list_ascii, strip_id.
    2:{ eapply Forall_impl; [apply digits_all_digits|]. apply digit_not_int_space. }
    rewrite signed_digits_of_digits
      by auto using digits_nonempty, digits_all_digits.
    now rewrite digits_value_digits.
  - cbn [list_ascii_of_string]. rewrite list_ascii_of_string_of_list_ascii.
    rewrite strip_id.
    2:{ constructor; [reflexivity|].
        eapply Forall_impl; [apply digits_all_digits|]. apply digit_not_int_space. }
    cbn [signed_digits].
    rewrite (int_digits_all_digits _ (digits_all_digits _))
      by (left; apply digits_nonempty).
    fold (digits_value (digits (Npos p))). rewrite digits_value_digits. reflexivity.
Qed.

Lemma int_raises_ValueError s e : int s = Raise e -> e = ValueError.
Proof.
  unfold int.
  destruct (signed_digits (strip int_space (list_ascii_of_string s))); congruence.
Qed.

(** ** Payment app identifiers *)

Example to_payment_app_id_stripe :
  to_payment_app_id (App.mk 7) (JStr "stripe") = "app:7:stripe".
Proof. reflexivity. Qed.

Lemma split_payment_app_id (app : App.t) (gateway_id : string) :
  has_char ":" gateway_id = false ->
  split ":" (to_payment_app_id app (JStr gateway_id))
  = ["app"; str_of_int (App.pk app); gateway_id].
Proof.
  intros Hg. unfold to_payment_app_id, APP_ID_PREFIX.
  change (str (JInt (App.pk app))) with (str_of_int (App.pk app)).
  change (str (JStr gateway_id)) with gateway_id.
  change (":" +:+ str_of_int (App.pk app) +:+ ":" +:+ gateway_id)
    with (String ":" (str_of_int (App.pk app) +:+ String ":" gateway_id)).
  rewrite split_app by reflexivity.
  rewrite split_app by apply str_of_int_no_colon.
  now rewrite split_without_sep.
Qed.

(** C1, as amended: for every app with an integer primary key and every
    gateway id that is not empty and has no colon in it, parsing the
    identifier that [to_payment_app_id] builds gives back the primary key
    and the gateway id. *)
Theorem payment_app_id_round_trip (app : App.t) (gateway_id : string) :
  gateway_id <> "" ->
  has_char ":" gateway_id = false ->
  from_payment_app_id (to_payment_app_id app (JStr gateway_id))
  = Return (Some (PaymentAppData.mk (App.pk app) gateway_id)).
Proof.
  intros Hne Hcolon. unfold from_payment_app_id.
  rewrite split_payment_app_id by assumption.
  cbn [length nth Nat.eqb forallb]. unfold APP_ID_PREFIX.
  rewrite String.eqb_refl, str_of_int_nonempty, int_str_of_int.
  destruct gateway_id; [congruence|reflexivity].
Qed.

Lemma payment_app_id_round_trip_witness :
  "stripe" <> "" /\ has_char ":" "stripe" = false /\
  from_payment_app_id (to_payment_app_id (App.mk 7) (JStr "stripe"))
  = Return (Some (PaymentAppData.mk 7 "stripe")).
Proof.
  split; [discriminate|]. split; [reflexivity|].
  apply (payment_app_id_round_trip (App.mk 7) "stripe"); [discriminate|reflexivity].
Defined.

(** C1 as stated fails: a gateway id with a colon in it gives an
    identifier of four segments, which is not parsed back; so does the
    empty gateway id. *)
Lemma payment_app_id_round_trip_colon :
  from_payment_app_id (to_payment_app_id (App.mk 7) (JStr "eu:stripe")) = Return None
  /\ from_payment_app_id (to_payment_app_id (App.mk 7) (JStr "eu:stripe"))
     <> Return (Some (PaymentAppData.mk 7 "eu:stripe")).
Proof. split; [reflexivity|discriminate]. Qed.

Example payment_app_id_round_trip_empty :
  from_payment_app_id (to_payment_app_id (App.mk 7) (JStr "")) = Return None.
Proof. reflexivity. Qed.

(** C4: a string that is not a well-formed payment app identifier, for
    one of the four reasons (the number of segments between colons is
    not three, the first segment is not "app", the second segment is not
    accepted by [int], a segment is empty) is answered with [None], and
    nothing is raised. *)
Theorem from_payment_app_id_malformed (app_gateway_id : string) :
  length (split ":" app_gateway_id) <> 3%nat
  \/ nth 0 (split ":" app_gateway_id) "" <> "app"
  \/ ~ returns (int (nth 1 (split ":" app_gateway_id) ""))
  \/ Exists (fun segment => segment = "") (split ":" app_gateway_id) ->
  from_payment_app_id app_gateway_id = Return None.
Proof.
  intros Hbad. unfold from_payment_app_id, APP_ID_PREFIX.
  destruct (Nat.eqb_spec (length (split ":" app_gateway_id)) 3) as [Hlen|Hlen];
    [|reflexivity].
  destruct (String.eqb_spec (nth 0 (split ":" app_gateway_id) "") "app")
    as [Hprefix|Hprefix]; [|reflexivity].
  destruct (forallb nonempty (split ":" app_gateway_id)) eqn:Hall; [|reflexivity].
  cbn [andb].
  destruct (int (nth 1 (split ":" app_gateway_id) "")) as [z|e] eqn:Hint.
  - exfalso. destruct Hbad as [H|[H|[H|H]]]; try contradiction.
    + apply H. now exists z.
    + apply Exists_exists in H as (segment & Hin & ->).
      rewrite forallb_forall in Hall.
      apply list_elem_of_In in Hin. now apply Hall in Hin.
  - apply int_raises_ValueError in Hint as ->. reflexivity.
Qed.

Lemma from_payment_app_id_malformed_witness :
  from_payment_app_id "app:x7:stripe" = Return None
  /\ from_payment_app_id "app:7" = Return None
  /\ from_payment_app_id "gateway:7:stripe" = Return None
  /\ from_payment_app_id "app:7:" = Return None.
Proof.
  split; [|split; [|split]].
  - apply from_payment_app_id_malformed.
    right; right; left. intros [z Hz]. discriminate Hz.
  - apply from_payment_app_id_malformed. left. discriminate.
  - apply from_payment_app_id_malformed. right; left. discriminate.
  - apply from_payment_app_id_malformed.
    right; right; right. apply Exists_exists. exists "". split; [|reflexivity].
    apply list_elem_of_In. simpl. tauto.
Defined.

(** The function never raises, whatever it is given. *)
Lemma from_payment_app_id_returns (app_gateway_id : string) :
  returns (from_payment_app_id app_gateway_id).
Proof.
  unfold from_payment_app_id.
  destruct (_ && _); [|now eexists].
  destruct (int _) as [z|e] eqn:Hint; [now eexists|].
  apply int_raises_ValueError in Hint as ->. now eexists.
Qed.

(** ** Outcomes *)

Lemma only_raises_bind {A B} allowed (m : Outcome A) (k : A -> Outcome B) :
  only_raises allowed m -> (forall a, only_raises allowed (k a)) ->
  only_raises allowed (m ≫= k).
Proof.
  intros Hm Hk e. destruct m as [a|e']; cbn.
  - apply Hk.
  - intros [= ->]. now apply Hm.
Qed.

Lemma only_raises_Return {A} allowed (a : A) : only_raises allowed (Return a).
Proof. intros e. discriminate. Qed.


Lemma for_each_cons {A B} (f : A -> Outcome B) x xs :
  for_each f (x :: xs) = y ← f x; ys ← for_each f xs; Return (y :: ys).
Proof. reflexivity. Qed.

Lemma for_each_Forall2 {A B} (f : A -> Outcome B) xs ys :
  Forall2 (fun x y => f x = Return y) xs ys -> for_each f xs = Return ys.
Proof.
  induction 1 as [|x y xs ys Hxy _ IH]; cbn [for_each]; [reflexivity|].
  now rewrite Hxy, IH.
Qed.

Lemma for_each_raise {A B} (f : A -> Outcome B) pre x post ys e :
  Forall2 (fun x y => f x = Return y) pre ys -> f x = Raise e ->
  for_each f (pre ++ x :: post) = Raise e.
Proof.
  induction 1 as [|x' y pre ys Hxy _ IH]; intros Hx; cbn [for_each app].
  - now rewrite Hx.
  - now rewrite Hxy, IH.
Qed.

(** ** The decimal constructor *)

Lemma exactly_raises d : only_raises is_DecimalException (exactly d).
Proof.
  intros e. destruct d; cbn; try discriminate.
  destruct (_ && _); [discriminate|]. now intros [= <-].
Qed.

Lemma Decimal_of_str_raises s : only_raises is_DecimalException (Decimal_of_str s).
Proof.
  intros e. unfold Decimal_of_str.
  destruct (take_sign _) as [sign l].
  destruct (decimal_number sign l); [apply exactly_raises|].
  destruct (decimal_special sign l); [discriminate|]. now intros [= <-].
Qed.

(** [Decimal(v)] converts a string or a number, or rejects it with a
    [DecimalException]. *)
Lemma Decimal_new_str_or_number v :
  str_or_number v = true -> only_raises is_DecimalException (Decimal_new v).
Proof.
  destruct v; try discriminate; intros _; cbn [Decimal_new];
    auto using Decimal_of_str_raises, only_raises_Return.
Qed.





(** ** Tax data *)





(** The example of the specification: without [total_net_amount] there
    is no data. *)
Example parse_tax_data_missing_amount :
  parse_tax_data tax_data_missing_amount = Return None.
Proof. reflexivity. Qed.

Example parse_tax_data_not_a_decimal :
  parse_tax_data
    (JDict [("currency", JStr "USD"); ("total_net_amount", JStr "twelve")])
  = Return None.
Proof. reflexivity. Qed.

(** C2, at the failing input: the response has every field, its
    [total_net_amount] is null, which [Decimal()] rejects with a
    [TypeError]; [parse_tax_data] catches [KeyError] and
    [DecimalException] only and lets it through. *)
Theorem parse_tax_data_null_amount :
  parse_tax_data tax_data_null_amount = Raise TypeError.
Proof. reflexivity. Qed.

Example parse_tax_data_null_amount_and_missing_fields :
  parse_tax_data (JDict [("currency", JStr "USD"); ("total_net_amount", JNull)])
  = Raise TypeError.
Proof. reflexivity. Qed.

Example parse_tax_data_list_amount :
  parse_tax_data (JDict [("currency", JStr "USD"); ("total_net_amount", JList [])])
  = Raise ValueError.
Proof. reflexivity. Qed.

(** One amount of the tax response: missing, rejected or converted. *)
Ltac amount_step items Hamounts f :=
  let v := fresh "v" in
  let Hf := fresh "Hf" in
  destruct (assoc f items) as [v|] eqn:Hf; [|reflexivity];
  cbn [mbind outcome_bind bind];
  let Hv := fresh "Hv" in
  assert (Hv : str_or_number v = true)
    by (apply (Hamounts f); [apply list_elem_of_In; simpl; tauto|exact Hf]);
  let e := fresh "e" in
  let Hd := fresh "Hd" in
  destruct (Decimal_new v) as [?d|e] eqn:Hd;
    [|apply (Decimal_new_str_or_number _ Hv) in Hd;
      destruct e; try discriminate Hd; reflexivity];
  cbn [mbind outcome_bind bind].

(** The part of C2 that the code keeps: when a field is missing at the
    top level and the amounts that are there are strings or numbers,
    there is no data and nothing is raised. *)
Lemma parse_tax_data_missing_field (items : list (string * json)) (k : string) :
  k ∈ tax_fields ->
  assoc k items = None ->
  (forall k' v, k' ∈ tax_amount_fields -> assoc k' items = Some v ->
                str_or_number v = true) ->
  parse_tax_data (JDict items) = Return None.
Proof.
  intros Hk Hmissing Hamounts.
  unfold parse_tax_data, _unsafe_parse_tax_data, decimal_at.
  cbn [getitem].
  destruct (assoc "currency" items) as [currency|] eqn:Hcurrency; [|reflexivity].
  cbn [mbind outcome_bind bind].
  amount_step items Hamounts "total_net_amount".
  amount_step items Hamounts "total_gross_amount".
  amount_step items Hamounts "subtotal_net_amount".
  amount_step items Hamounts "subtotal_gross_amount".
  amount_step items Hamounts "shipping_price_gross_amount".
  amount_step items Hamounts "shipping_price_net_amount".
  amount_step items Hamounts "shipping_tax_rate".
  destruct (assoc "lines" items) as [lines|] eqn:Hlines; [|reflexivity].
  exfalso. unfold tax_fields, tax_amount_fields in Hk. cbn [app] in Hk.
  repeat (apply elem_of_cons in Hk as [->|Hk]; [congruence|]).
  now apply elem_of_nil in Hk.
Qed.

(** ** The list parsers *)

Lemma for_in_nil {A S} (body : A -> S -> Outcome S) s : for_in [] body s = Return s.
Proof. reflexivity. Qed.

Lemma for_in_cons {A S} (body : A -> S -> Outcome S) x xs s :
  for_in (x :: xs) body s = body x s ≫= for_in xs body.
Proof. reflexivity. Qed.

Lemma payment_gateways_of_objects (app : App.t) (entries : list (list (string * json))) :
  parse_list_payment_gateways_response (JList (map JDict entries)) app
  = Return (map (gateway_of app) (filter (fun items => has_gateway_id items) entries)).
Proof.
  unfold parse_list_payment_gateways_response.
  cbn [iterate mbind outcome_bind bind].
  match goal with
  | |- for_in _ ?body _ = _ =>
      assert (Hloop : forall acc,
                 for_in (map JDict entries) body acc
                 = Return (acc ++ map (gateway_of app)
                                    (filter (fun items => has_gateway_id items) entries))%list)
  end.
  { induction entries as [|items entries IH]; intros acc.
    - cbn. now rewrite app_nil_r.
    - cbn [map]. rewrite for_in_cons. cbn [get get_or mbind outcome_bind bind].
      fold (field "id" items) (field "name" items) (field "currencies" items)
           (field "config" items).
      destruct (truthy (field "id" items)) eqn:Hid.
      + rewrite filter_cons_True by (unfold has_gateway_id; now rewrite Hid).
        cbn [mbind outcome_bind bind]. rewrite IH. cbn [map].
        now rewrite <- app_assoc.
      + rewrite filter_cons_False by (unfold has_gateway_id; now rewrite Hid).
        apply IH. }
  apply Hloop.
Qed.

Lemma shipping_methods_of_objects (app : App.t) (entries : list (list (string * json))) :
  parse_list_shipping_methods_response (JList (map JDict entries)) app
  = amounts ← for_each (fun items => Decimal_new (field "amount" items)) entries;
    Return (zip_with (shipping_method_of app) entries amounts).
Proof.
  unfold parse_list_shipping_methods_response.
  cbn [iterate mbind outcome_bind bind].
  match goal with
  | |- for_in _ ?body _ = _ =>
      assert (Hloop : forall acc,
                 for_in (map JDict entries) body acc
                 = amounts ← for_each (fun items => Decimal_new (field "amount" items))
                               entries;
                   Return (acc ++ zip_with (shipping_method_of app) entries amounts)%list)
  end.
  { induction entries as [|items entries IH]; intros acc.
    - cbn. now rewrite app_nil_r.
    - cbn [map for_each]. rewrite for_in_cons.
      cbn [get get_or mbind outcome_bind bind]. unfold Money.new.
      fold (field "amount" items) (field "id" items) (field "name" items)
           (field "currency" items) (field "maximum_delivery_days" items).
      destruct (Decimal_new (field "amount" items)) as [amount|e]; [|reflexivity].
      cbn [mbind outcome_bind bind]. rewrite IH.
      destruct (for_each _ entries) as [amounts|e]; [|reflexivity].
      cbn [mbind outcome_bind bind zip_with]. now rewrite <- app_assoc. }
  apply Hloop.
Qed.

(** C8, as amended: on a list of objects the payment parser raises
    nothing; it skips the entries whose id is absent or falsy and builds
    a gateway from each other entry, with [None] for a missing name,
    currencies or config.  The shipping parser skips no entry: when
    every amount converts, there is one method per entry, in order, with
    [None] for a missing id, name, currency or maximum_delivery_days;
    and an entry without amount, after entries whose amounts convert,
    makes it raise a [TypeError]. *)
Theorem list_parsers_missing_keys (app : App.t) (entries : list (list (string * json))) :
  parse_list_payment_gateways_response (JList (map JDict entries)) app
  = Return (map (gateway_of app) (filter (fun items => has_gateway_id items) entries))
  /\ (forall amounts,
        Forall2 converts_to entries amounts ->
        parse_list_shipping_methods_response (JList (map JDict entries)) app
        = Return (zip_with (shipping_method_of app) entries amounts))
  /\ (forall before items after amounts,
        entries = (before ++ items :: after)%list ->
        Forall2 converts_to before amounts ->
        assoc "amount" items = None ->
        parse_list_shipping_methods_response (JList (map JDict entries)) app
        = Raise TypeError).
Proof.
  split; [apply payment_gateways_of_objects|]. split.
  - intros amounts Hamounts. rewrite shipping_methods_of_objects.
    now rewrite (for_each_Forall2 _ _ _ Hamounts).
  - intros before items after amounts -> Hbefore Hmissing.
    rewrite shipping_methods_of_objects.
    rewrite (for_each_raise _ before items after amounts TypeError); auto.
    unfold field. now rewrite Hmissing.
Qed.

Lemma list_parsers_missing_keys_witness :
  parse_list_payment_gateways_response
    (JList [JDict [("name", JStr "Stripe")]; JDict [("id", JStr "stripe")]]) (App.mk 1)
  = Return [PaymentGateway.mk "app:1:stripe" JNull JNull JNull]
  /\ parse_list_shipping_methods_response
       (JList [JDict [("amount", JStr "10.50")]]) (App.mk 1)
     = Return [ShippingMethodData.mk "YXBwOjE6Tm9uZQ==" JNull
                 (Money.mk (DFinite false 1050 (-2)) JNull) JNull]
  /\ parse_list_shipping_methods_response
       (JList [JDict [("amount", JStr "10.50")]; JDict [("id", JStr "dhl")]]) (App.mk 1)
     = Raise TypeError.
Proof.
  split; [|split].
  - exact (proj1 (list_parsers_missing_keys (App.mk 1)
                    [[("name", JStr "Stripe")]; [("id", JStr "stripe")]])).
  - apply (proj1 (proj2 (list_parsers_missing_keys (App.mk 1) [[("amount", JStr "10.50")]]))
             [DFinite false 1050 (-2)]).
    repeat constructor.
  - apply (proj2 (proj2 (list_parsers_missing_keys (App.mk 1)
                           [[("amount", JStr "10.50")]; [("id", JStr "dhl")]]))
             [[("amount", JStr "10.50")]] [("id", JStr "dhl")] [] [DFinite false 1050 (-2)]).
    + reflexivity.
    + repeat constructor.
    + reflexivity.
Defined.

(** C8 as stated fails: the payment parser skips the entry that has no
    id and raises nothing. *)
Lemma payment_gateways_entry_without_id :
  parse_list_payment_gateways_response (JList [JDict [("name", JStr "Stripe")]]) (App.mk 1)
  = Return [].
Proof. reflexivity. Qed.

(** A shipping entry without id is kept; its identifier encodes
    ["app:1:None"]. *)
Example shipping_methods_entry_without_id :
  parse_list_shipping_methods_response
    (JList [JDict [("name", JStr "DHL"); ("amount", JInt 10); ("currency", JStr "USD")]])
    (App.mk 1)
  = Return [ShippingMethodData.mk (b64encode (encode "app:1:None")) (JStr "DHL")
              (Money.mk (DFinite false 10 0) (JStr "USD")) JNull].
Proof. reflexivity. Qed.

(** An entry that is not an object has no [get] to call. *)
Example payment_gateways_entry_not_an_object :
  parse_list_payment_gateways_response (JList [JStr "stripe"]) (App.mk 1)
  = Raise AttributeError.
Proof. reflexivity. Qed.

(** ** The payment action response *)

Lemma contains_key k items :
  contains k (JDict items) = Return (bool_decide (is_Some (assoc k items))).
Proof. reflexivity. Qed.

(** C10, as amended: for every payment data and every response object
    whose [payment_method] is absent, falsy or an object, and whose
    [amount], when present, is converted by [Decimal()] or rejected with
    a [DecimalException] (as every string and every number is), the
    parser returns a response whose [is_success] is true exactly when
    [error] is absent or falsy, and whose [amount] is the decimal value
    of the response's amount when it is present and converts, and the
    amount of the payment data when it is missing or rejected. *)
Theorem parse_payment_action_response_amount
    (payment_information : PaymentData.t) (items : list (string * json))
    (transaction_kind : string) :
  truthy (field "payment_method" items) = false
    \/ (exists method, field "payment_method" items = JDict method) ->
  (forall v e, assoc "amount" items = Some v -> Decimal_new v = Raise e ->
               is_DecimalException e = true) ->
  exists response,
    parse_payment_action_response payment_information (JDict items) transaction_kind
    = Return response
    /\ (GatewayResponse.is_success response = true
        <-> assoc "error" items = None
            \/ exists v, assoc "error" items = Some v /\ truthy v = false)
    /\ (forall v d, assoc "amount" items = Some v -> Decimal_new v = Return d ->
                    GatewayResponse.amount response = d)
    /\ (assoc "amount" items = None
        \/ (exists v e, assoc "amount" items = Some v /\ Decimal_new v = Raise e) ->
        GatewayResponse.amount response = PaymentData.amount payment_information).
Proof.
  intros Hmethod Hamount.
  unfold parse_payment_action_response.
  cbn [get get_or mbind outcome_bind bind].
  fold (field "error" items) (field "payment_method" items).
  assert (Hinfo : exists info,
             (if truthy (field "payment_method" items)
              then
                brand ← get (field "payment_method" items) "brand";
                exp_month ← get (field "payment_method" items) "exp_month";
                exp_year ← get (field "payment_method" items) "exp_year";
                last_4 ← get (field "payment_method" items) "last_4";
                name ← get (field "payment_method" items) "name";
                type ← get (field "payment_method" items) "type";
                Return (Some (PaymentMethodInfo.mk brand exp_month exp_year
                                last_4 name type))
              else Return None) = Return info).
  { destruct Hmethod as [-> | [method ->]]; [now eexists|].
    destruct (truthy (JDict method)); now eexists. }
  destruct Hinfo as [info ->]. cbn [mbind outcome_bind bind].
  rewrite contains_key. cbn [mbind outcome_bind bind getitem].
  assert (Herror :
             negb (truthy (field "error" items)) = true
             <-> assoc "error" items = None
                 \/ exists v, assoc "error" items = Some v /\ truthy v = false).
  { unfold field. destruct (assoc "error" items) as [v|]; cbn [default].
    - rewrite negb_true_iff. split.
      + intros Hv. right. now exists v.
      + intros [Hnone | (v' & [= <-] & Hv)]; [discriminate|exact Hv].
    - split; [now left|reflexivity]. }
  destruct (assoc "amount" items) as [v|] eqn:Hv.
  - rewrite bool_decide_eq_true_2 by now eexists.
    cbn [mbind outcome_bind bind].
    destruct (Decimal_new v) as [d|e] eqn:Hd.
    + eexists. split; [reflexivity|]. cbn. split; [exact Herror|]. split.
      * intros v' d' [= <-]. congruence.
      * intros [Hnone | (v' & e & [= <-] & He)]; congruence.
    + rewrite (Hamount v e eq_refl Hd).
      eexists. split; [reflexivity|]. cbn. split; [exact Herror|]. split.
      * intros v' d' [= <-]. congruence.
      * reflexivity.
  - rewrite bool_decide_eq_false_2 by (intros [? [=]]).
    eexists. split; [reflexivity|]. cbn. split; [exact Herror|]. split.
    + intros v' d' [=].
    + reflexivity.
Qed.

Lemma parse_payment_action_response_amount_witness :
  exists response,
    parse_payment_action_response (PaymentData.mk (DFinite false 1000 (-2)) "USD")
      (JDict [("amount", JStr "12.50"); ("error", JNull);
              ("payment_method", JDict [("brand", JStr "visa")])]) "capture"
    = Return response
    /\ GatewayResponse.is_success response = true
    /\ GatewayResponse.amount response = DFinite false 1250 (-2).
Proof.
  destruct (parse_payment_action_response_amount
              (PaymentData.mk (DFinite false 1000 (-2)) "USD")
              [("amount", JStr "12.50"); ("error", JNull);
               ("payment_method", JDict [("brand", JStr "visa")])] "capture")
    as (response & Hparse & Hsuccess & Hconverted & _).
  - right. now eexists.
  - intros v e [= <-]. discriminate.
  - exists response. split; [exact Hparse|]. split.
    + apply Hsuccess. right. now exists JNull.
    + now apply (Hconverted (JStr "12.50")).
Defined.

(** C10 as stated fails: a [payment_method] that is not an object has no
    [get] to call, and the parser raises. *)
Lemma parse_payment_action_response_method_not_an_object :
  parse_payment_action_response (PaymentData.mk (DFinite false 1000 (-2)) "USD")
    (JDict [("payment_method", JStr "card")]) "capture"
  = Raise AttributeError.
Proof. reflexivity. Qed.

(** The fallback to the amount of the payment data, and its limits. *)
Example parse_payment_action_response_amount_rejected :
  GatewayResponse.amount <$>
    parse_payment_action_response (PaymentData.mk (DFinite false 1000 (-2)) "USD")
      (JDict [("amount", JStr "ten")]) "capture"
  = Return (DFinite false 1000 (-2)).
Proof. reflexivity. Qed.

Example parse_payment_action_response_amount_float :
  GatewayResponse.amount <$>
    parse_payment_action_response (PaymentData.mk (DFinite false 1000 (-2)) "USD")
      (JDict [("amount", JFloat (S754_finite false 25 (-1)))]) "capture"
  = Return (DFinite false 125 (-1)).
Proof. reflexivity. Qed.

Example parse_payment_action_response_amount_null :
  parse_payment_action_response (PaymentData.mk (DFinite false 1000 (-2)) "USD")
    (JDict [("amount", JNull)]) "capture"
  = Raise TypeError.
Proof. reflexivity. Qed.

(** ** Event deliveries *)

Lemma bulk_create_spec (objs : list EventDelivery.t) (db : DB.t) :
  Forall2
    (fun obj row =>
       EventDelivery.status row = EventDelivery.status obj
       /\ EventDelivery.event_type row = EventDelivery.event_type obj
       /\ EventDelivery.payload row = EventDelivery.payload obj
       /\ EventDelivery.webhook row = EventDelivery.webhook obj
       /\ exists k, EventDelivery.pk row = Some k
                    /\ DB.deliveries db !! k = None
                    /\ DB.deliveries (bulk_create objs db).2 !! k = Some row)
    objs (bulk_create objs db).1
  /\ size (DB.deliveries (bulk_create objs db).2)
     = (size (DB.deliveries db) + length objs)%nat
  /\ (forall k row, DB.deliveries db !! k = Some row ->
                    DB.deliveries (bulk_create objs db).2 !! k = Some row)
  /\ DB.attempts (bulk_create objs db).2 = DB.attempts db
  /\ DB.products (bulk_create objs db).2 = DB.products db.
Proof.
  revert db. induction objs as [|obj objs IH]; intros db.
  - cbn. repeat split; [constructor|lia|auto].
  - cbn [bulk_create].
    set (k := fresh (dom (DB.deliveries db))).
    set (row := EventDelivery.mk (Some k) _ _ _ _ _).
    set (db1 := DB.with_deliveries db _).
    specialize (IH db1). destruct (bulk_create objs db1) as [rows db'].
    cbn [fst snd] in *.
    destruct IH as (Hrows & Hsize & Hkept & Hattempts & Hproducts).
    assert (Hfresh : DB.deliveries db !! k = None).
    { apply not_elem_of_dom. apply is_fresh. }
    assert (Hk : DB.deliveries db1 !! k = Some row) by apply lookup_insert_eq.
    repeat split.
    + constructor.
      * repeat split. exists k. auto.
      * eapply Forall2_impl; [exact Hrows|]. cbn.
        intros obj' row' (? & ? & ? & ? & k' & ? & Hnone & ?).
        repeat split; auto. exists k'. repeat split; auto.
        apply lookup_insert_None in Hnone. tauto.
    + rewrite Hsize. cbn. rewrite map_size_insert_None by exact Hfresh. lia.
    + intros k' row' Hrow'. apply Hkept. cbn.
      rewrite lookup_insert_ne; [exact Hrow'|]. congruence.
    + exact Hattempts.
    + exact Hproducts.
Qed.

(** C7: one delivery is created per webhook, in order, each PENDING,
    with the given event type and payload and with that webhook; the
    created deliveries are returned, each stored under a primary key that
    was not in use, and the table grows by exactly that many rows. *)
Theorem create_event_delivery_list_for_webhooks_spec
    (webhooks : list Z) (event_payload : Z) (event_type : string) (db : DB.t) :
  let result :=
    create_event_delivery_list_for_webhooks webhooks event_payload event_type db in
  Forall2
    (fun webhook delivery =>
       EventDelivery.status delivery = PENDING
       /\ EventDelivery.event_type delivery = event_type
       /\ EventDelivery.payload delivery = event_payload
       /\ EventDelivery.webhook delivery = webhook
       /\ exists k, EventDelivery.pk delivery = Some k
                    /\ DB.deliveries db !! k = None
                    /\ DB.deliveries result.2 !! k = Some delivery)
    webhooks result.1
  /\ size (DB.deliveries result.2) = (size (DB.deliveries db) + length webhooks)%nat
  /\ (forall k row, DB.deliveries db !! k = Some row ->
                    DB.deliveries result.2 !! k = Some row).
Proof.
  cbn zeta. unfold create_event_delivery_list_for_webhooks.
  destruct (bulk_create_spec
              (map (fun webhook =>
                      EventDelivery.mk None None PENDING event_type event_payload webhook)
                   webhooks) db) as (Hrows & Hsize & Hkept & _).
  split; [|split].
  - apply Forall2_fmap_l in Hrows.
    eapply Forall2_impl; [exact Hrows|]. cbn. tauto.
  - now rewrite Hsize, length_map.
  - exact Hkept.
Qed.

Example create_event_delivery_list_for_webhooks_two :
  (create_event_delivery_list_for_webhooks [11; 12] 5 "order_created"
     (DB.mk ∅ ∅ ∅ 1000)).1
  = [EventDelivery.mk (Some 0) (Some 1000) PENDING "order_created" 5 11;
     EventDelivery.mk (Some 1) (Some 1000) PENDING "order_created" 5 12].
Proof. vm_compute. reflexivity. Qed.

(** C3: the delivery is deleted exactly when its status is SUCCESS; with
    status PENDING or FAILED the database is as it was. *)
Theorem clear_successful_delivery_spec `{OnDeleteDelivery}
    (delivery row : EventDelivery.t) (k : Z) (db : DB.t) :
  EventDelivery.pk delivery = Some k ->
  DB.deliveries db !! k = Some row ->
  exists db',
    clear_successful_delivery delivery db = Return db'
    /\ (DB.deliveries db' !! k = None <-> EventDelivery.status delivery = SUCCESS)
    /\ (EventDelivery.status delivery = PENDING \/ EventDelivery.status delivery = FAILED ->
        db' = db)
    /\ (forall k', k' <> k -> DB.deliveries db' !! k' = DB.deliveries db !! k').
Proof.
  intros Hpk Hrow. unfold clear_successful_delivery, delete.
  destruct (decide (EventDelivery.status delivery = SUCCESS)) as [Hs|Hs].
  - rewrite Hpk. eexists. split; [reflexivity|]. cbn. split; [|split].
    + split; [auto|]. intros _. apply lookup_delete_eq.
    + intros [Hp|Hf]; congruence.
    + intros k' Hk'. now apply lookup_delete_ne.
  - eexists. split; [reflexivity|]. split; [|split].
    + rewrite Hrow. split; [discriminate|contradiction].
    + reflexivity.
    + reflexivity.
Qed.

Lemma clear_successful_delivery_spec_witness :
  exists db',
    @clear_successful_delivery cascade
      (EventDelivery.mk (Some 3) (Some 1000) SUCCESS "order_created" 5 11)
      (DB.mk {[ 3 := EventDelivery.mk (Some 3) (Some 1000) PENDING "order_created" 5 11 ]}
             ∅ ∅ 1001)
    = Return db'
    /\ DB.deliveries db' !! 3 = None.
Proof.
  destruct (@clear_successful_delivery_spec cascade
              (EventDelivery.mk (Some 3) (Some 1000) SUCCESS "order_created" 5 11)
              (EventDelivery.mk (Some 3) (Some 1000) PENDING "order_created" 5 11)
              3
              (DB.mk {[ 3 := EventDelivery.mk (Some 3) (Some 1000) PENDING
                               "order_created" 5 11 ]} ∅ ∅ 1001))
    as (db' & Hclear & Hdeleted & _).
  - reflexivity.
  - apply lookup_singleton_eq.
  - exists db'. split; [exact Hclear|]. now apply Hdeleted.
Defined.

(** Without a SUCCESS status nothing is touched, whatever the instance. *)
Lemma clear_successful_delivery_not_success `{OnDeleteDelivery}
    (delivery : EventDelivery.t) (db : DB.t) :
  EventDelivery.status delivery <> SUCCESS ->
  clear_successful_delivery delivery db = Return db.
Proof.
  intros Hs. unfold clear_successful_delivery. now rewrite decide_False.
Qed.

(** Under [models.CASCADE], deleting a delivery takes its attempts with
    it, and no others. *)
Lemma clear_successful_delivery_attempts (delivery : EventDelivery.t) (k : Z) (db db' : DB.t) :
  EventDelivery.pk delivery = Some k ->
  EventDelivery.status delivery = SUCCESS ->
  @clear_successful_delivery cascade delivery db = Return db' ->
  forall j attempt,
    DB.attempts db' !! j = Some attempt
    <-> DB.attempts db !! j = Some attempt
        /\ EventDeliveryAttempt.delivery attempt <> Some k.
Proof.
  intros Hpk Hs. unfold clear_successful_delivery, delete.
  rewrite decide_True, Hpk by exact Hs. intros [= <-] j attempt.
  unfold attempts_without, cascade. cbn [DB.attempts].
  now rewrite map_lookup_filter_Some.
Qed.

(** C6: [attempt_update] writes the duration, the response, the two
    serialized header fields and the status of the stored attempt, and
    [delivery_update] the status of the stored delivery; every other
    field of the row, every other row and every other table stay as they
    were. *)
Theorem update_writes_named_fields :
  (forall (attempt row : EventDeliveryAttempt.t) (webhook_response : WebhookResponse.t)
          (k : Z) (db : DB.t),
      EventDeliveryAttempt.pk attempt = Some k ->
      DB.attempts db !! k = Some row ->
      let written (record : EventDeliveryAttempt.t) :=
        EventDeliveryAttempt.mk
          (EventDeliveryAttempt.pk record)
          (EventDeliveryAttempt.created_at record)
          (EventDeliveryAttempt.delivery record)
          (EventDeliveryAttempt.task_id record)
          (Some (WebhookResponse.duration webhook_response))
          (Some (WebhookResponse.content webhook_response))
          (Some (dumps (WebhookResponse.request_headers webhook_response)))
          (Some (dumps (WebhookResponse.response_headers webhook_response)))
          (WebhookResponse.status webhook_response) in
      attempt_update attempt webhook_response db
      = Return (written attempt,
                DB.with_attempts db (<[k := written row]> (DB.attempts db))))
  /\ (forall (delivery row : EventDelivery.t) (status : EventDeliveryStatus)
             (k : Z) (db : DB.t),
        EventDelivery.pk delivery = Some k ->
        DB.deliveries db !! k = Some row ->
        let written (record : EventDelivery.t) :=
          EventDelivery.mk
            (EventDelivery.pk record) (EventDelivery.created_at record)
            status
            (EventDelivery.event_type record) (EventDelivery.payload record)
            (EventDelivery.webhook record) in
        delivery_update delivery status db
        = Return (written delivery,
                  DB.with_deliveries db (<[k := written row]> (DB.deliveries db)))).
Proof.
  split.
  - intros attempt row webhook_response k db Hpk Hrow.
    unfold attempt_update, save_update_fields. cbn [EventDeliveryAttempt.pk].
    rewrite Hpk. destruct row. cbn. rewrite Hrow. reflexivity.
  - intros delivery row status k db Hpk Hrow.
    unfold delivery_update, save_update_fields. cbn [EventDelivery.pk].
    rewrite Hpk. destruct row. cbn. rewrite Hrow. reflexivity.
Qed.

Lemma update_writes_named_fields_witness :
  attempt_update
    (EventDeliveryAttempt.mk (Some 8) None None None None None None None PENDING)
    (WebhookResponse.mk "ok" (JDict [("Content-Type", JStr "application/json")])
       JNull SUCCESS (S754_finite false 3 (-1)))
    (DB.mk ∅ {[ 8 := EventDeliveryAttempt.mk (Some 8) (Some 1000) (Some 3) (Some "task-1")
                       None None None None PENDING ]} ∅ 1001)
  = Return
      (EventDeliveryAttempt.mk (Some 8) None None None
         (Some (S754_finite false 3 (-1))) (Some "ok")
         (Some ("{" +:+ String dquote "Content-Type" +:+ String dquote ": "
                +:+ String dquote "application/json" +:+ String dquote "}"))
         (Some "null") SUCCESS,
       DB.mk ∅
         (<[ 8 := EventDeliveryAttempt.mk (Some 8) (Some 1000) (Some 3) (Some "task-1")
                    (Some (S754_finite false 3 (-1))) (Some "ok")
                    (Some ("{" +:+ String dquote "Content-Type" +:+ String dquote ": "
                           +:+ String dquote "application/json" +:+ String dquote "}"))
                    (Some "null") SUCCESS ]>
            {[ 8 := EventDeliveryAttempt.mk (Some 8) (Some 1000) (Some 3) (Some "task-1")
                      None None None None PENDING ]})
         ∅ 1001)
  /\ delivery_update
       (EventDelivery.mk (Some 3) None PENDING "" 0 0) FAILED
       (DB.mk {[ 3 := EventDelivery.mk (Some 3) (Some 1000) PENDING "order_created" 5 11 ]}
              ∅ ∅ 1001)
     = Return
         (EventDelivery.mk (Some 3) None FAILED "" 0 0,
          DB.mk (<[ 3 := EventDelivery.mk (Some 3) (Some 1000) FAILED "order_created" 5 11 ]>
                   {[ 3 := EventDelivery.mk (Some 3) (Some 1000) PENDING
                             "order_created" 5 11 ]})
                ∅ ∅ 1001).
Proof.
  split.
  - apply (proj1 update_writes_named_fields
             (EventDeliveryAttempt.mk (Some 8) None None None None None None None PENDING)
             (EventDeliveryAttempt.mk (Some 8) (Some 1000) (Some 3) (Some "task-1")
                None None None None PENDING)).
    + reflexivity.
    + apply lookup_singleton_eq.
  - apply (proj2 update_writes_named_fields
             (EventDelivery.mk (Some 3) None PENDING "" 0 0)
             (EventDelivery.mk (Some 3) (Some 1000) PENDING "order_created" 5 11)).
    + reflexivity.
    + apply lookup_singleton_eq.
Defined.

(** ** Strings of the search document *)

Lemma str_app_cons x (a b : string) : String x a +:+ b = String x (a +:+ b).
Proof. reflexivity. Qed.

Lemma str_app_assoc (a b c : string) : (a +:+ b) +:+ c = a +:+ (b +:+ c).
Proof. induction a as [|x a IH]; [reflexivity|]. now rewrite !str_app_cons, IH. Qed.

Lemma str_app_nil_r (a : string) : a +:+ "" = a.
Proof. induction a as [|x a IH]; [reflexivity|]. now rewrite str_app_cons, IH. Qed.

Lemma lower_char_idempotent c : lower_char (lower_char c) = lower_char c.
Proof. ascii_cases c. Qed.

Lemma lower_app a b : lower (a +:+ b) = lower a +:+ lower b.
Proof.
  induction a as [|x a IH]; [reflexivity|].
  rewrite str_app_cons. cbn [lower]. now rewrite IH.
Qed.

Lemma lower_idempotent s : lower (lower s) = lower s.
Proof.
  induction s as [|x s IH]; [reflexivity|].
  cbn [lower]. now rewrite lower_char_idempotent, IH.
Qed.

Lemma lower_NL : lower NL = NL.
Proof. reflexivity. Qed.

Lemma lower_flatten parts : lower (flatten parts) = flatten (map lower parts).
Proof.
  induction parts as [|part parts IH]; [reflexivity|].
  cbn [flatten map]. now rewrite lower_app, IH.
Qed.

Lemma nonempty_false s : nonempty s = false -> s = "".
Proof. now destruct s. Qed.

Lemma substring_refl s : substring s s.
Proof. exists "", "". cbn. now rewrite str_app_nil_r. Qed.

Lemma substring_app_l x a b : substring x a -> substring x (a +:+ b).
Proof.
  intros (before & after & ->). exists before, (after +:+ b).
  now rewrite !str_app_assoc.
Qed.

Lemma substring_app_r x a b : substring x b -> substring x (a +:+ b).
Proof.
  intros (before & after & ->). exists (a +:+ before), after.
  now rewrite !str_app_assoc.
Qed.

Lemma substring_lower x s : substring x s -> substring (lower x) (lower s).
Proof.
  intros (before & after & ->). exists (lower before), (lower after).
  now rewrite !lower_app.
Qed.

Lemma substring_join sep x (parts : list string) : x ∈ parts -> substring x (join sep parts).
Proof.
  induction parts as [|part parts IH]; intros Hx; [now apply elem_of_nil in Hx|].
  apply elem_of_cons in Hx as [->|Hx].
  - destruct parts; cbn [join]; [apply substring_refl|].
    apply substring_app_l, substring_refl.
  - destruct parts as [|part' parts]; [now apply elem_of_nil in Hx|].
    cbn [join]. apply substring_app_r, substring_app_r, IH, Hx.
Qed.

Lemma substring_flatten x part (parts : list string) :
  part ∈ parts -> substring x part -> substring x (flatten parts).
Proof.
  induction parts as [|part' parts IH]; intros Hpart Hx; [now apply elem_of_nil in Hpart|].
  apply elem_of_cons in Hpart as [->|Hpart]; cbn [flatten].
  - now apply substring_app_l.
  - now apply substring_app_r, IH.
Qed.

Lemma terminated_empty : terminated "".
Proof. now left. Qed.

Lemma terminated_NL body : terminated (body +:+ NL).
Proof. right. now exists body. Qed.

Lemma terminated_app a b : terminated a -> terminated b -> terminated (a +:+ b).
Proof.
  intros Ha [->|(body & ->)].
  - now rewrite str_app_nil_r.
  - rewrite <- str_app_assoc. apply terminated_NL.
Qed.

Lemma terminated_lower s : terminated s -> terminated (lower s).
Proof.
  intros [->|(body & ->)]; [apply terminated_empty|].
  rewrite lower_app, lower_NL. apply terminated_NL.
Qed.

Lemma terminated_flatten parts : Forall terminated parts -> terminated (flatten parts).
Proof.
  induction 1 as [|part parts Hpart _ IH]; [apply terminated_empty|].
  cbn [flatten]. now apply terminated_app.
Qed.

Lemma omap_Some {A B} (f : A -> B) l : omap (fun x => Some (f x)) l = map f l.
Proof. induction l as [|x l IH]; [reflexivity|]. cbn. now rewrite IH. Qed.

(** ** The search document *)

Section SearchDocument.
Context `{EditorJs}.

Lemma document_values_list_dated (assigned : AssignedAttribute.t) :
  dated assigned = true ->
  document_values_list (AssignedAttribute.attribute assigned)
    (AssignedAttribute.values assigned)
  = Return (omap (rendered_value (AssignedAttribute.attribute assigned))
                 (AssignedAttribute.values assigned)).
Proof.
  unfold dated, document_values_list, rendered_value.
  destruct (Attribute.input_type (AssignedAttribute.attribute assigned));
    intros Hdated; rewrite ?omap_Some; try reflexivity;
    try (induction (AssignedAttribute.values assigned) as [|value values IH];
         [reflexivity|];
         cbn [forallb] in Hdated; apply andb_true_iff in Hdated as [Hvalue Hvalues];
         apply bool_decide_eq_true in Hvalue as [d Hd];
         cbn [for_each omap list_omap]; rewrite Hd, (IH Hvalues); reflexivity).
  now induction (AssignedAttribute.values assigned).
Qed.

Lemma attribute_text_terminated assigned : terminated (attribute_text assigned).
Proof.
  unfold attribute_text.
  destruct (omap _ _); [apply terminated_empty|apply terminated_NL].
Qed.

Lemma generate_attributes_search_document_value_dated
    (assigned_attributes : list AssignedAttribute.t) :
  forallb dated assigned_attributes = true ->
  generate_attributes_search_document_value assigned_attributes
  = Return (lower (flatten (map attribute_text assigned_attributes))).
Proof.
  intros Hdated. unfold generate_attributes_search_document_value.
  match goal with
  | |- for_in _ ?body _ ≫= _ = _ =>
      assert (Hloop : forall acc,
                 for_in assigned_attributes body acc
                 = Return (acc +:+ flatten (map attribute_text assigned_attributes)))
  end.
  { induction assigned_attributes as [|assigned rest IH]; intros acc.
    - cbn. now rewrite str_app_nil_r.
    - cbn [forallb] in Hdated. apply andb_true_iff in Hdated as [Hassigned Hrest].
      rewrite for_in_cons, (document_values_list_dated _ Hassigned).
      cbn [mbind outcome_bind bind map flatten]. unfold attribute_text at 1.
      destruct (omap _ _) as [|text texts].
      + cbn [mbind outcome_bind bind]. now rewrite (IH Hrest).
      + cbn [mbind outcome_bind bind]. now rewrite (IH Hrest), str_app_assoc. }
  now rewrite Hloop.
Qed.

Lemma rendered_value_in_attributes
    (assigned_attributes : list AssignedAttribute.t) assigned value text :
  assigned ∈ assigned_attributes ->
  value ∈ AssignedAttribute.values assigned ->
  rendered_value (AssignedAttribute.attribute assigned) value = Some text ->
  substring (lower text) (lower (flatten (map attribute_text assigned_attributes))).
Proof.
  intros Hassigned Hvalue Htext. apply substring_lower.
  apply (substring_flatten _ (attribute_text assigned)).
  - now apply list_elem_of_fmap_2.
  - unfold attribute_text.
    assert (Hin : text ∈ omap (rendered_value (AssignedAttribute.attribute assigned))
                              (AssignedAttribute.values assigned)).
    { apply list_elem_of_omap. now exists value. }
    destruct (omap _ _) as [|text' texts] eqn:Htexts; [now apply elem_of_nil in Hin|].
    apply substring_app_l, substring_join, Hin.
Qed.

Lemma lower_variant_texts (variants : list ProductVariant.t) :
  lower (flatten (map variant_text variants)) = flatten (map variant_text variants).
Proof.
  rewrite lower_flatten, map_map. f_equal.
  apply map_ext. intros variant. apply lower_idempotent.
Qed.

Lemma generate_variants_search_document_value_dated (product : Product.t) :
  forallb (fun variant => forallb dated (ProductVariant.attributes variant))
          (Product.variants product) = true ->
  generate_variants_search_document_value product
  = Return (lower (skus_text product)
            +:+ flatten (map variant_text (Product.variants product))).
Proof.
  intros Hdated. unfold generate_variants_search_document_value.
  fold (skus_text product).
  match goal with
  | |- for_in _ ?body _ ≫= _ = _ =>
      assert (Hloop : forall acc,
                 for_in (Product.variants product) body acc
                 = Return (acc +:+ flatten (map variant_text (Product.variants product))))
  end.
  { induction (Product.variants product) as [|variant rest IH]; intros acc.
    - cbn. now rewrite str_app_nil_r.
    - cbn [forallb] in Hdated. apply andb_true_iff in Hdated as [Hvariant Hrest].
      rewrite for_in_cons.
      rewrite (generate_attributes_search_document_value_dated _ Hvariant).
      cbn [mbind outcome_bind bind map flatten]. fold (variant_text variant).
      destruct (nonempty (variant_text variant)) eqn:Htext.
      + cbn [mbind outcome_bind bind]. now rewrite (IH Hrest), str_app_assoc.
      + cbn [mbind outcome_bind bind]. apply nonempty_false in Htext.
        now rewrite (IH Hrest), Htext. }
  rewrite Hloop. cbn [mbind outcome_bind bind].
  now rewrite lower_app, lower_variant_texts.
Qed.

Lemma generate_product_fields_terminated product :
  terminated (generate_product_fields_search_document_value product).
Proof.
  unfold generate_product_fields_search_document_value. apply terminated_lower.
  destruct (nonempty _) eqn:Hvalue; [apply terminated_NL|].
  left. now apply nonempty_false.
Qed.

Lemma skus_text_terminated product : terminated (skus_text product).
Proof.
  unfold skus_text.
  destruct (nonempty _) eqn:Hvalue; [apply terminated_NL|].
  left. now apply nonempty_false.
Qed.

Lemma prepare_product_search_document_value_sections
    (product : Product.t) (already_prefetched : bool) :
  dated_product product = true ->
  prepare_product_search_document_value product already_prefetched
  = Return (generate_product_fields_search_document_value product
            +:+ lower (flatten (map attribute_text (Product.attributes product)))
            +:+ lower (skus_text product)
            +:+ flatten (map variant_text (Product.variants product))).
Proof.
  intros Hdated. apply andb_true_iff in Hdated as [Hattributes Hvariants].
  unfold prepare_product_search_document_value, prefetch_related_objects.
  replace (if already_prefetched then product else product) with product
    by now destruct already_prefetched.
  rewrite (generate_attributes_search_document_value_dated _ Hattributes).
  rewrite (generate_variants_search_document_value_dated _ Hvariants).
  cbn [mbind outcome_bind bind].
  rewrite str_app_assoc, !lower_app.
  unfold generate_product_fields_search_document_value.
  now rewrite !lower_idempotent, lower_variant_texts.
Qed.

(** C5: for a product whose date and datetime values carry a date, the
    document is returned; it is made of four sections, the product
    fields, the attribute values, the variant SKUs and the attribute
    values of the variants, each of them empty or ending with a newline;
    and it contains the rendered value of every value of every dropdown,
    multiselect, rich text, numeric, date and datetime attribute, of the
    product and of its variants, in lowercase. *)
Theorem search_document_contents (product : Product.t) (already_prefetched : bool) :
  dated_product product = true ->
  exists document attributes variant_attributes,
    prepare_product_search_document_value product already_prefetched = Return document
    /\ generate_attributes_search_document_value (Product.attributes product)
       = Return attributes
    /\ Forall2
         (fun variant text =>
            generate_attributes_search_document_value (ProductVariant.attributes variant)
            = Return text)
         (Product.variants product) variant_attributes
    /\ document
       = generate_product_fields_search_document_value product
         +:+ attributes +:+ lower (skus_text product) +:+ flatten variant_attributes
    /\ terminated (generate_product_fields_search_document_value product)
    /\ terminated attributes
    /\ terminated (lower (skus_text product))
    /\ Forall terminated variant_attributes
    /\ (forall assigned value text,
          assigned ∈ Product.attributes product ->
          value ∈ AssignedAttribute.values assigned ->
          rendered_value (AssignedAttribute.attribute assigned) value = Some text ->
          substring (lower text) document)
    /\ (forall variant assigned value text,
          variant ∈ Product.variants product ->
          assigned ∈ ProductVariant.attributes variant ->
          value ∈ AssignedAttribute.values assigned ->
          rendered_value (AssignedAttribute.attribute assigned) value = Some text ->
          substring (lower text) document).
Proof.
  intros Hdated. apply andb_true_iff in Hdated as [Hattributes Hvariants].
  pose proof (generate_attributes_search_document_value_dated _ Hattributes) as Ha.
  pose proof (generate_variants_search_document_value_dated _ Hvariants) as Hv.
  set (fields := generate_product_fields_search_document_value product) in *.
  set (attributes := lower (flatten (map attribute_text (Product.attributes product)))) in *.
  set (texts := map variant_text (Product.variants product)) in *.
  assert (Hdocument :
            prepare_product_search_document_value product already_prefetched
            = Return (fields +:+ attributes +:+ lower (skus_text product) +:+ flatten texts)).
  { apply prepare_product_search_document_value_sections.
    now apply andb_true_iff. }
  exists (fields +:+ attributes +:+ lower (skus_text product) +:+ flatten texts),
         attributes, texts.
  split; [exact Hdocument|]. split; [exact Ha|]. split.
  { unfold texts. apply Forall2_fmap_r, Forall_Forall2_diag.
    rewrite forallb_forall in Hvariants. apply Forall_forall. intros variant Hvariant.
    apply generate_attributes_search_document_value_dated, Hvariants.
    now apply list_elem_of_In. }
  split; [reflexivity|].
  split; [apply generate_product_fields_terminated|].
  split; [apply terminated_lower, terminated_flatten, Forall_forall;
          intros text Htext; apply list_elem_of_fmap in Htext as (assigned & -> & _);
          apply attribute_text_terminated|].
  split; [apply terminated_lower, skus_text_terminated|].
  split.
  { apply Forall_forall. intros text Htext.
    apply list_elem_of_fmap in Htext as (variant & -> & _).
    apply terminated_lower, terminated_flatten, Forall_forall.
    intros text Htext. apply list_elem_of_fmap in Htext as (assigned & -> & _).
    apply attribute_text_terminated. }
  split.
  - intros assigned value text Hassigned Hvalue Htext.
    apply substring_app_r, substring_app_l.
    now apply (rendered_value_in_attributes _ assigned value).
  - intros variant assigned value text Hvariant Hassigned Hvalue Htext.
    do 3 apply substring_app_r.
    apply (substring_flatten _ (variant_text variant)).
    + now apply list_elem_of_fmap_2.
    + now apply (rendered_value_in_attributes _ assigned value).
Qed.

End SearchDocument.

Example example_search_document :
  @prepare_product_search_document_value text_of_document example_product false
  = Return ("t-shirt" +:+ NL +:+ "cotton shirt" +:+ NL
            +:+ "red" +:+ NL +:+ "blue" +:+ NL
            +:+ "soft fabric" +:+ NL
            +:+ "10kg" +:+ NL
            +:+ "2021-01-02t00:00:00+00:00" +:+ NL
            +:+ "sku-1" +:+ NL
            +:+ "xs" +:+ NL).
Proof. vm_compute. reflexivity. Qed.

Lemma search_document_contents_witness :
  dated_product example_product = true
  /\ exists document,
       @prepare_product_search_document_value text_of_document example_product false
       = Return document
       /\ substring "red" document
       /\ substring "soft fabric" document
       /\ substring "10kg" document
       /\ substring "2021-01-02t00:00:00+00:00" document
       /\ substring "xs" document.
Proof.
  split; [reflexivity|].
  destruct (@search_document_contents text_of_document example_product false eq_refl)
    as (document & attributes & variant_attributes & Hdocument & _ & _ & _ & _ & _ & _ & _
        & Hproduct & Hvariants).
  exists document. split; [exact Hdocument|].
  assert (Hnth : forall (A : Type) (l : list A) (i : nat) (x : A),
             l !! i = Some x -> x ∈ l)
    by (intros A l i x Hx; apply list_elem_of_lookup; now exists i).
  repeat split.
  - apply (Hproduct
             (AssignedAttribute.mk (Attribute.mk DROPDOWN None)
                [AttributeValue.mk "Red" JNull None; AttributeValue.mk "Blue" JNull None])
             (AttributeValue.mk "Red" JNull None) "Red");
      [apply (Hnth _ _ 0%nat)|apply (Hnth _ _ 0%nat)|]; reflexivity.
  - apply (Hproduct
             (AssignedAttribute.mk (Attribute.mk RICH_TEXT None)
                [AttributeValue.mk "" (JDict [("text", JStr "Soft Fabric")]) None])
             (AttributeValue.mk "" (JDict [("text", JStr "Soft Fabric")]) None)
             "Soft Fabric");
      [apply (Hnth _ _ 1%nat)|apply (Hnth _ _ 0%nat)|]; reflexivity.
  - apply (Hproduct
             (AssignedAttribute.mk (Attribute.mk NUMERIC (Some "KG"))
                [AttributeValue.mk "10" JNull None])
             (AttributeValue.mk "10" JNull None) "10KG");
      [apply (Hnth _ _ 2%nat)|apply (Hnth _ _ 0%nat)|]; reflexivity.
  - apply (Hproduct
             (AssignedAttribute.mk (Attribute.mk DATE None)
                [AttributeValue.mk "" JNull
                   (Some (datetime.mk 2021 1 2 0 0 0 0 (Some 0)))])
             (AttributeValue.mk "" JNull (Some (datetime.mk 2021 1 2 0 0 0 0 (Some 0))))
             "2021-01-02T00:00:00+00:00");
      [apply (Hnth _ _ 3%nat)|apply (Hnth _ _ 0%nat)|]; reflexivity.
  - apply (Hvariants
             (ProductVariant.mk (Some "SKU-1") "Small"
                [AssignedAttribute.mk (Attribute.mk MULTISELECT None)
                   [AttributeValue.mk "XS" JNull None]])
             (AssignedAttribute.mk (Attribute.mk MULTISELECT None)
                [AttributeValue.mk "XS" JNull None])
             (AttributeValue.mk "XS" JNull None) "XS");
      [apply (Hnth _ _ 0%nat)|apply (Hnth _ _ 0%nat)|apply (Hnth _ _ 0%nat)|];
      reflexivity.
Defined.

(** ** The search vector is not persisted *)

Lemma set_search_document_pk product value :
  Product.pk (set_search_document product value) = Product.pk product.
Proof. now destruct product. Qed.

Lemma set_search_vector_pk product value :
  Product.pk (set_search_vector product value) = Product.pk product.
Proof. now destruct product. Qed.

Lemma same_but_document_refl row : same_but_document row row.
Proof. now destruct row. Qed.

Lemma same_but_document_trans row1 row2 row3 :
  same_but_document row1 row2 -> same_but_document row2 row3 ->
  same_but_document row1 row3.
Proof.
  unfold same_but_document. destruct row1, row2, row3. cbn.
  intros [= -> -> -> -> -> ->] [= -> -> -> -> -> ->]. reflexivity.
Qed.

Lemma same_but_document_search_vector row row' :
  same_but_document row row' ->
  Product.search_vector row' = Product.search_vector row.
Proof. unfold same_but_document. destruct row. now intros ->. Qed.

Lemma write_search_document_columns obj row :
  write_columns product_column ["search_document"; "updated_at"] obj row
  = Some (set_updated_at (set_search_document row (Product.search_document obj))
            (Product.updated_at obj)).
Proof. now destruct row. Qed.

Lemma option_same_but_document_refl (row : option Product.t) :
  option_Forall2 same_but_document row row.
Proof. destruct row; constructor. apply same_but_document_refl. Qed.

(** Whatever the instances are, a bulk update of [search_document] and
    [updated_at] that returns has changed those two columns only. *)
Lemma bulk_update_frame (objs : list Product.t) (db db' : DB.t) :
  bulk_update objs ["search_document"; "updated_at"] db = Return db' ->
  (forall k, option_Forall2 same_but_document
               (DB.products db !! k) (DB.products db' !! k))
  /\ DB.deliveries db' = DB.deliveries db
  /\ DB.attempts db' = DB.attempts db
  /\ DB.clock db' = DB.clock db.
Proof.
  unfold bulk_update.
  match goal with
  | |- for_in _ ?body _ ≫= _ = _ -> _ =>
      assert (Hloop : forall table table',
                 for_in objs body table = Return table' ->
                 forall k, option_Forall2 same_but_document (table !! k) (table' !! k))
  end.
  { induction objs as [|obj objs IH]; intros table table'.
    - intros [= <-] k. apply option_same_but_document_refl.
    - rewrite for_in_cons.
      destruct (Product.pk obj) as [k0|]; [|discriminate].
      destruct (table !! k0) as [row|] eqn:Hrow; [|apply IH].
      rewrite write_search_document_columns. cbn [mbind outcome_bind bind].
      intros Hfor k. specialize (IH _ _ Hfor k).
      destruct (decide (k = k0)) as [->|Hne].
      + rewrite lookup_insert_eq in IH. rewrite Hrow.
        inversion IH as [row1 row' Hrow'|]; subst. constructor.
        eapply same_but_document_trans; [|exact Hrow'].
        now destruct row.
      + now rewrite lookup_insert_ne in IH by congruence. }
  destruct (for_in objs _ (DB.products db)) as [table'|e] eqn:Hfor; [|discriminate].
  intros [= <-]. cbn. split; [|auto]. exact (Hloop _ _ Hfor).
Qed.

Lemma bulk_update_returns (objs : list Product.t) (db : DB.t) :
  Forall (fun obj => is_Some (Product.pk obj)) objs ->
  returns (bulk_update objs ["search_document"; "updated_at"] db).
Proof.
  intros Hpks. unfold bulk_update, returns.
  match goal with
  | |- exists _, for_in _ ?body _ ≫= _ = _ =>
      assert (Hloop : forall table, returns (for_in objs body table))
  end.
  { induction Hpks as [|obj objs [k0 Hk0] _ IH]; intros table; [now eexists|].
    rewrite for_in_cons, Hk0.
    destruct (table !! k0) as [row|]; [|apply IH].
    rewrite write_search_document_columns. apply IH. }
  destruct (Hloop (DB.products db)) as [table' ->]. now eexists.
Qed.

Lemma bulk_update_search_document (objs : list Product.t) (db : DB.t) :
  Forall (fun obj => is_Some (Product.pk obj)) objs ->
  exists db',
    bulk_update objs ["search_document"; "updated_at"] db = Return db'
    /\ (forall k, option_Forall2 same_but_document
                    (DB.products db !! k) (DB.products db' !! k))
    /\ DB.deliveries db' = DB.deliveries db
    /\ DB.attempts db' = DB.attempts db
    /\ DB.clock db' = DB.clock db.
Proof.
  intros Hpks. destruct (bulk_update_returns objs db Hpks) as [db' Hupdate].
  exists db'. split; [exact Hupdate|]. exact (bulk_update_frame _ _ _ Hupdate).
Qed.

Section SearchVector.
Context `{EditorJs}.

Lemma vector_values_list_dated (assigned : AssignedAttribute.t) :
  dated assigned = true ->
  returns (vector_values_list (AssignedAttribute.attribute assigned)
             (AssignedAttribute.values assigned)).
Proof.
  unfold dated, vector_values_list, returns.
  destruct (Attribute.input_type (AssignedAttribute.attribute assigned));
    intros Hdated; try (now eexists);
    (induction (AssignedAttribute.values assigned) as [|value values IH];
     [now eexists|];
     cbn [forallb] in Hdated; apply andb_true_iff in Hdated as [Hvalue Hvalues];
     apply bool_decide_eq_true in Hvalue as [d Hd];
     destruct (IH Hvalues) as [l Hl];
     cbn [for_each]; rewrite Hd, Hl; now eexists).
Qed.

Lemma generate_attributes_search_vector_value_dated
    (assigned_attributes : list AssignedAttribute.t) :
  forallb dated assigned_attributes = true ->
  returns (generate_attributes_search_vector_value assigned_attributes).
Proof.
  unfold generate_attributes_search_vector_value. generalize (@None SearchVector).
  induction assigned_attributes as [|assigned rest IH]; intros acc Hdated.
  - now eexists.
  - cbn [forallb] in Hdated. apply andb_true_iff in Hdated as [Hassigned Hrest].
    rewrite for_in_cons.
    destruct (vector_values_list_dated _ Hassigned) as [values_list ->].
    cbn [mbind outcome_bind bind].
    destruct (map _ values_list); [|destruct acc]; cbn [mbind outcome_bind bind];
      now apply IH.
Qed.

Lemma generate_variants_search_vector_value_dated (product : Product.t) :
  forallb (fun variant => forallb dated (ProductVariant.attributes variant))
          (Product.variants product) = true ->
  returns (generate_variants_search_vector_value product).
Proof.
  intros Hdated. unfold generate_variants_search_vector_value.
  destruct (map _ (Product.variants product)) as [|first others]; [now eexists|].
  generalize (reduce_add first others).
  induction (Product.variants product) as [|variant rest IH]; intros acc.
  - now eexists.
  - cbn [forallb] in Hdated. apply andb_true_iff in Hdated as [Hvariant Hrest].
    rewrite for_in_cons.
    destruct (generate_attributes_search_vector_value_dated _ Hvariant) as [vector ->].
    cbn [mbind outcome_bind bind].
    destruct vector; cbn [mbind outcome_bind bind]; now apply IH.
Qed.

Lemma prepare_product_search_vector_value_dated product already_prefetched :
  dated_product product = true ->
  returns (prepare_product_search_vector_value product already_prefetched).
Proof.
  intros Hdated. apply andb_true_iff in Hdated as [Hattributes Hvariants].
  unfold prepare_product_search_vector_value, prefetch_related_objects.
  replace (if already_prefetched then product else product) with product
    by now destruct already_prefetched.
  destruct (generate_attributes_search_vector_value_dated _ Hattributes) as [a ->].
  destruct (generate_variants_search_vector_value_dated _ Hvariants) as [v ->].
  now eexists.
Qed.

Lemma prepare_product_search_vector_value_document product value already_prefetched :
  prepare_product_search_vector_value (set_search_document product value)
    already_prefetched
  = prepare_product_search_vector_value product already_prefetched.
Proof. now destruct product, already_prefetched. Qed.

Lemma prepare_product_search_document_value_dated product already_prefetched :
  dated_product product = true ->
  returns (prepare_product_search_document_value product already_prefetched).
Proof.
  intros Hdated.
  rewrite (prepare_product_search_document_value_sections _ _ Hdated).
  now eexists.
Qed.

Lemma dated_product_document product value :
  dated_product (set_search_document product value) = dated_product product.
Proof. now destruct product. Qed.

Lemma assign_search_values (rows : list Product.t) :
  Forall (fun row => dated_product row = true /\ is_Some (Product.pk row)) rows ->
  exists instances,
    for_each (fun product =>
                search_document ← prepare_product_search_document_value product true;
                let product := set_search_document product search_document in
                search_vector ← prepare_product_search_vector_value product true;
                let product := set_search_vector product search_vector in
                Return product) rows
    = Return instances
    /\ Forall2
         (fun row instance =>
            exists document vector,
              prepare_product_search_document_value row true = Return document
              /\ prepare_product_search_vector_value row true = Return vector
              /\ instance = set_search_vector (set_search_document row document) vector)
         rows instances.
Proof.
  induction 1 as [|row rows [Hdated _] _ (instances & Hrows & Hinstances)].
  - exists []. split; [reflexivity|constructor].
  - destruct (prepare_product_search_document_value_dated row true Hdated)
      as [document Hdocument].
    destruct (prepare_product_search_vector_value_dated row true Hdated)
      as [vector Hvector].
    exists (set_search_vector (set_search_document row document) vector :: instances).
    split.
    + rewrite for_each_cons, Hrows, Hdocument. cbn [mbind outcome_bind bind].
      rewrite prepare_product_search_vector_value_document, Hvector.
      reflexivity.
    + constructor; [|exact Hinstances]. now exists document, vector.
Qed.

(** C9: both operations assign the new search vector to the instance in
    memory and write [search_document] and [updated_at] only: the stored
    [search_vector], like every other stored field, row and table, is as
    it was.  The first two parts give the result of each operation for a
    product that has a row (for the rows of the queryset, which carry a
    primary key) and whose date values carry a date, so that the
    documents can be computed; the last two say, for every product and
    every queryset, that an operation that returns has left every stored
    row as it was but for these two columns. *)
Theorem search_vector_not_persisted :
  (forall (product row : Product.t) (k : Z) (db : DB.t),
      Product.pk product = Some k ->
      DB.products db !! k = Some row ->
      dated_product product = true ->
      exists document vector,
        prepare_product_search_document_value product false = Return document
        /\ prepare_product_search_vector_value product false = Return vector
        /\ update_product_search_document product db
           = Return
               (set_updated_at
                  (set_search_vector (set_search_document product document) vector)
                  (DB.clock db),
                DB.with_products db
                  (<[k := set_updated_at (set_search_document row document) (DB.clock db)]>
                     (DB.products db)))
        /\ Product.search_vector
             (set_updated_at (set_search_document row document) (DB.clock db))
           = Product.search_vector row)
  /\ (forall (products : list Z) (db : DB.t),
        Forall (fun row => dated_product row = true /\ is_Some (Product.pk row))
               (fetch products db) ->
        exists instances db',
          update_products_search_document products db = Return (instances, db')
          /\ Forall2
               (fun row instance =>
                  exists document vector,
                    prepare_product_search_document_value row true = Return document
                    /\ prepare_product_search_vector_value row true = Return vector
                    /\ instance
                       = set_search_vector (set_search_document row document) vector)
               (fetch products db) instances
          /\ (forall k, option_Forall2 same_but_document
                          (DB.products db !! k) (DB.products db' !! k))
          /\ (forall k, Product.search_vector <$> DB.products db' !! k
                        = Product.search_vector <$> DB.products db !! k)
          /\ DB.deliveries db' = DB.deliveries db
          /\ DB.attempts db' = DB.attempts db)
  /\ (forall (product product' : Product.t) (db db' : DB.t),
        update_product_search_document product db = Return (product', db') ->
        (forall k, option_Forall2 same_but_document
                     (DB.products db !! k) (DB.products db' !! k))
        /\ DB.deliveries db' = DB.deliveries db
        /\ DB.attempts db' = DB.attempts db)
  /\ (forall (products : list Z) (instances : list Product.t) (db db' : DB.t),
        update_products_search_document products db = Return (instances, db') ->
        (forall k, option_Forall2 same_but_document
                     (DB.products db !! k) (DB.products db' !! k))
        /\ DB.deliveries db' = DB.deliveries db
        /\ DB.attempts db' = DB.attempts db).
Proof.
  split; [|split; [|split]].
  - intros product row k db Hpk Hrow Hdated.
    destruct (prepare_product_search_document_value_dated product false Hdated)
      as [document Hdocument].
    destruct (prepare_product_search_vector_value_dated product false Hdated)
      as [vector Hvector].
    exists document, vector. split; [exact Hdocument|]. split; [exact Hvector|].
    split; [|now destruct row].
    unfold update_product_search_document. rewrite Hdocument.
    cbn [mbind outcome_bind bind].
    rewrite prepare_product_search_vector_value_document, Hvector.
    cbn [mbind outcome_bind bind].
    unfold save, save_update_fields. destruct product, row. cbn in Hpk |- *.
    rewrite Hpk. cbn. rewrite Hrow. reflexivity.
  - intros products db Hrows.
    destruct (assign_search_values _ Hrows) as (instances & Hassign & Hinstances).
    assert (Hpks : Forall (fun obj => is_Some (Product.pk obj)) instances).
    { clear Hassign. induction Hinstances as [|row instance rows instances Hi _ IH];
        [constructor|].
      apply Forall_cons in Hrows as [[_ Hpk] Hrows].
      constructor; [|now apply IH].
      destruct Hi as (document & vector & _ & _ & ->).
      now rewrite set_search_vector_pk, set_search_document_pk. }
    destruct (bulk_update_search_document instances db Hpks)
      as (db' & Hupdate & Hsame & Hdeliveries & Hattempts & _).
    exists instances, db'.
    split.
    { unfold update_products_search_document. cbv zeta in Hassign |- *.
      rewrite Hassign. cbn [mbind outcome_bind bind]. now rewrite Hupdate. }
    split; [exact Hinstances|]. split; [exact Hsame|].
    split; [|now split].
    intros k. specialize (Hsame k).
    inversion Hsame as [row row' Hrow|]; [|reflexivity].
    cbn. f_equal. now apply same_but_document_search_vector.
  - intros product product' db db'. unfold update_product_search_document.
    destruct (prepare_product_search_document_value product false)
      as [document|e]; [|discriminate].
    cbn [mbind outcome_bind bind].
    destruct (prepare_product_search_vector_value _ false) as [vector|e]; [|discriminate].
    cbn [mbind outcome_bind bind]. unfold save, save_update_fields.
    change (existsb (String.eqb "updated_at") ["search_document"; "updated_at"])
      with true. cbv iota.
    rewrite !write_search_document_columns.
    destruct (Product.pk _) as [k0|]; [|discriminate].
    destruct (DB.products db !! k0) as [row|] eqn:Hrow; [|discriminate].
    rewrite write_search_document_columns. cbn [mbind outcome_bind bind].
    intros [= _ <-]. cbn. split; [|auto]. intros k.
    destruct (decide (k = k0)) as [->|Hne].
    + rewrite lookup_insert_eq, Hrow. constructor. now destruct row.
    + rewrite lookup_insert_ne by congruence. apply option_same_but_document_refl.
  - intros products instances db db'. unfold update_products_search_document.
    cbv zeta.
    destruct (for_each _ (fetch products db)) as [objs|e]; [|discriminate].
    cbn [mbind outcome_bind bind].
    destruct (bulk_update objs _ db) as [db1|e] eqn:Hupdate; [|discriminate].
    intros [= _ <-]. apply bulk_update_frame in Hupdate. tauto.
Qed.

End SearchVector.

Lemma search_vector_not_persisted_witness :
  exists product db',
    @update_product_search_document text_of_document example_product example_db
    = Return (product, db')
    /\ Product.search_vector <$> DB.products db' !! 1 = Some (TsVector "'shirt':1")
    /\ exists instances db'',
         @update_products_search_document text_of_document [1] example_db
         = Return (instances, db'')
         /\ Product.search_vector <$> DB.products db'' !! 1
            = Some (TsVector "'shirt':1").
Proof.
  destruct (proj1 (@search_vector_not_persisted text_of_document)
              example_product example_product 1 example_db)
    as (document & vector & _ & _ & Hupdate & Hvector);
    [reflexivity|apply lookup_singleton_eq|reflexivity|].
  eexists _, _. split; [exact Hupdate|]. split.
  { unfold DB.with_products. cbn [DB.products]. rewrite lookup_insert_eq.
    cbn [fmap option_fmap option_map]. now rewrite Hvector. }
  destruct (proj1 (proj2 (@search_vector_not_persisted text_of_document)) [1] example_db)
    as (instances & db'' & Hupdates & _ & _ & Hvectors & _).
  { unfold fetch, example_db. cbn. rewrite lookup_singleton_eq. cbn.
    constructor; [|constructor]. split; [reflexivity|now eexists]. }
  exists instances, db''. split; [exact Hupdates|].
  rewrite Hvectors. unfold example_db. cbn. now rewrite lookup_singleton_eq.
Defined.

(** *** What the bulk update stores *)

Lemma bulk_update_row (objs : list Product.t) (k : Z) (document : string) (updated : Z) :
  Forall (fun obj => is_Some (Product.pk obj)) objs ->
  (forall obj, obj ∈ objs -> Product.pk obj = Some k ->
               Product.search_document obj = document
               /\ Product.updated_at obj = updated) ->
  forall (db : DB.t) (row : Product.t),
    DB.products db !! k = Some row ->
    exists db',
      bulk_update objs ["search_document"; "updated_at"] db = Return db'
      /\ (Exists (fun obj => Product.pk obj = Some k) objs ->
          DB.products db' !! k
          = Some (set_updated_at (set_search_document row document) updated))
      /\ (~ Exists (fun obj => Product.pk obj = Some k) objs ->
          DB.products db' !! k = Some row).
Proof.
  intros Hpks Hvalues db row Hrow. unfold bulk_update.
  match goal with
  | |- exists _, for_in _ ?body _ ≫= _ = _ /\ _ =>
      assert (Hloop : forall table row,
                 table !! k = Some row ->
                 exists table',
                   for_in objs body table = Return table'
                   /\ (Exists (fun obj => Product.pk obj = Some k) objs ->
                       table' !! k
                       = Some (set_updated_at (set_search_document row document) updated))
                   /\ (~ Exists (fun obj => Product.pk obj = Some k) objs ->
                       table' !! k = Some row))
  end.
  { clear db row Hrow.
    induction Hpks as [|obj objs [k0 Hk0] _ IH]; intros table row Hrow.
    - exists table. split; [reflexivity|]. split; [|auto].
      intros Hex. now apply Exists_nil in Hex.
    - rewrite for_in_cons, Hk0.
      assert (Hrest : forall obj', obj' ∈ objs -> Product.pk obj' = Some k ->
                                   Product.search_document obj' = document
                                   /\ Product.updated_at obj' = updated)
        by (intros obj' Hin; apply Hvalues; now right).
      destruct (decide (k0 = k)) as [->|Hne].
      + rewrite Hrow, write_search_document_columns. cbn [mbind outcome_bind bind].
        destruct (Hvalues obj (list_elem_of_here _ _) Hk0) as [-> ->].
        destruct (IH Hrest
                    (<[k := set_updated_at (set_search_document row document) updated]>
                       table)
                    (set_updated_at (set_search_document row document) updated))
          as (table' & Hfor & Hsome & Hnone); [apply lookup_insert_eq|].
        exists table'. split; [exact Hfor|]. split.
        * intros _.
          destruct (decide (Exists (fun obj => Product.pk obj = Some k) objs))
            as [Hex|Hex].
          -- rewrite (Hsome Hex). now destruct row.
          -- apply (Hnone Hex).
        * intros Hex. exfalso. apply Hex. now left.
      + assert (Hstep : exists table1,
                   match table !! k0 with
                   | Some row0 =>
                       match write_columns product_column
                               ["search_document"; "updated_at"] obj row0 with
                       | Some row' => Return (<[k0 := row']> table)
                       | None => Raise ValueError
                       end
                   | None => Return table
                   end = Return table1 /\ table1 !! k = Some row).
        { destruct (table !! k0) as [row0|].
          - rewrite write_search_document_columns. eexists. split; [reflexivity|].
            now rewrite lookup_insert_ne.
          - now exists table. }
        destruct Hstep as (table1 & -> & Hrow1). cbn [mbind outcome_bind bind].
        destruct (IH Hrest table1 row Hrow1) as (table' & Hfor & Hsome & Hnone).
        exists table'. split; [exact Hfor|]. split.
        * intros Hex. apply Hsome. apply Exists_cons in Hex as [Hex|Hex]; [|exact Hex].
          congruence.
        * intros Hex. apply Hnone. intros Hex'. apply Hex. now right. }
  destruct (Hloop (DB.products db) row Hrow) as (table' & -> & Hsome & Hnone).
  eexists. split; [reflexivity|]. now split.
Qed.

Section SearchDocumentPersisted.
Context `{EditorJs}.

(** The queryset version stores the document of every row it selects,
    in a table whose rows carry their own key. *)
Lemma update_products_search_document_persists
    (products : list Z) (db : DB.t) (k : Z) (row : Product.t) :
  map_Forall (fun key row => Product.pk row = Some key) (DB.products db) ->
  Forall (fun row => dated_product row = true) (fetch products db) ->
  k ∈ products ->
  DB.products db !! k = Some row ->
  exists document instances db',
    prepare_product_search_document_value row true = Return document
    /\ update_products_search_document products db = Return (instances, db')
    /\ DB.products db' !! k = Some (set_search_document row document).
Proof.
  intros Hkeys Hdated Hk Hrow.
  assert (Hfetched : forall r, r ∈ fetch products db ->
                               exists key, DB.products db !! key = Some r).
  { intros r Hr. apply list_elem_of_omap in Hr as (key & _ & Hr). now exists key. }
  assert (Hrows : Forall (fun row => dated_product row = true /\ is_Some (Product.pk row))
                         (fetch products db)).
  { apply Forall_forall. intros r Hr. split.
    - now apply (proj1 (Forall_forall _ _) Hdated).
    - destruct (Hfetched r Hr) as [key Hkey]. rewrite (Hkeys key r Hkey). now eexists. }
  destruct (assign_search_values _ Hrows) as (instances & Hassign & Hinstances).
  destruct (prepare_product_search_document_value_dated row true) as [document Hdocument].
  { apply (proj1 (Forall_forall _ _) Hdated).
    apply list_elem_of_omap. now exists k. }
  assert (Horigin : forall instance, instance ∈ instances ->
             exists r d v,
               r ∈ fetch products db
               /\ prepare_product_search_document_value r true = Return d
               /\ instance = set_search_vector (set_search_document r d) v).
  { intros instance Hinstance.
    apply list_elem_of_lookup in Hinstance as [i Hi].
    destruct (Forall2_lookup_r _ _ _ _ _ Hinstances Hi) as (r & Hr & d & v & Hd & _ & ->).
    exists r, d, v. split; [|now split].
    apply list_elem_of_lookup. now exists i. }
  assert (Hpks : Forall (fun obj => is_Some (Product.pk obj)) instances).
  { apply Forall_forall. intros instance Hinstance.
    destruct (Horigin instance Hinstance) as (r & d & v & Hr & _ & ->).
    rewrite set_search_vector_pk, set_search_document_pk.
    now destruct (proj1 (Forall_forall _ _) Hrows r Hr) as [_ Hpk]. }
  assert (Hvalues : forall obj, obj ∈ instances -> Product.pk obj = Some k ->
             Product.search_document obj = document
             /\ Product.updated_at obj = Product.updated_at row).
  { intros obj Hobj Hpk.
    destruct (Horigin obj Hobj) as (r & d & v & Hr & Hd & ->).
    rewrite set_search_vector_pk, set_search_document_pk in Hpk.
    destruct (Hfetched r Hr) as [key Hkey].
    pose proof (Hkeys key r Hkey) as Hpk'. cbn in Hpk'.
    assert (key = k) as -> by congruence.
    assert (r = row) as -> by congruence.
    assert (d = document) as -> by congruence.
    now destruct row. }
  assert (Hex : Exists (fun obj => Product.pk obj = Some k) instances).
  { assert (Hin : row ∈ fetch products db)
      by (apply list_elem_of_omap; now exists k).
    apply list_elem_of_lookup in Hin as [i Hi].
    destruct (Forall2_lookup_l _ _ _ _ _ Hinstances Hi)
      as (instance & Hinstance & d & v & _ & _ & ->).
    apply Exists_exists.
    exists (set_search_vector (set_search_document row d) v). split.
    - apply list_elem_of_lookup. now exists i.
    - rewrite set_search_vector_pk, set_search_document_pk. apply (Hkeys k row Hrow). }
  destruct (bulk_update_row instances k document (Product.updated_at row)
              Hpks Hvalues db row Hrow) as (db' & Hupdate & Hstored & _).
  exists document, instances, db'. split; [exact Hdocument|]. split.
  - unfold update_products_search_document. cbv zeta in Hassign |- *.
    rewrite Hassign. cbn [mbind outcome_bind bind]. now rewrite Hupdate.
  - rewrite (Hstored Hex). now destruct row.
Qed.

End SearchDocumentPersisted.

(** * Further properties *)

(** ** Payment app identifiers, beyond the round trip *)

Lemma split_nonempty_list sep s : split sep s <> [].
Proof.
  destruct s as [|c s]; [discriminate|]. cbn [split].
  destruct (Ascii.eqb c sep); [discriminate|]. now destruct (split sep s).
Qed.

Lemma split_segments_without_sep sep s :
  Forall (fun segment => has_char sep segment = false) (split sep s).
Proof.
  induction s as [|c s IH]; [repeat constructor|].
  cbn [split]. destruct (Ascii.eqb c sep) eqn:Hc.
  - constructor; [reflexivity|exact IH].
  - destruct (split sep s) as [|h t]; [repeat constructor|].
    + rewrite has_char_cons, Ascii.eqb_sym, Hc. reflexivity.
    + apply Forall_cons in IH as [Hh Ht]. constructor; [|exact Ht].
      now rewrite has_char_cons, (Ascii.eqb_sym sep c), Hc.
Qed.

Lemma nonempty_true s : nonempty s = true <-> s <> "".
Proof. destruct s; cbn; split; congruence. Qed.

(** The identifier that [to_payment_app_id] builds from a gateway id
    without colon is parsed back; shared by the properties below. *)
Lemma from_payment_app_id_of_built (pk : Z) (gateway_id : string) :
  gateway_id <> "" ->
  has_char ":" gateway_id = false ->
  from_payment_app_id (to_payment_app_id (App.mk pk) (JStr gateway_id))
  = Return (Some (PaymentAppData.mk pk gateway_id)).
Proof.
  intros Hne Hcolon. unfold from_payment_app_id.
  rewrite split_payment_app_id by assumption.
  cbn [length nth Nat.eqb forallb App.pk]. unfold APP_ID_PREFIX.
  rewrite String.eqb_refl, str_of_int_nonempty, int_str_of_int.
  destruct gateway_id; [congruence|reflexivity].
Qed.

(** X1: whatever the string, [from_payment_app_id] raises nothing: what
    [int] can raise is caught. *)
Theorem from_payment_app_id_never_raises (app_gateway_id : string) :
  exists result, from_payment_app_id app_gateway_id = Return result.
Proof. apply from_payment_app_id_returns. Qed.

(** X2: data is returned exactly for the strings of three segments
    between colons, the first being "app", the second a non-empty text
    that [int] converts to the primary key, the third the non-empty
    name; the name returned has no colon in it. *)
Theorem from_payment_app_id_parsed (app_gateway_id : string) (data : PaymentAppData.t) :
  from_payment_app_id app_gateway_id = Return (Some data)
  <-> exists pk_text,
        split ":" app_gateway_id = ["app"; pk_text; PaymentAppData.name data]
        /\ pk_text <> ""
        /\ PaymentAppData.name data <> ""
        /\ has_char ":" (PaymentAppData.name data) = false
        /\ int pk_text = Return (PaymentAppData.app_pk data).
Proof.
  unfold from_payment_app_id, APP_ID_PREFIX.
  pose proof (split_segments_without_sep ":" app_gateway_id) as Hsegments.
  destruct (split ":" app_gateway_id) as [|a [|b [|c [|d rest]]]]; cbn [length Nat.eqb andb].
  1-3, 5: split; [discriminate|intros (pk_text & [=] & _)].
  cbn [nth forallb]. split.
  - destruct (String.eqb_spec a "app") as [->|]; [|discriminate].
    cbn [andb nonempty].
    destruct (nonempty b) eqn:Hb; [|discriminate].
    destruct (nonempty c) eqn:Hc; [|discriminate].
    cbn [andb]. destruct (int b) as [z|e] eqn:Hint.
    + intros [= <-]. exists b. cbn.
      apply nonempty_true in Hb, Hc. repeat split; auto.
      apply Forall_cons in Hsegments as [_ Hsegments].
      apply Forall_cons in Hsegments as [_ Hsegments].
      now apply Forall_cons in Hsegments as [Hsegments _].
    + apply int_raises_ValueError in Hint as ->. discriminate.
  - intros (pk_text & [= -> -> Hname] & Hb & Hc & _ & Hint).
    rewrite Hint. cbn [String.eqb Ascii.eqb Bool.eqb andb nonempty].
    apply nonempty_true in Hb, Hc. rewrite Hb, Hname, Hc. cbn.
    destruct data. cbn in *. now subst.
Qed.

Lemma payment_app_id_text_injective (app app' : App.t) (gateway_id gateway_id' : string) :
  to_payment_app_id app (JStr gateway_id) = to_payment_app_id app' (JStr gateway_id') ->
  App.pk app = App.pk app' /\ gateway_id = gateway_id'.
Proof.
  intros Heq.
  assert (Hsplit : forall a g,
             split ":" (to_payment_app_id a (JStr g))
             = "app" :: str_of_int (App.pk a) :: split ":" g).
  { intros a g. unfold to_payment_app_id, APP_ID_PREFIX.
    change (str (JInt (App.pk a))) with (str_of_int (App.pk a)).
    change (str (JStr g)) with g.
    change (":" +:+ str_of_int (App.pk a) +:+ ":" +:+ g)
      with (String ":" (str_of_int (App.pk a) +:+ String ":" g)).
    rewrite split_app by reflexivity.
    now rewrite split_app by apply str_of_int_no_colon. }
  pose proof (f_equal (split ":") Heq) as Hsegments.
  rewrite !Hsplit in Hsegments. injection Hsegments as Hpk _.
  assert (Hpks : App.pk app = App.pk app').
  { pose proof (int_str_of_int (App.pk app)) as H1.
    rewrite Hpk, int_str_of_int in H1. congruence. }
  split; [exact Hpks|].
  unfold to_payment_app_id in Heq. rewrite Hpks in Heq.
  cbn [str] in Heq.
  repeat (apply (inj (String.app _)) in Heq). exact Heq.
Qed.

(** X3: the identifier tells the primary key and the gateway id: two
    apps and two gateway id strings with the same identifier have the
    same primary key and the same gateway id, colons or not. *)
Theorem to_payment_app_id_injective (app app' : App.t) (gateway_id gateway_id' : string) :
  to_payment_app_id app (JStr gateway_id) = to_payment_app_id app' (JStr gateway_id') ->
  App.pk app = App.pk app' /\ gateway_id = gateway_id'.
Proof. apply payment_app_id_text_injective. Qed.

(** X4: what is parsed out of an identifier builds an identifier that is
    parsed to the same data: building after parsing gives the canonical
    form of the identifier. *)
Theorem payment_app_id_canonical (app_gateway_id : string) (data : PaymentAppData.t) :
  from_payment_app_id app_gateway_id = Return (Some data) ->
  from_payment_app_id
    (to_payment_app_id (App.mk (PaymentAppData.app_pk data))
       (JStr (PaymentAppData.name data)))
  = Return (Some data).
Proof.
  unfold from_payment_app_id at 1, APP_ID_PREFIX.
  pose proof (split_segments_without_sep ":" app_gateway_id) as Hsegments.
  destruct (split ":" app_gateway_id) as [|a [|b [|c [|d rest]]]];
    cbn [length Nat.eqb andb]; try discriminate.
  cbn [nth forallb].
  destruct (String.eqb_spec a "app") as [->|]; [|discriminate].
  cbn [andb nonempty].
  destruct (nonempty b); [|discriminate].
  destruct (nonempty c) eqn:Hc; [|discriminate].
  cbn [andb]. destruct (int b) as [z|e] eqn:Hint.
  - intros [= <-]. cbn [PaymentAppData.app_pk PaymentAppData.name].
    apply from_payment_app_id_of_built.
    + now apply nonempty_true.
    + apply Forall_cons in Hsegments as [_ Hsegments].
      apply Forall_cons in Hsegments as [_ Hsegments].
      now apply Forall_cons in Hsegments as [Hsegments _].
  - apply int_raises_ValueError in Hint as ->. discriminate.
Qed.

Lemma payment_app_id_canonical_witness :
  from_payment_app_id "app: +0_07 :stripe" = Return (Some (PaymentAppData.mk 7 "stripe"))
  /\ to_payment_app_id (App.mk 7) (JStr "stripe") = "app:7:stripe"
  /\ from_payment_app_id (to_payment_app_id (App.mk 7) (JStr "stripe"))
     = Return (Some (PaymentAppData.mk 7 "stripe")).
Proof.
  split; [reflexivity|]. split; [reflexivity|].
  apply (payment_app_id_canonical "app: +0_07 :stripe" (PaymentAppData.mk 7 "stripe")).
  reflexivity.
Defined.

Lemma to_payment_app_id_injective_witness :
  App.pk (App.mk 7) = App.pk (App.mk 7) /\ "eu:stripe" = "eu:stripe".
Proof.
  apply (to_payment_app_id_injective (App.mk 7) (App.mk 7) "eu:stripe" "eu:stripe").
  reflexivity.
Defined.

(** X5: the identifiers that the gateway list parser gives out are
    parsed back by [from_payment_app_id]: on a list of objects whose ids
    are absent, null or strings without colon, each gateway's id gives
    the app's primary key and the id of the entry it was built from. *)
Theorem payment_gateway_ids_parse_back (app : App.t)
    (entries : list (list (string * json))) :
  Forall (fun items => colon_free_id items = true) entries ->
  exists gateways,
    parse_list_payment_gateways_response (JList (map JDict entries)) app
    = Return gateways
    /\ Forall2
         (fun items gateway =>
            from_payment_app_id (PaymentGateway.id gateway)
            = Return (Some (PaymentAppData.mk (App.pk app) (str (field "id" items)))))
         (filter (fun items => has_gateway_id items) entries) gateways.
Proof.
  intros Hids. eexists. split; [apply payment_gateways_of_objects|].
  induction Hids as [|items entries Hid _ IH]; [constructor|].
  destruct (has_gateway_id items) eqn:Hhas.
  - rewrite filter_cons_True by now rewrite Hhas.
    cbn [map]. constructor; [|exact IH].
    unfold gateway_of, has_gateway_id, colon_free_id in *.
    cbn [PaymentGateway.id]. destruct app as [pk].
    destruct (field "id" items) as [| | | |s| |]; try discriminate.
    cbn [str App.pk]. apply from_payment_app_id_of_built.
    + now apply nonempty_true.
    + now apply negb_true_iff in Hid.
  - rewrite filter_cons_False by now rewrite Hhas. exact IH.
Qed.

Lemma payment_gateway_ids_parse_back_witness :
  exists gateways,
    parse_list_payment_gateways_response
      (JList (map JDict [[("id", JStr "stripe"); ("name", JStr "Stripe")];
                         [("name", JStr "nameless")]]))
      (App.mk 7)
    = Return gateways
    /\ Forall2
         (fun items gateway =>
            from_payment_app_id (PaymentGateway.id gateway)
            = Return (Some (PaymentAppData.mk 7 (str (field "id" items)))))
         (filter (fun items => has_gateway_id items)
            [[("id", JStr "stripe"); ("name", JStr "Stripe")];
             [("name", JStr "nameless")]])
         gateways.
Proof.
  apply (payment_gateway_ids_parse_back (App.mk 7)
           [[("id", JStr "stripe"); ("name", JStr "Stripe")];
            [("name", JStr "nameless")]]).
  repeat constructor.
Defined.

(** ** Payment action response: what it can raise *)

Lemma only_raises_weaken {A} (allowed allowed' : Exc -> bool) (m : Outcome A) :
  (forall e, allowed e = true -> allowed' e = true) ->
  only_raises allowed m -> only_raises allowed' m.
Proof. intros Himpl Hm e He. apply Himpl, Hm, He. Qed.

Lemma only_raises_bind_dep {A B} allowed (m : Outcome A) (k : A -> Outcome B) :
  only_raises allowed m -> (forall a, m = Return a -> only_raises allowed (k a)) ->
  only_raises allowed (m ≫= k).
Proof.
  intros Hm Hk e. destruct m as [a|e']; cbn.
  - now apply Hk.
  - intros [= ->]. now apply Hm.
Qed.




(** ** Tax data: what is caught, what is returned *)



(** X8: a response object that lacks one of its nine fields, and whose
    amounts are strings or numbers, gives [None], whatever else it
    holds. *)
Theorem parse_tax_data_incomplete (items : list (string * json)) (k : string) :
  k ∈ tax_fields ->
  assoc k items = None ->
  amounts_str_or_number tax_amount_fields items = true ->
  parse_tax_data (JDict items) = Return None.
Proof.
  intros Hk Hmissing Hamounts.
  apply (parse_tax_data_missing_field items k Hk Hmissing).
  intros k' v Hk' Hv. unfold amounts_str_or_number in Hamounts.
  rewrite forallb_forall in Hamounts.
  apply list_elem_of_In, Hamounts in Hk'. now rewrite Hv in Hk'.
Qed.

Lemma parse_tax_data_incomplete_witness :
  parse_tax_data (JDict [("currency", JStr "USD"); ("total_net_amount", JStr "10.00")])
  = Return None.
Proof.
  apply (parse_tax_data_incomplete _ "lines").
  - apply list_elem_of_In. simpl. tauto.
  - reflexivity.
  - reflexivity.
Defined.

Lemma only_raises_for_each_Forall {A B} allowed (f : A -> Outcome B) xs :
  Forall (fun x => only_raises allowed (f x)) xs ->
  only_raises allowed (for_each f xs).
Proof.
  induction 1 as [|x xs Hx _ IH]; cbn [for_each].
  - apply only_raises_Return.
  - apply only_raises_bind; [exact Hx|]. intros y.
    apply only_raises_bind; [exact IH|]. intros ys. apply only_raises_Return.
Qed.

Lemma getitem_object_caught items k :
  only_raises caught_by_parse_tax_data (getitem (JDict items) k).
Proof.
  intros e. cbn. destruct (assoc k items); [discriminate|now intros [= <-]].
Qed.

Lemma decimal_at_caught fields items k :
  amounts_str_or_number fields items = true -> In k fields ->
  only_raises caught_by_parse_tax_data (decimal_at (JDict items) k).
Proof.
  intros Hamounts Hk. unfold amounts_str_or_number in Hamounts.
  rewrite forallb_forall in Hamounts. specialize (Hamounts k Hk).
  unfold decimal_at. cbn [getitem].
  destruct (assoc k items) as [v|]; cbn [mbind outcome_bind bind].
  - eapply only_raises_weaken; [|apply Decimal_new_str_or_number, Hamounts].
    now intros [].
  - now intros e [= <-].
Qed.

Ltac caught_steps fields Hamounts :=
  repeat first
    [ apply only_raises_Return
    | apply only_raises_bind;
      [ first [ apply getitem_object_caught
              | apply (decimal_at_caught fields); [exact Hamounts|simpl; tauto] ]
      | intros ? ] ].

Lemma _unsafe_parse_tax_line_data_caught line_items :
  amounts_str_or_number tax_line_amount_fields line_items = true ->
  only_raises caught_by_parse_tax_data (_unsafe_parse_tax_line_data (JDict line_items)).
Proof.
  intros Hamounts. unfold _unsafe_parse_tax_line_data.
  caught_steps tax_line_amount_fields Hamounts.
Qed.

(** X9: on a tidy response (an object whose amounts are strings or
    numbers and whose lines are a list of such objects) [parse_tax_data]
    raises nothing, however incomplete the response and whatever the
    strings hold: tax data or [None] is returned. *)
Theorem parse_tax_data_tidy_returns (items : list (string * json)) :
  tidy_tax_response items = true ->
  exists result, parse_tax_data (JDict items) = Return result.
Proof.
  unfold tidy_tax_response. intros [Hamounts Hlines]%andb_true_iff.
  assert (Hcaught : only_raises caught_by_parse_tax_data
                      (_unsafe_parse_tax_data (JDict items))).
  { unfold _unsafe_parse_tax_data.
    do 8 (apply only_raises_bind;
          [ first [ apply getitem_object_caught
                  | apply (decimal_at_caught tax_amount_fields);
                    [exact Hamounts|simpl; tauto] ]
          | intros ? ]).
    cbn [getitem].
    destruct (assoc "lines" items) as [[| | | | |lines|]|];
      try discriminate Hlines; [|now intros e [= <-]].
    cbn [mbind outcome_bind bind iterate].
    apply only_raises_bind; [|intros ?; apply only_raises_Return].
    apply only_raises_for_each_Forall.
    rewrite forallb_forall in Hlines. apply List.Forall_forall.
    intros [| | | | | |line_items] Hline; specialize (Hlines _ Hline);
      try discriminate Hlines.
    now apply _unsafe_parse_tax_line_data_caught. }
  unfold parse_tax_data.
  destruct (_unsafe_parse_tax_data (JDict items)) as [tax_data|e] eqn:Hparse; [eauto|].
  specialize (Hcaught e eq_refl). destruct e; try discriminate Hcaught; cbn; eauto.
Qed.

Lemma parse_tax_data_tidy_returns_witness :
  exists result,
    parse_tax_data
      (JDict [("currency", JStr "USD"); ("total_net_amount", JStr "ten");
              ("lines", JList [JDict [("id", JInt 1); ("tax_rate", JStr "")]])])
    = Return result.
Proof.
  apply (parse_tax_data_tidy_returns
           [("currency", JStr "USD"); ("total_net_amount", JStr "ten");
            ("lines", JList [JDict [("id", JInt 1); ("tax_rate", JStr "")]])]).
  reflexivity.
Defined.

Lemma bind_Return_inv {A B} (m : Outcome A) (k : A -> Outcome B) b :
  m ≫= k = Return b -> exists a, m = Return a /\ k a = Return b.
Proof. destruct m as [a|e]; cbn; [eauto|discriminate]. Qed.

Lemma for_each_Return_inv {A B} (f : A -> Outcome B) xs ys :
  for_each f xs = Return ys -> Forall2 (fun x y => f x = Return y) xs ys.
Proof.
  revert ys. induction xs as [|x xs IH]; intros ys; cbn [for_each].
  - intros [= <-]. constructor.
  - intros (y & Hy & (ys' & Hys & [= <-])%bind_Return_inv)%bind_Return_inv.
    constructor; auto.
Qed.

Lemma decimal_at_Return_inv v k d :
  decimal_at v k = Return d ->
  exists items, v = JDict items /\ is_Some (assoc k items)
                /\ Decimal_new (field k items) = Return d.
Proof.
  unfold decimal_at, field. destruct v; try discriminate. cbn [getitem].
  destruct (assoc k items) as [x|] eqn:Hx; [|discriminate]. cbn. intros Hd.
  exists items. rewrite Hx. repeat split; eauto.
Qed.

Lemma getitem_Return_inv v k x :
  getitem v k = Return x ->
  exists items, v = JDict items /\ is_Some (assoc k items) /\ field k items = x.
Proof.
  unfold field. destruct v; try discriminate. cbn [getitem].
  destruct (assoc k items) as [y|] eqn:Hy; [|discriminate]. intros [= <-].
  exists items. rewrite Hy. repeat split; eauto.
Qed.

Ltac tax_inversion H :=
  repeat match type of H with
         | _ ≫= _ = Return _ =>
             let Hstep := fresh "Hstep" in
             apply bind_Return_inv in H as (? & Hstep & H);
             first [ apply decimal_at_Return_inv in Hstep as (? & [= <-] & ? & ?)
                   | apply getitem_Return_inv in Hstep as (? & [= <-] & ? & ?)
                   | idtac ]
         end.

Lemma _unsafe_parse_tax_line_data_Return_inv line_response line :
  _unsafe_parse_tax_line_data line_response = Return line ->
  exists line_items,
    line_response = JDict line_items
    /\ has_fields tax_line_fields line_items
    /\ amounts_convert tax_line_amount_fields line_items
    /\ TaxLineData.id line = field "id" line_items.
Proof.
  unfold _unsafe_parse_tax_line_data. intros H.
  destruct line_response as [| | | | | |line_items]; try discriminate H.
  exists line_items. split; [reflexivity|].
  tax_inversion H. injection H as <-. cbn [TaxLineData.id].
  repeat split; unfold has_fields, amounts_convert;
    repeat (constructor; eauto).
  congruence.
Qed.

(** X10: tax data is returned only for a complete response: an object
    with all nine fields whose seven amounts [Decimal()] converts, and
    whose lines are objects with all seven fields and convertible
    amounts; the data has the response's currency and one line per line
    of the response, in its order. *)
Theorem parse_tax_data_returned_complete (response_data : json) (tax_data : TaxData.t) :
  parse_tax_data response_data = Return (Some tax_data) ->
  exists items line_responses,
    response_data = JDict items
    /\ has_fields tax_fields items
    /\ amounts_convert tax_amount_fields items
    /\ TaxData.currency tax_data = field "currency" items
    /\ iterate (field "lines" items) = Return line_responses
    /\ Forall2
         (fun line_response line =>
            exists line_items,
              line_response = JDict line_items
              /\ has_fields tax_line_fields line_items
              /\ amounts_convert tax_line_amount_fields line_items
              /\ TaxLineData.id line = field "id" line_items)
         line_responses (TaxData.lines tax_data).
Proof.
  unfold parse_tax_data.
  destruct (_unsafe_parse_tax_data response_data) as [t|e] eqn:H;
    [intros [= ->] | destruct e; discriminate].
  unfold _unsafe_parse_tax_data in H.
  destruct response_data as [| | | | | |items]; try discriminate H.
  tax_inversion H. injection H as <-.
  cbn [TaxData.currency TaxData.lines].
  match goal with
  | Hlines : for_each _ ?l = Return _ |- _ =>
      exists items, l; apply for_each_Return_inv in Hlines
  end.
  split; [reflexivity|].
  split; [unfold has_fields, tax_fields, tax_amount_fields; cbn [app];
          repeat (constructor; eauto)|].
  split; [unfold amounts_convert; repeat (constructor; eauto)|].
  split; [congruence|]. split; [congruence|].
  eapply Forall2_impl; [eassumption|].
  intros line_response line. apply _unsafe_parse_tax_line_data_Return_inv.
Qed.

Lemma parse_tax_data_returned_complete_witness :
  exists tax_data items line_responses,
    parse_tax_data tax_data_complete = Return (Some tax_data)
    /\ tax_data_complete = JDict items
    /\ has_fields tax_fields items
    /\ amounts_convert tax_amount_fields items
    /\ TaxData.currency tax_data = field "currency" items
    /\ iterate (field "lines" items) = Return line_responses
    /\ Forall2
         (fun line_response line =>
            exists line_items,
              line_response = JDict line_items
              /\ has_fields tax_line_fields line_items
              /\ amounts_convert tax_line_amount_fields line_items
              /\ TaxLineData.id line = field "id" line_items)
         line_responses (TaxData.lines tax_data).
Proof.
  destruct (parse_tax_data tax_data_complete) as [[tax_data|]|e] eqn:Hparse;
    try discriminate Hparse.
  destruct (parse_tax_data_returned_complete _ _ Hparse)
    as (items & line_responses & Hrest).
  exists tax_data, items, line_responses. split; [reflexivity|exact Hrest].
Defined.

(** ** Tax codes *)

Lemma key_eqb_str_r k code : key_eqb k (JStr code) = true -> k = JStr code.
Proof.
  destruct k as [|b|z|f|s|l|items]; try destruct f as [| | |[] ? ?]; cbn;
    try discriminate.
  now intros ->%String.eqb_eq.
Qed.

Lemma key_eqb_str_l k code : key_eqb (JStr code) k = true -> k = JStr code.
Proof.
  destruct k as [|b|z|f|s|l|items]; try destruct f as [| | |[] ? ?]; cbn;
    try discriminate.
  now intros ->%String.eqb_eq.
Qed.

Lemma key_eqb_str_refl code : key_eqb (JStr code) (JStr code) = true.
Proof. cbn. apply String.eqb_refl. Qed.

Lemma has_code_key_eqb code items :
  has_code code items = key_eqb (field "code" items) (JStr code).
Proof.
  unfold has_code.
  destruct (field "code" items) as [|b|z|f|s|l|its]; try destruct f as [| | |[] ? ?];
    reflexivity.
Qed.

(** Reading a string key after an assignment. *)
Lemma dict_get_update d k v code :
  dict_get (dict_update d k v) (JStr code)
  = if key_eqb k (JStr code) then Some v else dict_get d (JStr code).
Proof.
  induction d as [|[k0 v0] d IH]; cbn [dict_update dict_get].
  - reflexivity.
  - destruct (key_eqb k0 k) eqn:Hk0; cbn [dict_get].
    + destruct (key_eqb k0 (JStr code)) eqn:H0.
      * apply key_eqb_str_r in H0 as ->. apply key_eqb_str_l in Hk0 as ->.
        now rewrite key_eqb_str_refl.
      * destruct (key_eqb k (JStr code)) eqn:H1; [|reflexivity].
        apply key_eqb_str_r in H1 as ->. apply key_eqb_str_r in Hk0 as ->.
        now rewrite key_eqb_str_refl in H0.
    + rewrite IH. destruct (key_eqb k0 (JStr code)) eqn:H0; [|reflexivity].
      destruct (key_eqb k (JStr code)) eqn:H1; [|reflexivity].
      apply key_eqb_str_r in H0 as ->. apply key_eqb_str_r in H1 as ->.
      now rewrite key_eqb_str_refl in Hk0.
Qed.

Lemma setitem_hashable d k v :
  hashable k = true -> setitem d k v = Return (dict_update d k v).
Proof. now destruct k. Qed.

Lemma parse_tax_codes_loop_cons items rest tax_types :
  parse_tax_codes_loop (JDict items :: rest) tax_types
  = if truthy (field "code" items)
    then tax_types' ← setitem tax_types (field "code" items) (tax_description items);
         parse_tax_codes_loop rest tax_types'
    else Return None.
Proof.
  cbn [parse_tax_codes_loop get get_or mbind outcome_bind bind].
  fold (field "code" items) (field "description" items). unfold tax_description.
  destruct (truthy (field "code" items)); [|reflexivity]. cbn [negb].
  now destruct (truthy (field "description" items)).
Qed.

(** X11: on a list of objects whose codes can be keys of a [dict],
    [parse_tax_codes] raises nothing, and gives [None] exactly when one
    of the entries has no code (absent, null or empty): one entry
    without code discards all the others. *)
Theorem parse_tax_codes_entry_without_code (entries : list (list (string * json))) :
  Forall (fun items => hashable (field "code" items) = true) entries ->
  exists result,
    parse_tax_codes (JList (map JDict entries)) = Return result
    /\ (result = None
        <-> Exists (fun items => truthy (field "code" items) = false) entries).
Proof.
  intros Hcodes. cbn [parse_tax_codes]. generalize (@nil (json * json)).
  induction Hcodes as [|items entries Hcode _ IH]; intros tax_types.
  - eexists. split; [reflexivity|]. split; [discriminate|]. now intros ?%Exists_nil.
  - cbn [map]. rewrite parse_tax_codes_loop_cons.
    destruct (truthy (field "code" items)) eqn:Htruthy.
    + rewrite setitem_hashable by exact Hcode. cbn [mbind outcome_bind bind].
      destruct (IH (dict_update tax_types (field "code" items) (tax_description items)))
        as (result & -> & Hresult).
      exists result. split; [reflexivity|]. rewrite Hresult, Exists_cons.
      split; [auto|]. intros [Hitems|Hrest]; [congruence|exact Hrest].
    + exists None. split; [reflexivity|]. split; [|reflexivity].
      intros _. now constructor.
Qed.

Lemma parse_tax_codes_entry_without_code_witness :
  exists result,
    parse_tax_codes
      (JList (map JDict [[("code", JStr "A1"); ("description", JStr "books")];
                         [("code", JStr ""); ("description", JStr "food")]]))
    = Return result
    /\ (result = None
        <-> Exists (fun items => truthy (field "code" items) = false)
              [[("code", JStr "A1"); ("description", JStr "books")];
               [("code", JStr ""); ("description", JStr "food")]]).
Proof.
  apply (parse_tax_codes_entry_without_code
           [[("code", JStr "A1"); ("description", JStr "books")];
            [("code", JStr ""); ("description", JStr "food")]]).
  repeat constructor.
Defined.

(** X12: when every entry has a code, the result maps each string code
    to the description of the last entry with that code, the code itself
    standing for a description that is absent or empty; a string that is
    the code of no entry is not a key. *)
Theorem parse_tax_codes_last_wins (entries : list (list (string * json))) :
  Forall (fun items => truthy (field "code" items) = true
                       /\ hashable (field "code" items) = true) entries ->
  exists tax_types,
    parse_tax_codes (JList (map JDict entries)) = Return (Some tax_types)
    /\ forall code,
         dict_get tax_types (JStr code)
         = tax_description <$> last (filter (fun items => has_code code items) entries).
Proof.
  intros Hcodes. cbn [parse_tax_codes].
  assert (Hloop : forall tax_types, exists tax_types',
             parse_tax_codes_loop (map JDict entries) tax_types = Return (Some tax_types')
             /\ forall code,
                  dict_get tax_types' (JStr code)
                  = match last (filter (fun items => has_code code items) entries) with
                    | Some items => Some (tax_description items)
                    | None => dict_get tax_types (JStr code)
                    end).
  { induction Hcodes as [|items entries [Htruthy Hcode] _ IH]; intros tax_types.
    - exists tax_types. split; [reflexivity|]. intros code. reflexivity.
    - cbn [map]. rewrite parse_tax_codes_loop_cons, Htruthy.
      rewrite setitem_hashable by exact Hcode. cbn [mbind outcome_bind bind].
      destruct (IH (dict_update tax_types (field "code" items) (tax_description items)))
        as (tax_types' & -> & Hget).
      exists tax_types'. split; [reflexivity|]. intros code.
      rewrite Hget, dict_get_update, <- has_code_key_eqb.
      destruct (has_code code items) eqn:Hhas.
      + rewrite filter_cons_True by now rewrite Hhas.
        rewrite last_cons. now destruct (last _).
      + rewrite filter_cons_False by now rewrite Hhas. reflexivity. }
  destruct (Hloop []) as (tax_types & Hparse & Hget).
  exists tax_types. split; [exact Hparse|]. intros code. rewrite Hget.
  now destruct (last _).
Qed.

Lemma parse_tax_codes_last_wins_witness :
  exists tax_types,
    parse_tax_codes
      (JList (map JDict [[("code", JStr "A1"); ("description", JStr "books")];
                         [("code", JStr "B2")];
                         [("code", JStr "A1"); ("description", JStr "paper")]]))
    = Return (Some tax_types)
    /\ forall code,
         dict_get tax_types (JStr code)
         = tax_description
             <$> last (filter (fun items => has_code code items)
                         [[("code", JStr "A1"); ("description", JStr "books")];
                          [("code", JStr "B2")];
                          [("code", JStr "A1"); ("description", JStr "paper")]]).
Proof.
  apply (parse_tax_codes_last_wins
           [[("code", JStr "A1"); ("description", JStr "books")];
            [("code", JStr "B2")];
            [("code", JStr "A1"); ("description", JStr "paper")]]).
  repeat constructor.
Defined.

(** ** Deliveries and attempts: creation, errors, sequences of calls *)

Lemma delivery_update_stored (delivery row : EventDelivery.t)
    (status : EventDeliveryStatus) (k : Z) (db : DB.t) :
  EventDelivery.pk delivery = Some k ->
  DB.deliveries db !! k = Some row ->
  delivery_update delivery status db
  = Return (with_status status delivery,
            DB.with_deliveries db (<[k := with_status status row]> (DB.deliveries db))).
Proof.
  intros Hpk Hrow. unfold delivery_update, save_update_fields, with_status.
  cbn [EventDelivery.pk]. rewrite Hpk. destruct row. cbn. rewrite Hrow. reflexivity.
Qed.

Lemma attempt_update_stored (attempt row : EventDeliveryAttempt.t)
    (webhook_response : WebhookResponse.t) (k : Z) (db : DB.t) :
  EventDeliveryAttempt.pk attempt = Some k ->
  DB.attempts db !! k = Some row ->
  attempt_update attempt webhook_response db
  = Return (with_response webhook_response attempt,
            DB.with_attempts db (<[k := with_response webhook_response row]>
                                   (DB.attempts db))).
Proof.
  intros Hpk Hrow. unfold attempt_update, save_update_fields, with_response.
  cbn [EventDeliveryAttempt.pk]. rewrite Hpk. destruct row. cbn. rewrite Hrow.
  reflexivity.
Qed.

(** X13: for a delivery that is stored, [create_attempt] stores one new
    attempt under a primary key that was not in use: PENDING, referring
    to the delivery, with the task id, and with no duration, response or
    headers yet; it returns that row, and every other attempt and every
    other table stay as they were. For a delivery without primary key
    it raises [ValueError]. *)
Theorem create_attempt_spec :
  (forall (delivery row : EventDelivery.t) (task_id : option string)
          (k : Z) (db : DB.t),
      EventDelivery.pk delivery = Some k ->
      DB.deliveries db !! k = Some row ->
      exists attempt db' j,
        create_attempt delivery task_id db = Return (attempt, db')
        /\ attempt = EventDeliveryAttempt.mk (Some j) (Some (DB.clock db))
                       (Some k) task_id None None None None PENDING
        /\ DB.attempts db !! j = None
        /\ DB.attempts db' !! j = Some attempt
        /\ (forall j', j' <> j -> DB.attempts db' !! j' = DB.attempts db !! j')
        /\ DB.deliveries db' = DB.deliveries db
        /\ DB.products db' = DB.products db)
  /\ (forall (delivery : EventDelivery.t) (task_id : option string) (db : DB.t),
        EventDelivery.pk delivery = None ->
        create_attempt delivery task_id db = Raise ValueError).
Proof.
  split.
  - intros delivery row task_id k db Hpk Hrow. unfold create_attempt, create.
    rewrite Hpk, Hrow. eexists _, _, (fresh (dom (DB.attempts db))).
    split; [reflexivity|]. split; [reflexivity|].
    split; [apply not_elem_of_dom, is_fresh|].
    cbn [DB.with_attempts DB.attempts DB.deliveries DB.products].
    split; [apply lookup_insert_eq|]. split; [|split; reflexivity].
    intros j' Hj'. now apply lookup_insert_ne.
  - intros delivery task_id db Hpk. unfold create_attempt. now rewrite Hpk.
Qed.

Lemma create_attempt_spec_witness :
  (exists attempt db' j,
     create_attempt (EventDelivery.mk (Some 3) None PENDING "" 0 0) (Some "task-1")
       (DB.mk {[ 3 := EventDelivery.mk (Some 3) (Some 1000) PENDING "order_created" 5 11 ]}
          ∅ ∅ 1001)
     = Return (attempt, db')
     /\ attempt = EventDeliveryAttempt.mk (Some j) (Some 1001) (Some 3) (Some "task-1")
                    None None None None PENDING
     /\ DB.attempts db' !! j = Some attempt)
  /\ create_attempt (EventDelivery.mk None None PENDING "" 0 0) None (DB.mk ∅ ∅ ∅ 1001)
     = Raise ValueError.
Proof.
  split.
  - destruct (proj1 create_attempt_spec
                (EventDelivery.mk (Some 3) None PENDING "" 0 0)
                (EventDelivery.mk (Some 3) (Some 1000) PENDING "order_created" 5 11)
                (Some "task-1") 3
                (DB.mk {[ 3 := EventDelivery.mk (Some 3) (Some 1000) PENDING
                                 "order_created" 5 11 ]} ∅ ∅ 1001)
                eq_refl (lookup_singleton_eq _ _))
      as (attempt & db' & j & Hcreate & Hattempt & _ & Hstored & _).
    now exists attempt, db', j.
  - apply (proj2 create_attempt_spec). reflexivity.
Defined.

(** X14: an attempt that [create_attempt] has just made for a stored
    delivery is always updated by [attempt_update], whatever the
    response: nothing is raised, the stored row is the instance
    returned, it still refers to the delivery and the task, and it has
    the status, the duration, the body and the serialized headers of the
    response. *)
Theorem attempt_update_after_create (delivery row : EventDelivery.t)
    (task_id : option string) (webhook_response : WebhookResponse.t)
    (k : Z) (db : DB.t) :
  EventDelivery.pk delivery = Some k ->
  DB.deliveries db !! k = Some row ->
  exists created db1 attempt db2 j,
    create_attempt delivery task_id db = Return (created, db1)
    /\ attempt_update created webhook_response db1 = Return (attempt, db2)
    /\ EventDeliveryAttempt.pk attempt = Some j
    /\ DB.attempts db !! j = None
    /\ DB.attempts db2 !! j = Some attempt
    /\ (forall j', j' <> j -> DB.attempts db2 !! j' = DB.attempts db !! j')
    /\ attempt
       = EventDeliveryAttempt.mk (Some j) (Some (DB.clock db)) (Some k) task_id
           (Some (WebhookResponse.duration webhook_response))
           (Some (WebhookResponse.content webhook_response))
           (Some (dumps (WebhookResponse.request_headers webhook_response)))
           (Some (dumps (WebhookResponse.response_headers webhook_response)))
           (WebhookResponse.status webhook_response).
Proof.
  intros Hpk Hrow. unfold create_attempt, create. rewrite Hpk, Hrow.
  set (j := fresh (dom (DB.attempts db))).
  set (created := EventDeliveryAttempt.mk (Some j) _ _ _ _ _ _ _ _).
  eexists _, _, _, _, j. split; [reflexivity|]. split.
  { apply (attempt_update_stored created created webhook_response j); [reflexivity|].
    apply lookup_insert_eq. }
  split; [reflexivity|]. split; [apply not_elem_of_dom, is_fresh|].
  cbn [DB.with_attempts DB.attempts].
  split; [apply lookup_insert_eq|]. split; [|reflexivity].
  intros j' Hj'. now rewrite !lookup_insert_ne by congruence.
Qed.

Lemma attempt_update_after_create_witness :
  exists created db1 attempt db2 j,
    create_attempt (EventDelivery.mk (Some 3) None PENDING "" 0 0) (Some "task-1")
      (DB.mk {[ 3 := EventDelivery.mk (Some 3) (Some 1000) PENDING "order_created" 5 11 ]}
         ∅ ∅ 1001)
    = Return (created, db1)
    /\ attempt_update created
         (WebhookResponse.mk "ok" JNull JNull SUCCESS (S754_zero false)) db1
       = Return (attempt, db2)
    /\ DB.attempts db2 !! j = Some attempt
    /\ attempt
       = EventDeliveryAttempt.mk (Some j) (Some 1001) (Some 3) (Some "task-1")
           (Some (S754_zero false)) (Some "ok") (Some "null") (Some "null") SUCCESS.
Proof.
  destruct (attempt_update_after_create
              (EventDelivery.mk (Some 3) None PENDING "" 0 0)
              (EventDelivery.mk (Some 3) (Some 1000) PENDING "order_created" 5 11)
              (Some "task-1")
              (WebhookResponse.mk "ok" JNull JNull SUCCESS (S754_zero false)) 3
              (DB.mk {[ 3 := EventDelivery.mk (Some 3) (Some 1000) PENDING
                               "order_created" 5 11 ]} ∅ ∅ 1001)
              eq_refl (lookup_singleton_eq _ _))
    as (created & db1 & attempt & db2 & j & Hcreate & Hupdate & _ & _ & Hstored
        & _ & Hattempt).
  now exists created, db1, attempt, db2, j.
Defined.

(** X15: updates that cannot reach a row. For an instance without
    primary key [delivery_update] and [attempt_update] raise
    [ValueError]; for an instance whose row is not in the table (it was
    deleted) they raise [DatabaseError]. *)
Theorem update_without_row :
  (forall delivery status db,
      EventDelivery.pk delivery = None ->
      delivery_update delivery status db = Raise ValueError)
  /\ (forall delivery status db k,
        EventDelivery.pk delivery = Some k -> DB.deliveries db !! k = None ->
        delivery_update delivery status db = Raise DatabaseError)
  /\ (forall attempt webhook_response db,
        EventDeliveryAttempt.pk attempt = None ->
        attempt_update attempt webhook_response db = Raise ValueError)
  /\ (forall attempt webhook_response db k,
        EventDeliveryAttempt.pk attempt = Some k -> DB.attempts db !! k = None ->
        attempt_update attempt webhook_response db = Raise DatabaseError).
Proof.
  repeat split.
  - intros delivery status db Hpk. unfold delivery_update, save_update_fields.
    cbn. now rewrite Hpk.
  - intros delivery status db k Hpk Hrow. unfold delivery_update, save_update_fields.
    cbn. now rewrite Hpk, Hrow.
  - intros attempt response db Hpk. unfold attempt_update, save_update_fields.
    cbn. now rewrite Hpk.
  - intros attempt response db k Hpk Hrow. unfold attempt_update, save_update_fields.
    cbn. now rewrite Hpk, Hrow.
Qed.

Lemma update_without_row_witness :
  delivery_update (EventDelivery.mk None None PENDING "order_created" 5 11) SUCCESS
    (DB.mk ∅ ∅ ∅ 1000)
  = Raise ValueError
  /\ attempt_update
       (EventDeliveryAttempt.mk (Some 4) None None None None None None None PENDING)
       (WebhookResponse.mk "ok" JNull JNull SUCCESS (S754_zero false))
       (DB.mk ∅ ∅ ∅ 1000)
     = Raise DatabaseError.
Proof.
  destruct update_without_row as (Hdelivery & _ & _ & Hattempt). split.
  - apply Hdelivery. reflexivity.
  - apply (Hattempt _ _ _ 4); reflexivity.
Defined.

(** X16: [delivery_update] followed by [clear_successful_delivery] on
    the instance it returns: a delivery marked SUCCESS is deleted, a
    delivery marked PENDING or FAILED stays with its new status; the
    other deliveries are as before. *)
Theorem delivery_update_then_clear `{OnDeleteDelivery}
    (delivery row : EventDelivery.t) (status : EventDeliveryStatus)
    (k : Z) (db : DB.t) :
  EventDelivery.pk delivery = Some k ->
  DB.deliveries db !! k = Some row ->
  exists delivery' db1 db2,
    delivery_update delivery status db = Return (delivery', db1)
    /\ clear_successful_delivery delivery' db1 = Return db2
    /\ DB.deliveries db2 !! k
       = (if decide (status = SUCCESS) then None else Some (with_status status row))
    /\ (forall k', k' <> k -> DB.deliveries db2 !! k' = DB.deliveries db !! k').
Proof.
  intros Hpk Hrow.
  rewrite (delivery_update_stored delivery row status k db Hpk Hrow).
  destruct (decide (status = SUCCESS)) as [Hs|Hs].
  - eexists _, _, _. split; [reflexivity|].
    unfold clear_successful_delivery, delete.
    cbn [with_status EventDelivery.status EventDelivery.pk].
    rewrite Hpk, decide_True by exact Hs. split; [reflexivity|].
    cbn [DB.deliveries DB.with_deliveries]. split.
    + apply lookup_delete_eq.
    + intros k' Hk'. rewrite lookup_delete_ne by congruence.
      now apply lookup_insert_ne.
  - eexists _, _, _. split; [reflexivity|].
    unfold clear_successful_delivery.
    cbn [with_status EventDelivery.status].
    rewrite decide_False by exact Hs. split; [reflexivity|].
    cbn [DB.deliveries DB.with_deliveries]. split.
    + apply lookup_insert_eq.
    + intros k' Hk'. now apply lookup_insert_ne.
Qed.

Lemma delivery_update_then_clear_witness :
  exists delivery' db1 db2,
    delivery_update (EventDelivery.mk (Some 3) None PENDING "" 0 0) SUCCESS
      (DB.mk {[ 3 := EventDelivery.mk (Some 3) (Some 1000) PENDING "order_created" 5 11 ]}
         ∅ ∅ 1001)
    = Return (delivery', db1)
    /\ @clear_successful_delivery cascade delivery' db1 = Return db2
    /\ DB.deliveries db2 !! 3
       = (if decide (SUCCESS = SUCCESS) then None
          else Some (with_status SUCCESS
                       (EventDelivery.mk (Some 3) (Some 1000) PENDING "order_created" 5 11)))
    /\ (forall k', k' <> 3 ->
          DB.deliveries db2 !! k'
          = DB.deliveries
              (DB.mk {[ 3 := EventDelivery.mk (Some 3) (Some 1000) PENDING
                               "order_created" 5 11 ]} ∅ ∅ 1001) !! k').
Proof.
  apply (@delivery_update_then_clear cascade
           (EventDelivery.mk (Some 3) None PENDING "" 0 0)
           (EventDelivery.mk (Some 3) (Some 1000) PENDING "order_created" 5 11)
           SUCCESS 3).
  - reflexivity.
  - apply lookup_singleton_eq.
Defined.

(** X17: the deliveries that [create_event_delivery_list_for_webhooks]
    returns are PENDING, so [clear_successful_delivery] deletes none of
    them: called on any of them right after the creation, it leaves the
    database as it is. *)
Theorem created_deliveries_not_cleared `{OnDeleteDelivery}
    (webhooks : list Z) (event_payload : Z) (event_type : string) (db : DB.t) :
  let result :=
    create_event_delivery_list_for_webhooks webhooks event_payload event_type db in
  Forall (fun delivery => clear_successful_delivery delivery result.2 = Return result.2)
         result.1.
Proof.
  cbn zeta. unfold create_event_delivery_list_for_webhooks.
  set (objs := map _ webhooks).
  assert (Hobjs : Forall (fun obj => EventDelivery.status obj = PENDING) objs).
  { subst objs. induction webhooks; constructor; auto. }
  destruct (bulk_create_spec objs db) as (Hrows & _).
  generalize dependent (bulk_create objs db).1. intros rows Hrows.
  generalize (bulk_create objs db).2. intros db'.
  clearbody objs. revert Hobjs.
  induction Hrows as [|obj row objs' rows' (Hstatus & _) _ IH];
    intros Hobjs; [constructor|].
  apply Forall_cons in Hobjs as [Hobj Hobjs]. constructor; [|now apply IH].
  apply clear_successful_delivery_not_success. congruence.
Qed.

(** X18: of two status updates of a delivery in a row, the last one
    decides: marking the instance returned by the first update gives the
    instance and the database that the second update alone gives. *)
Theorem delivery_update_last_wins (delivery row : EventDelivery.t)
    (first second : EventDeliveryStatus) (k : Z) (db : DB.t) :
  EventDelivery.pk delivery = Some k ->
  DB.deliveries db !! k = Some row ->
  exists delivery1 db1 delivery2 db2,
    delivery_update delivery first db = Return (delivery1, db1)
    /\ delivery_update delivery1 second db1 = Return (delivery2, db2)
    /\ delivery_update delivery second db = Return (delivery2, db2).
Proof.
  intros Hpk Hrow.
  rewrite (delivery_update_stored delivery row first k db Hpk Hrow).
  rewrite (delivery_update_stored delivery row second k db Hpk Hrow).
  eexists _, _, _, _. split; [reflexivity|]. split; [|reflexivity].
  erewrite (delivery_update_stored (with_status first delivery)
              (with_status first row) second k);
    [|exact Hpk|apply lookup_insert_eq].
  unfold DB.with_deliveries. cbn [DB.deliveries DB.attempts DB.products DB.clock].
  now rewrite insert_insert_eq.
Qed.

Lemma delivery_update_last_wins_witness :
  exists delivery1 db1 delivery2 db2,
    delivery_update (EventDelivery.mk (Some 3) None PENDING "" 0 0) FAILED
      (DB.mk {[ 3 := EventDelivery.mk (Some 3) (Some 1000) PENDING "order_created" 5 11 ]}
         ∅ ∅ 1001)
    = Return (delivery1, db1)
    /\ delivery_update delivery1 SUCCESS db1 = Return (delivery2, db2)
    /\ delivery_update (EventDelivery.mk (Some 3) None PENDING "" 0 0) SUCCESS
         (DB.mk {[ 3 := EventDelivery.mk (Some 3) (Some 1000) PENDING
                          "order_created" 5 11 ]} ∅ ∅ 1001)
       = Return (delivery2, db2).
Proof.
  apply (delivery_update_last_wins
           (EventDelivery.mk (Some 3) None PENDING "" 0 0)
           (EventDelivery.mk (Some 3) (Some 1000) PENDING "order_created" 5 11)
           FAILED SUCCESS 3).
  - reflexivity.
  - apply lookup_singleton_eq.
Defined.

(** ** The search document and the search vector, further *)

Lemma substring_empty s : substring "" s.
Proof. now exists "", s. Qed.

Lemma for_in_app {A S} (body : A -> S -> Outcome S) l1 l2 s :
  for_in (l1 ++ l2) body s = for_in l1 body s ≫= for_in l2 body.
Proof.
  revert s. induction l1 as [|x l1 IH]; intros s; [reflexivity|].
  cbn [app]. rewrite !for_in_cons.
  destruct (body x s) as [s'|e]; cbn [mbind outcome_bind bind]; [apply IH|reflexivity].
Qed.

Lemma for_each_dates_raise {B} (f : datetime.t -> B) (values : list AttributeValue.t) :
  forallb (fun value => bool_decide (is_Some (AttributeValue.date_time value))) values
  = false ->
  for_each (fun value => match AttributeValue.date_time value with
                         | Some d => Return (f d)
                         | None => Raise AttributeError
                         end) values
  = Raise AttributeError.
Proof.
  induction values as [|value values IH]; [discriminate|].
  cbn [forallb for_each]. destruct (AttributeValue.date_time value) as [d|].
  - rewrite bool_decide_eq_true_2 by eauto. cbn [andb]. intros Hrest.
    now rewrite (IH Hrest).
  - reflexivity.
Qed.

Section SearchFurther.
Context `{EditorJs}.

(** X19: the search document of a product whose date values carry a
    date contains the product's name and its plain-text description, and
    the SKU of every variant that has one, all in lowercase. *)
Theorem search_document_fields_and_skus (product : Product.t) (already_prefetched : bool) :
  dated_product product = true ->
  exists document,
    prepare_product_search_document_value product already_prefetched = Return document
    /\ substring (lower (Product.name product)) document
    /\ substring (lower (Product.description_plaintext product)) document
    /\ (forall variant sku,
          variant ∈ Product.variants product ->
          ProductVariant.sku variant = Some sku ->
          substring (lower sku) document).
Proof.
  intros Hdated. eexists.
  split; [now apply prepare_product_search_document_value_sections|].
  assert (Hfield : forall value,
             value ∈ map (fun field => field product) PRODUCT_SEARCH_FIELDS ->
             substring (lower value)
               (generate_product_fields_search_document_value product)).
  { intros value Hvalue. unfold generate_product_fields_search_document_value.
    apply substring_lower.
    assert (Hjoin : substring value
                      (join NL (filter (fun v => nonempty v)
                                  (map (fun field => field product)
                                     PRODUCT_SEARCH_FIELDS)))).
    { destruct value as [|c value]; [apply substring_empty|].
      apply substring_join, list_elem_of_filter. split; [exact I|exact Hvalue]. }
    destruct (nonempty _); [now apply substring_app_l|exact Hjoin]. }
  split; [|split].
  - apply substring_app_l, Hfield. cbn. apply elem_of_cons. now left.
  - apply substring_app_l, Hfield. cbn. apply elem_of_cons. right.
    apply elem_of_cons. now left.
  - intros variant sku Hvariant Hsku.
    apply substring_app_r, substring_app_r, substring_app_l, substring_lower.
    unfold skus_text.
    assert (Hjoin : substring sku (join NL (omap truthy_sku (Product.variants product)))).
    { destruct sku as [|c sku]; [apply substring_empty|].
      apply substring_join, list_elem_of_omap. exists variant.
      split; [exact Hvariant|]. unfold truthy_sku. now rewrite Hsku. }
    destruct (nonempty _); [now apply substring_app_l|exact Hjoin].
Qed.

(** X20: whatever the product, a search document that is returned is in
    lowercase: lowering it again changes nothing. *)
Theorem search_document_lowercase (product : Product.t) (already_prefetched : bool)
    (document : string) :
  prepare_product_search_document_value product already_prefetched = Return document ->
  lower document = document.
Proof.
  unfold prepare_product_search_document_value.
  intros (attributes & _ & (variants & _ & [= <-])%bind_Return_inv)%bind_Return_inv.
  apply lower_idempotent.
Qed.

(** X21: an assigned attribute without values, or of an input type
    that is not indexed, changes neither the text nor the search vector
    of the attributes around it. *)
Theorem attributes_without_text (before after : list AssignedAttribute.t)
    (assigned : AssignedAttribute.t) :
  without_text assigned = true ->
  generate_attributes_search_document_value (before ++ assigned :: after)
  = generate_attributes_search_document_value (before ++ after)
  /\ generate_attributes_search_vector_value (before ++ assigned :: after)
     = generate_attributes_search_vector_value (before ++ after).
Proof.
  intros Hsilent.
  assert (Hdocument : document_values_list (AssignedAttribute.attribute assigned)
                        (AssignedAttribute.values assigned) = Return []).
  { unfold without_text, document_values_list in *.
    destruct (AssignedAttribute.values assigned);
      destruct (Attribute.input_type _); try discriminate; reflexivity. }
  assert (Hvector : vector_values_list (AssignedAttribute.attribute assigned)
                      (AssignedAttribute.values assigned) = Return []).
  { unfold without_text, vector_values_list in *.
    destruct (AssignedAttribute.values assigned);
      destruct (Attribute.input_type _); try discriminate; reflexivity. }
  unfold generate_attributes_search_document_value,
    generate_attributes_search_vector_value.
  rewrite !for_in_app. split.
  - destruct (for_in before _ _) as [attribute_data|e]; [|reflexivity].
    cbn [mbind outcome_bind bind]. rewrite for_in_cons. cbv zeta.
    now rewrite Hdocument.
  - destruct (for_in before _ _) as [search_vector|e]; [|reflexivity].
    cbn [mbind outcome_bind bind]. rewrite for_in_cons. cbv zeta.
    now rewrite Hvector.
Qed.

End SearchFurther.

Lemma search_document_fields_and_skus_witness :
  exists document,
    @prepare_product_search_document_value text_of_document example_product false
    = Return document
    /\ substring "t-shirt" document
    /\ substring "cotton shirt" document
    /\ substring "sku-1" document.
Proof.
  destruct (@search_document_fields_and_skus text_of_document example_product false
              eq_refl)
    as (document & Hdocument & Hname & Hdescription & Hskus).
  exists document. repeat split; [exact Hdocument|exact Hname|exact Hdescription|].
  apply (Hskus (ProductVariant.mk (Some "SKU-1") "Small"
                  [AssignedAttribute.mk (Attribute.mk MULTISELECT None)
                     [AttributeValue.mk "XS" JNull None]]) "SKU-1");
    [|reflexivity].
  apply elem_of_cons. now left.
Defined.

Lemma search_document_lowercase_witness :
  exists document,
    @prepare_product_search_document_value text_of_document example_product false
    = Return document
    /\ lower document = document.
Proof.
  destruct (@prepare_product_search_document_value text_of_document example_product false)
    as [document|e] eqn:Hdocument; [|discriminate Hdocument].
  exists document. split; [reflexivity|].
  exact (@search_document_lowercase text_of_document example_product false document
           Hdocument).
Defined.

Lemma attributes_without_text_witness :
  @generate_attributes_search_document_value text_of_document
    ([AssignedAttribute.mk (Attribute.mk DROPDOWN None) [AttributeValue.mk "Red" JNull None]]
     ++ AssignedAttribute.mk (Attribute.mk (OTHER "file") None)
          [AttributeValue.mk "manual.pdf" JNull None]
        :: [])
  = @generate_attributes_search_document_value text_of_document
      ([AssignedAttribute.mk (Attribute.mk DROPDOWN None)
          [AttributeValue.mk "Red" JNull None]] ++ []).
Proof.
  apply (@attributes_without_text text_of_document
           [AssignedAttribute.mk (Attribute.mk DROPDOWN None)
              [AttributeValue.mk "Red" JNull None]]
           []
           (AssignedAttribute.mk (Attribute.mk (OTHER "file") None)
              [AttributeValue.mk "manual.pdf" JNull None])).
  reflexivity.
Defined.

Section SearchErrors.
Context `{EditorJs}.

Lemma document_values_list_undated (assigned : AssignedAttribute.t) :
  dated assigned = false ->
  document_values_list (AssignedAttribute.attribute assigned)
    (AssignedAttribute.values assigned)
  = Raise AttributeError.
Proof.
  unfold dated, document_values_list.
  destruct (Attribute.input_type _); try discriminate; apply for_each_dates_raise.
Qed.

Lemma vector_values_list_undated (assigned : AssignedAttribute.t) :
  dated assigned = false ->
  vector_values_list (AssignedAttribute.attribute assigned)
    (AssignedAttribute.values assigned)
  = Raise AttributeError.
Proof.
  unfold dated, vector_values_list.
  destruct (Attribute.input_type _); try discriminate; apply for_each_dates_raise.
Qed.

Lemma generate_attributes_search_document_value_undated
    (assigned_attributes : list AssignedAttribute.t) :
  forallb dated assigned_attributes = false ->
  generate_attributes_search_document_value assigned_attributes = Raise AttributeError.
Proof.
  intros Hundated. unfold generate_attributes_search_document_value.
  match goal with
  | |- for_in _ ?body _ ≫= _ = _ =>
      assert (Hloop : forall acc,
                 for_in assigned_attributes body acc = Raise AttributeError)
  end.
  { induction assigned_attributes as [|assigned rest IH]; intros acc; [discriminate|].
    cbn [forallb] in Hundated. rewrite for_in_cons. cbv zeta.
    destruct (dated assigned) eqn:Hassigned.
    - rewrite (document_values_list_dated _ Hassigned).
      cbn [mbind outcome_bind bind].
      destruct (omap _ _); cbn [mbind outcome_bind bind]; now apply IH.
    - now rewrite (document_values_list_undated _ Hassigned). }
  now rewrite Hloop.
Qed.

Lemma generate_attributes_search_vector_value_undated
    (assigned_attributes : list AssignedAttribute.t) :
  forallb dated assigned_attributes = false ->
  generate_attributes_search_vector_value assigned_attributes = Raise AttributeError.
Proof.
  unfold generate_attributes_search_vector_value. generalize (@None SearchVector).
  induction assigned_attributes as [|assigned rest IH]; intros acc Hundated;
    [discriminate|].
  cbn [forallb] in Hundated. rewrite for_in_cons. cbv zeta.
  destruct (dated assigned) eqn:Hassigned.
  - destruct (vector_values_list_dated _ Hassigned) as [values_list ->].
    cbn [mbind outcome_bind bind].
    destruct (map _ values_list); [|destruct acc]; cbn [mbind outcome_bind bind];
      now apply IH.
  - now rewrite (vector_values_list_undated _ Hassigned).
Qed.

Lemma generate_variants_search_document_value_undated (product : Product.t) :
  forallb (fun variant => forallb dated (ProductVariant.attributes variant))
          (Product.variants product) = false ->
  generate_variants_search_document_value product = Raise AttributeError.
Proof.
  intros Hundated. unfold generate_variants_search_document_value. cbv zeta.
  match goal with
  | |- for_in _ ?body ?start ≫= _ = _ =>
      generalize start; intros start';
      assert (Hloop : forall acc,
                 for_in (Product.variants product) body acc = Raise AttributeError)
  end.
  { induction (Product.variants product) as [|variant rest IH]; intros acc;
      [discriminate|].
    cbn [forallb] in Hundated. rewrite for_in_cons.
    destruct (forallb dated (ProductVariant.attributes variant)) eqn:Hvariant.
    - rewrite (generate_attributes_search_document_value_dated _ Hvariant).
      cbn [mbind outcome_bind bind].
      destruct (nonempty _); cbn [mbind outcome_bind bind]; now apply IH.
    - now rewrite (generate_attributes_search_document_value_undated _ Hvariant). }
  now rewrite Hloop.
Qed.

Lemma generate_variants_search_vector_value_undated (product : Product.t) :
  forallb (fun variant => forallb dated (ProductVariant.attributes variant))
          (Product.variants product) = false ->
  generate_variants_search_vector_value product = Raise AttributeError.
Proof.
  intros Hundated. unfold generate_variants_search_vector_value. cbv zeta.
  destruct (map _ (Product.variants product)) as [|first others] eqn:Hmap.
  { destruct (Product.variants product); [discriminate Hundated|discriminate Hmap]. }
  clear Hmap.
  match goal with
  | |- for_in _ ?body _ ≫= _ = _ =>
      assert (Hloop : forall acc,
                 for_in (Product.variants product) body acc = Raise AttributeError)
  end.
  { induction (Product.variants product) as [|variant rest IH]; intros acc;
      [discriminate|].
    cbn [forallb] in Hundated. rewrite for_in_cons.
    destruct (forallb dated (ProductVariant.attributes variant)) eqn:Hvariant.
    - destruct (generate_attributes_search_vector_value_dated _ Hvariant) as [vector ->].
      cbn [mbind outcome_bind bind].
      destruct vector; cbn [mbind outcome_bind bind]; now apply IH.
    - now rewrite (generate_attributes_search_vector_value_undated _ Hvariant). }
  now rewrite Hloop.
Qed.

Lemma prepare_product_search_document_value_undated
    (product : Product.t) (already_prefetched : bool) :
  dated_product product = false ->
  prepare_product_search_document_value product already_prefetched
  = Raise AttributeError.
Proof.
  intros Hundated.
  unfold prepare_product_search_document_value, dated_product,
    prefetch_related_objects in *.
  replace (if already_prefetched then product else product) with product
    by now destruct already_prefetched.
  cbv zeta.
  destruct (forallb dated (Product.attributes product)) eqn:Hattributes.
  - rewrite (generate_attributes_search_document_value_dated _ Hattributes).
    cbn [mbind outcome_bind bind].
    now rewrite (generate_variants_search_document_value_undated _ Hundated).
  - now rewrite (generate_attributes_search_document_value_undated _ Hattributes).
Qed.

(** X22: a date or datetime value without date, in an attribute of the
    product or of one of its variants, makes both the document and the
    vector fail with [AttributeError]; [update_product_search_document]
    then raises it before anything is saved. *)
Theorem search_values_undated (product : Product.t) (already_prefetched : bool)
    (db : DB.t) :
  dated_product product = false ->
  prepare_product_search_document_value product already_prefetched
  = Raise AttributeError
  /\ prepare_product_search_vector_value product already_prefetched
     = Raise AttributeError
  /\ update_product_search_document product db = Raise AttributeError.
Proof.
  intros Hundated.
  split; [now apply prepare_product_search_document_value_undated|]. split.
  - unfold prepare_product_search_vector_value, dated_product,
      prefetch_related_objects in *.
    replace (if already_prefetched then product else product) with product
      by now destruct already_prefetched.
    cbv zeta.
    destruct (forallb dated (Product.attributes product)) eqn:Hattributes.
    + destruct (generate_attributes_search_vector_value_dated _ Hattributes)
        as [vector ->].
      cbn [mbind outcome_bind bind].
      now rewrite (generate_variants_search_vector_value_undated _ Hundated).
    + now rewrite (generate_attributes_search_vector_value_undated _ Hattributes).
  - unfold update_product_search_document.
    now rewrite (prepare_product_search_document_value_undated _ _ Hundated).
Qed.

End SearchErrors.

Lemma search_values_undated_witness :
  @prepare_product_search_document_value text_of_document undated_product false
  = Raise AttributeError
  /\ @prepare_product_search_vector_value text_of_document undated_product false
     = Raise AttributeError
  /\ @update_product_search_document text_of_document undated_product
       (DB.mk ∅ ∅ {[ 2 := undated_product ]} 1000)
     = Raise AttributeError.
Proof.
  apply (@search_values_undated text_of_document undated_product false
           (DB.mk ∅ ∅ {[ 2 := undated_product ]} 1000)).
  reflexivity.
Defined.

Section SearchVectorTerms.
Context `{EditorJs}.

Lemma terms_reduce_add first others :
  terms (reduce_add first others) = (terms first ++ concat (map terms others))%list.
Proof.
  unfold reduce_add. revert first.
  induction others as [|other others IH]; intros first; cbn [fold_left map concat].
  - now rewrite app_nil_r.
  - rewrite IH. cbn [terms]. now rewrite <- app_assoc.
Qed.

Lemma vector_values_list_values (assigned : AssignedAttribute.t) :
  dated assigned = true ->
  vector_values_list (AssignedAttribute.attribute assigned)
    (AssignedAttribute.values assigned)
  = Return (omap (vector_value (AssignedAttribute.attribute assigned))
                 (AssignedAttribute.values assigned)).
Proof.
  unfold dated, vector_values_list, vector_value.
  destruct (Attribute.input_type (AssignedAttribute.attribute assigned));
    intros Hdated; rewrite ?omap_Some; try reflexivity;
    try (induction (AssignedAttribute.values assigned) as [|value values IH];
         [reflexivity|];
         cbn [forallb] in Hdated; apply andb_true_iff in Hdated as [Hvalue Hvalues];
         apply bool_decide_eq_true in Hvalue as [d Hd];
         cbn [for_each omap list_omap]; rewrite Hd, (IH Hvalues); reflexivity).
  now induction (AssignedAttribute.values assigned).
Qed.

Lemma terms_of_values (texts : list string) first others :
  map (fun v => SearchVector_of [Some v] "B") texts = first :: others ->
  terms (reduce_add first others) = map (fun text => ([Some text], "B")) texts.
Proof.
  intros Hmap. rewrite terms_reduce_add.
  change (terms first ++ concat (map terms others))%list
    with (concat (map terms (first :: others))).
  rewrite <- Hmap, map_map. clear Hmap.
  induction texts as [|text texts IH]; [reflexivity|].
  cbn [map concat]. rewrite IH. reflexivity.
Qed.

Lemma generate_attributes_search_vector_value_terms
    (assigned_attributes : list AssignedAttribute.t) :
  forallb dated assigned_attributes = true ->
  exists vector,
    generate_attributes_search_vector_value assigned_attributes = Return vector
    /\ option_terms vector = attribute_terms assigned_attributes.
Proof.
  unfold generate_attributes_search_vector_value.
  assert (Hloop : forall acc,
             forallb dated assigned_attributes = true ->
             exists vector,
               for_in assigned_attributes
                 (fun assigned_attribute search_vector =>
                    let attribute := AssignedAttribute.attribute assigned_attribute in
                    let values := AssignedAttribute.values assigned_attribute in
                    values_list ← vector_values_list attribute values;
                    match map (fun v => SearchVector_of [Some v] "B") values_list with
                    | first :: others =>
                        let new_vector := reduce_add first others in
                        match search_vector with
                        | Some vector => Return (Some (SearchVector_add vector new_vector))
                        | None => Return (Some new_vector)
                        end
                    | [] => Return search_vector
                    end) acc
               = Return vector
               /\ option_terms vector
                  = (option_terms acc ++ attribute_terms assigned_attributes)%list).
  { induction assigned_attributes as [|assigned rest IH]; intros acc Hdated.
    - exists acc. split; [reflexivity|]. unfold attribute_terms. cbn.
      now rewrite app_nil_r.
    - cbn [forallb] in Hdated. apply andb_true_iff in Hdated as [Hassigned Hrest].
      rewrite for_in_cons. cbv zeta. rewrite (vector_values_list_values _ Hassigned).
      cbn [mbind outcome_bind bind].
      unfold attribute_terms. cbn [map concat]. fold (attribute_terms rest).
      destruct (map (fun v => SearchVector_of [Some v] "B") _)
        as [|first others] eqn:Hmap.
      + apply map_eq_nil in Hmap. rewrite Hmap. cbn [map app].
        cbn [mbind outcome_bind bind]. now apply IH.
      + apply terms_of_values in Hmap.
        destruct acc as [vector|]; cbn [mbind outcome_bind bind];
          match goal with
          | |- context [for_in rest ?body (Some ?v)] =>
              destruct (IH (Some v) Hrest) as (result & Hresult & Hterms)
          end;
          exists result; (split; [exact Hresult|]);
          rewrite Hterms; cbn [option_terms terms]; rewrite Hmap;
          now rewrite <- ?app_assoc. }
  intros Hdated. destruct (Hloop None Hdated) as (vector & Hvector & Hterms).
  exists vector. split; [exact Hvector|exact Hterms].
Qed.

Lemma terms_of_variants (variants : list ProductVariant.t) :
  concat (map terms
            (map (fun variant =>
                    SearchVector_of [ProductVariant.sku variant;
                                     Some (ProductVariant.name variant)] "A") variants))
  = map variant_term variants.
Proof.
  induction variants as [|variant variants IH]; [reflexivity|].
  cbn [map concat]. rewrite IH. reflexivity.
Qed.

Lemma generate_variants_search_vector_value_terms (product : Product.t) :
  forallb (fun variant => forallb dated (ProductVariant.attributes variant))
          (Product.variants product) = true ->
  exists vector,
    generate_variants_search_vector_value product = Return vector
    /\ option_terms vector
       = (map variant_term (Product.variants product)
          ++ concat (map (fun variant => attribute_terms (ProductVariant.attributes variant))
                         (Product.variants product)))%list.
Proof.
  intros Hdated. unfold generate_variants_search_vector_value. cbv zeta.
  destruct (map _ (Product.variants product)) as [|first others] eqn:Hmap.
  { apply map_eq_nil in Hmap. rewrite Hmap. now exists None. }
  match goal with
  | |- context [for_in _ ?body _] =>
      assert (Hloop : forall variants acc,
                 forallb (fun variant => forallb dated (ProductVariant.attributes variant))
                         variants = true ->
                 exists result,
                   for_in variants body acc = Return result
                   /\ terms result
                      = (terms acc
                         ++ concat (map (fun variant =>
                                           attribute_terms (ProductVariant.attributes variant))
                                        variants))%list)
  end.
  { clear. induction variants as [|variant rest IH]; intros acc Hdated.
    - exists acc. split; [reflexivity|]. cbn. now rewrite app_nil_r.
    - cbn [forallb] in Hdated. apply andb_true_iff in Hdated as [Hvariant Hrest].
      rewrite for_in_cons.
      destruct (generate_attributes_search_vector_value_terms _ Hvariant)
        as (vector & -> & Hterms).
      cbn [mbind outcome_bind bind map concat]. rewrite <- Hterms.
      destruct vector as [vector|].
      + destruct (IH (SearchVector_add acc vector) Hrest) as (result & Hresult & Hall).
        exists result. split; [exact Hresult|].
        rewrite Hall. cbn [terms option_terms]. now rewrite <- app_assoc.
      + destruct (IH acc Hrest) as (result & Hresult & Hall).
        exists result. split; [exact Hresult|]. rewrite Hall. reflexivity. }
  destruct (Hloop (Product.variants product) (reduce_add first others) Hdated)
    as (result & -> & Hterms).
  exists (Some result). split; [reflexivity|]. cbn [option_terms].
  rewrite Hterms, terms_reduce_add.
  change (terms first ++ concat (map terms others))%list
    with (concat (map terms (first :: others))).
  now rewrite <- Hmap, terms_of_variants.
Qed.

(** X23: what the search vector indexes, and at which weight. For a
    product whose date values carry a date the vector is returned, and
    its terms are, in this order: the name at weight A, the plain-text
    description at weight C, one term of weight B for each value of each
    indexed attribute of the product, one term of weight A with the SKU
    and the name of each variant, and one term of weight B for each
    value of each indexed attribute of each variant. *)
Theorem search_vector_terms (product : Product.t) (already_prefetched : bool) :
  dated_product product = true ->
  exists vector,
    prepare_product_search_vector_value product already_prefetched = Return vector
    /\ terms vector
       = (([Some (Product.name product)], "A")
          :: ([Some (Product.description_plaintext product)], "C")
          :: attribute_terms (Product.attributes product)
          ++ map variant_term (Product.variants product)
          ++ concat (map (fun variant => attribute_terms (ProductVariant.attributes variant))
                         (Product.variants product)))%list.
Proof.
  unfold dated_product. intros [Hattributes Hvariants]%andb_true_iff.
  unfold prepare_product_search_vector_value, prefetch_related_objects.
  replace (if already_prefetched then product else product) with product
    by now destruct already_prefetched.
  cbv zeta.
  destruct (generate_attributes_search_vector_value_terms _ Hattributes)
    as (attributes_vector & -> & Hattributes_terms).
  destruct (generate_variants_search_vector_value_terms _ Hvariants)
    as (variants_vector & -> & Hvariants_terms).
  cbn [mbind outcome_bind bind]. eexists. split; [reflexivity|].
  rewrite <- Hattributes_terms, <- Hvariants_terms.
  destruct attributes_vector, variants_vector; cbn [terms option_terms app];
    rewrite ?app_nil_r; reflexivity.
Qed.

End SearchVectorTerms.

Lemma search_vector_terms_witness :
  exists vector,
    @prepare_product_search_vector_value text_of_document example_product false
    = Return vector
    /\ terms vector
       = [([Some "T-Shirt"], "A"); ([Some "Cotton shirt"], "C");
          ([Some "Red"], "B"); ([Some "Blue"], "B"); ([Some "Soft Fabric"], "B");
          ([Some "10 KG"], "B"); ([Some "2021-01-02 00:00:00"], "B");
          ([Some "SKU-1"; Some "Small"], "A"); ([Some "XS"], "B")].
Proof.
  exact (@search_vector_terms text_of_document example_product false eq_refl).
Defined.

Section SearchQueryset.
Context `{EditorJs}.

(** X24: [update_products_search_document] stores the new document of
    every product that the queryset selects: when the rows carry their
    primary key and the date values a date, the update returns and the
    row of each selected key has the document computed from it. *)
Theorem update_products_search_document_stores
    (products : list Z) (db : DB.t) (k : Z) (row : Product.t) :
  map_Forall (fun key row => Product.pk row = Some key) (DB.products db) ->
  Forall (fun row => dated_product row = true) (fetch products db) ->
  k ∈ products ->
  DB.products db !! k = Some row ->
  exists document instances db',
    prepare_product_search_document_value row true = Return document
    /\ update_products_search_document products db = Return (instances, db')
    /\ DB.products db' !! k = Some (set_search_document row document).
Proof. apply update_products_search_document_persists. Qed.

(** X25: one product of the queryset with a date value that has no date
    makes the whole update fail with [AttributeError]: nothing is saved,
    for none of the products. *)
Theorem update_products_search_document_undated (products : list Z) (db : DB.t) :
  Exists (fun row => dated_product row = false) (fetch products db) ->
  update_products_search_document products db = Raise AttributeError.
Proof.
  intros Hundated. unfold update_products_search_document. cbv zeta.
  match goal with
  | |- for_each ?f _ ≫= _ = _ =>
      assert (Hrows : for_each f (fetch products db) = Raise AttributeError)
  end.
  { induction Hundated as [row rows Hrow|row rows _ IH].
    - rewrite for_each_cons.
      now rewrite (prepare_product_search_document_value_undated _ true Hrow).
    - rewrite for_each_cons.
      destruct (dated_product row) eqn:Hrow.
      + destruct (prepare_product_search_document_value_dated row true Hrow)
          as [document ->].
        cbn [mbind outcome_bind bind].
        rewrite prepare_product_search_vector_value_document.
        destruct (prepare_product_search_vector_value_dated row true Hrow)
          as [vector ->].
        cbn [mbind outcome_bind bind]. now rewrite IH.
      + now rewrite (prepare_product_search_document_value_undated _ true Hrow). }
  now rewrite Hrows.
Qed.

Lemma bulk_update_others (objs : list Product.t) (fields : list string)
    (db db' : DB.t) (k : Z) :
  bulk_update objs fields db = Return db' ->
  Forall (fun obj => Product.pk obj <> Some k) objs ->
  DB.products db' !! k = DB.products db !! k.
Proof.
  unfold bulk_update.
  intros (table & Htable & [= <-])%bind_Return_inv Hpks.
  cbn [DB.with_products DB.products].
  revert Htable. generalize (DB.products db). intros table0.
  revert table0. induction Hpks as [|obj objs Hobj _ IH]; intros table0.
  - now intros [= <-].
  - rewrite for_in_cons. intros (table1 & Hstep & Hrest)%bind_Return_inv.
    rewrite (IH _ Hrest).
    destruct (Product.pk obj) as [k0|]; [|discriminate Hstep].
    destruct (table0 !! k0) as [row|]; [|now injection Hstep as <-].
    destruct (write_columns _ _ _ _) as [row'|]; [|discriminate Hstep].
    injection Hstep as <-. apply lookup_insert_ne. congruence.
Qed.

(** X26: the products that the queryset does not select are left as
    they are: when the rows carry their primary key and the update
    returns, the row of every key outside the queryset is unchanged,
    and a key without row still has none. *)
Theorem update_products_search_document_others
    (products : list Z) (instances : list Product.t) (db db' : DB.t) (k : Z) :
  map_Forall (fun key row => Product.pk row = Some key) (DB.products db) ->
  update_products_search_document products db = Return (instances, db') ->
  k ∉ products ->
  DB.products db' !! k = DB.products db !! k.
Proof.
  intros Hkeys Hupdate Hk. unfold update_products_search_document in Hupdate.
  cbv zeta in Hupdate.
  apply bind_Return_inv in Hupdate as (objs & Hobjs & Hupdate).
  apply bind_Return_inv in Hupdate as (db1 & Hbulk & [= <- <-]).
  apply (bulk_update_others _ _ _ _ _ Hbulk).
  apply for_each_Return_inv in Hobjs.
  assert (Hrows : Forall (fun row => Product.pk row <> Some k) (fetch products db)).
  { apply List.Forall_forall. intros row Hrow%list_elem_of_In.
    unfold fetch in Hrow. apply list_elem_of_omap in Hrow as (key & Hkey & Hlookup).
    rewrite (Hkeys key row Hlookup). congruence. }
  clear Hbulk. revert Hobjs Hrows. generalize (fetch products db).
  intros rows Hobjs. induction Hobjs as [|row obj rows objs' Hobj _ IH];
    intros Hrows; [constructor|].
  apply Forall_cons in Hrows as [Hrow Hrows]. constructor; [|now apply IH].
  apply bind_Return_inv in Hobj as (document & _ & Hobj).
  apply bind_Return_inv in Hobj as (vector & _ & [= <-]).
  now rewrite set_search_vector_pk, set_search_document_pk.
Qed.

End SearchQueryset.

Lemma update_products_search_document_stores_witness :
  exists document instances db',
    @prepare_product_search_document_value text_of_document example_product true
    = Return document
    /\ @update_products_search_document text_of_document [1] example_db
       = Return (instances, db')
    /\ DB.products db' !! 1 = Some (set_search_document example_product document).
Proof.
  apply (@update_products_search_document_stores text_of_document [1] example_db 1
           example_product).
  - apply map_Forall_singleton. reflexivity.
  - unfold fetch, example_db. cbn. rewrite lookup_singleton_eq. cbn.
    constructor; [reflexivity|constructor].
  - apply elem_of_cons. now left.
  - apply lookup_singleton_eq.
Defined.

Lemma update_products_search_document_undated_witness :
  @update_products_search_document text_of_document [1; 2]
    (DB.mk ∅ ∅ (<[ 2 := undated_product ]> {[ 1 := example_product ]}) 1000)
  = Raise AttributeError.
Proof.
  apply (@update_products_search_document_undated text_of_document).
  unfold fetch. cbn.
  rewrite lookup_insert_ne, lookup_singleton_eq, lookup_insert_eq by discriminate.
  cbn. apply Exists_cons_tl, Exists_cons_hd. reflexivity.
Defined.

Lemma update_products_search_document_others_witness :
  exists instances db',
    @update_products_search_document text_of_document [1]
      (DB.mk ∅ ∅ (<[ 2 := undated_product ]> {[ 1 := example_product ]}) 1000)
    = Return (instances, db')
    /\ DB.products db' !! 2 = Some undated_product.
Proof.
  assert (Hkeys : map_Forall (fun key row => Product.pk row = Some key)
                    (<[ 2 := undated_product ]> {[ 1 := example_product ]}
                     : gmap Z Product.t)).
  { apply map_Forall_insert_2; [reflexivity|].
    apply map_Forall_singleton. reflexivity. }
  destruct (@update_products_search_document_persists text_of_document [1]
              (DB.mk ∅ ∅ (<[ 2 := undated_product ]> {[ 1 := example_product ]}) 1000)
              1 example_product)
    as (document & instances & db' & _ & Hupdate & _).
  - exact Hkeys.
  - unfold fetch. cbn. rewrite lookup_insert_ne, lookup_singleton_eq by discriminate.
    cbn. constructor; [reflexivity|constructor].
  - apply elem_of_cons. now left.
  - cbn. now rewrite lookup_insert_ne, lookup_singleton_eq by discriminate.
  - exists instances, db'. split; [exact Hupdate|].
    rewrite (@update_products_search_document_others text_of_document [1] instances
               (DB.mk ∅ ∅ (<[ 2 := undated_product ]> {[ 1 := example_product ]}) 1000)
               db' 2 Hkeys Hupdate).
    + cbn. apply lookup_insert_eq.
    + intros [Habs|Habs%elem_of_nil]%elem_of_cons; [discriminate Habs|exact Habs].
Defined.

(** ** Shipping method identifiers *)

Lemma b64_index_char d : (d < 64)%N -> b64_index (b64_char d) = d.
Proof.
  intros Hd. destruct d as [|p]; [reflexivity|].
  do 7 (destruct p as [p|p|]; try reflexivity; try lia).
Qed.

Lemma b64_char_not_pad d : (d < 64)%N -> Ascii.eqb (b64_char d) "=" = false.
Proof.
  intros Hd. destruct d as [|p]; [reflexivity|].
  do 7 (destruct p as [p|p|]; try reflexivity; try lia).
Qed.

Lemma b64_bytes_chars (bytes : list N) :
  Forall (fun b => (b < 256)%N) bytes -> b64_bytes (b64_chars bytes) = bytes.
Proof.
  assert (Hquot : forall a, (a < 256)%N -> (a / 4 < 64)%N)
    by (intros a Ha; apply N.Div0.div_lt_upper_bound; lia).
  assert (Hmid : forall a b, (b < 256)%N -> (a mod 4 * 16 + b / 16 < 64)%N).
  { intros a b Hb. pose proof (N.mod_upper_bound a 4 ltac:(lia)).
    assert (b / 16 < 16)%N by (apply N.Div0.div_lt_upper_bound; lia). lia. }
  assert (Hlast : forall b c, (c < 256)%N -> (b mod 16 * 4 + c / 64 < 64)%N).
  { intros b c Hc. pose proof (N.mod_upper_bound b 16 ltac:(lia)).
    assert (c / 64 < 4)%N by (apply N.Div0.div_lt_upper_bound; lia). lia. }
  assert (Hlow : forall c, (c mod 64 < 64)%N)
    by (intros c; apply N.mod_upper_bound; lia).
  assert (Hfirst : forall a b, (b < 256)%N ->
             ((a / 4) * 4 + (a mod 4 * 16 + b / 16) / 16 = a)%N).
  { intros a b Hb.
    assert (b / 16 < 16)%N by (apply N.Div0.div_lt_upper_bound; lia).
    replace ((a mod 4 * 16 + b / 16) / 16)%N with (a mod 4)%N.
    - pose proof (N.div_mod a 4 ltac:(lia)). lia.
    - symmetry. rewrite N.add_comm, N.div_add by lia.
      rewrite N.div_small by lia. reflexivity. }
  assert (Hsecond : forall a b c, (b < 256)%N -> (c < 256)%N ->
             ((a mod 4 * 16 + b / 16) mod 16 * 16 + (b mod 16 * 4 + c / 64) / 4 = b)%N).
  { intros a b c Hb Hc.
    assert (b / 16 < 16)%N by (apply N.Div0.div_lt_upper_bound; lia).
    assert (c / 64 < 4)%N by (apply N.Div0.div_lt_upper_bound; lia).
    replace ((a mod 4 * 16 + b / 16) mod 16)%N with (b / 16)%N.
    - replace ((b mod 16 * 4 + c / 64) / 4)%N with (b mod 16)%N.
      + pose proof (N.div_mod b 16 ltac:(lia)). lia.
      + symmetry. rewrite N.add_comm, N.div_add by lia.
        rewrite N.div_small by lia. reflexivity.
    - symmetry. rewrite N.add_comm, N.Div0.mod_add. now apply N.mod_small. }
  assert (Hthird : forall b c, (c < 256)%N ->
             ((b mod 16 * 4 + c / 64) mod 4 * 64 + c mod 64 = c)%N).
  { intros b c Hc.
    assert (c / 64 < 4)%N by (apply N.Div0.div_lt_upper_bound; lia).
    replace ((b mod 16 * 4 + c / 64) mod 4)%N with (c / 64)%N.
    - pose proof (N.div_mod c 64 ltac:(lia)). lia.
    - symmetry. rewrite N.add_comm, N.Div0.mod_add. now apply N.mod_small. }
  assert (Hmid0 : forall a, (a mod 4 * 16 < 64)%N)
    by (intros a; pose proof (N.mod_upper_bound a 4 ltac:(lia)); lia).
  assert (Hlast0 : forall b, (b mod 16 * 4 < 64)%N)
    by (intros b; pose proof (N.mod_upper_bound b 16 ltac:(lia)); lia).
  assert (Hfirst0 : forall a, ((a / 4) * 4 + (a mod 4 * 16) / 16 = a)%N).
  { intros a. rewrite N.div_mul by lia.
    pose proof (N.div_mod a 4 ltac:(lia)). lia. }
  assert (Hsecond0 : forall a b, (b < 256)%N ->
             ((a mod 4 * 16 + b / 16) mod 16 * 16 + (b mod 16 * 4) / 4 = b)%N).
  { intros a b Hb.
    assert (b / 16 < 16)%N by (apply N.Div0.div_lt_upper_bound; lia).
    rewrite N.div_mul by lia.
    replace ((a mod 4 * 16 + b / 16) mod 16)%N with (b / 16)%N.
    - pose proof (N.div_mod b 16 ltac:(lia)). lia.
    - symmetry. rewrite N.add_comm, N.Div0.mod_add. now apply N.mod_small. }
  assert (Hsteps : forall n bytes, (length bytes <= n)%nat ->
             Forall (fun b => (b < 256)%N) bytes ->
             b64_bytes (b64_chars bytes) = bytes).
  { clear bytes. induction n as [|n IH]; intros bytes Hlen Hbytes.
    - destruct bytes; [reflexivity|cbn in Hlen; lia].
    - destruct bytes as [|a [|b [|c rest]]]; [reflexivity| | |].
      + apply Forall_cons in Hbytes as [Ha _].
        cbn [b64_chars b64_bytes Ascii.eqb Bool.eqb andb].
        rewrite !b64_index_char by first [now apply Hquot | apply Hmid0].
        f_equal. apply Hfirst0.
      + apply Forall_cons in Hbytes as [Ha Hbytes].
        apply Forall_cons in Hbytes as [Hb _].
        cbn [b64_chars b64_bytes]. cbn [Ascii.eqb Bool.eqb andb].
        rewrite (b64_char_not_pad (b mod 16 * 4)) by apply Hlast0.
        rewrite !b64_index_char
          by first [now apply Hquot | now apply Hmid | apply Hlast0].
        f_equal; [now apply Hfirst|]. f_equal. now apply Hsecond0.
      + apply Forall_cons in Hbytes as [Ha Hbytes].
        apply Forall_cons in Hbytes as [Hb Hbytes].
        apply Forall_cons in Hbytes as [Hc Hbytes].
        cbn [b64_chars app b64_bytes].
        rewrite (b64_char_not_pad (b mod 16 * 4 + c / 64)) by now apply Hlast.
        rewrite (b64_char_not_pad (c mod 64)) by apply Hlow.
        rewrite !b64_index_char
          by first [now apply Hquot | now apply Hmid | now apply Hlast | apply Hlow].
        cbn [app]. rewrite IH; [|cbn in Hlen; lia|exact Hbytes].
        f_equal; [now apply Hfirst|]. f_equal; [now apply Hsecond|].
        f_equal. now apply Hthird. }
  intros Hbytes. now apply (Hsteps (length bytes)).
Qed.

Lemma encode_cons c s :
  encode (String c s)
  = ((if (ord c <? 128)%N then [ord c]
      else [192 + ord c / 64; 128 + ord c mod 64]%N) ++ encode s)%list.
Proof. reflexivity. Qed.

Lemma encode_bytes s : Forall (fun b => (b < 256)%N) (encode s).
Proof.
  induction s as [|c s IH]; [constructor|].
  rewrite encode_cons. pose proof (N_ascii_bounded c) as Hc. unfold ord.
  assert (N_of_ascii c / 64 < 4)%N by (apply N.Div0.div_lt_upper_bound; lia).
  pose proof (N.mod_upper_bound (N_of_ascii c) 64 ltac:(lia)).
  destruct (N_of_ascii c <? 128)%N eqn:Hlow; cbn [app].
  - constructor; [lia|exact IH].
  - constructor; [lia|]. constructor; [lia|exact IH].
Qed.

Lemma decode_encode s : decode (encode s) = list_ascii_of_string s.
Proof.
  induction s as [|c s IH]; [reflexivity|].
  rewrite encode_cons. cbn [list_ascii_of_string]. unfold ord, chr.
  destruct (N_of_ascii c <? 128)%N eqn:Hlow; cbn [app decode].
  - now rewrite Hlow, IH, ascii_N_embedding.
  - replace (192 + N_of_ascii c / 64 <? 128)%N with false
      by (symmetry; apply N.ltb_ge;
          apply N.le_trans with 192%N; [discriminate|apply N.le_add_r]).
    rewrite IH. f_equal.
    replace ((192 + N_of_ascii c / 64 - 192) * 64 + (128 + N_of_ascii c mod 64 - 128))%N
      with (N_of_ascii c); [apply ascii_N_embedding|].
    rewrite (N.add_comm 192), N.add_sub, (N.add_comm 128), N.add_sub.
    pose proof (N.div_mod (N_of_ascii c) 64 ltac:(lia)). lia.
Qed.

Lemma encode_injective s t : encode s = encode t -> s = t.
Proof.
  intros Heq. apply (f_equal decode) in Heq. rewrite !decode_encode in Heq.
  rewrite <- (string_of_list_ascii_of_string s), <- (string_of_list_ascii_of_string t).
  now rewrite Heq.
Qed.

Lemma b64encode_injective bytes bytes' :
  Forall (fun b => (b < 256)%N) bytes -> Forall (fun b => (b < 256)%N) bytes' ->
  b64encode bytes = b64encode bytes' -> bytes = bytes'.
Proof.
  unfold b64encode, of_chars. intros Hbytes Hbytes' Heq.
  apply (f_equal list_ascii_of_string) in Heq.
  rewrite !list_ascii_of_string_of_list_ascii in Heq.
  apply (f_equal b64_bytes) in Heq. now rewrite !b64_bytes_chars in Heq.
Qed.

(** X27: the identifier of a shipping method tells the app and the
    method: two apps and two method id strings with the same identifier
    have the same primary key and the same method id. *)
Theorem to_shipping_app_id_injective (app app' : App.t)
    (shipping_method_id shipping_method_id' : string) :
  to_shipping_app_id app (JStr shipping_method_id)
  = to_shipping_app_id app' (JStr shipping_method_id') ->
  App.pk app = App.pk app' /\ shipping_method_id = shipping_method_id'.
Proof.
  unfold to_shipping_app_id. intros Heq.
  apply b64encode_injective in Heq; [|apply encode_bytes..].
  apply encode_injective in Heq.
  now apply payment_app_id_text_injective.
Qed.

Lemma to_shipping_app_id_injective_witness :
  to_shipping_app_id (App.mk 7) (JStr "express") = "YXBwOjc6ZXhwcmVzcw=="
  /\ App.pk (App.mk 7) = App.pk (App.mk 7) /\ "express" = "express".
Proof.
  split; [reflexivity|].
  apply (to_shipping_app_id_injective (App.mk 7) (App.mk 7) "express" "express").
  reflexivity.
Defined.

(** ** The list parsers: what they can raise *)





(** X29: a delivery that [create_event_delivery_list_for_webhooks] has
    just returned can always be marked: [delivery_update] raises
    nothing, and afterwards the stored row is the instance returned,
    with the new status and everything else as created. *)
Theorem delivery_update_after_create
    (webhooks : list Z) (event_payload : Z) (event_type : string)
    (status : EventDeliveryStatus) (db : DB.t) :
  let created :=
    create_event_delivery_list_for_webhooks webhooks event_payload event_type db in
  Forall
    (fun delivery =>
       exists db' k,
         delivery_update delivery status created.2
         = Return (with_status status delivery, db')
         /\ EventDelivery.pk delivery = Some k
         /\ DB.deliveries db' !! k = Some (with_status status delivery)
         /\ (forall k', k' <> k ->
               DB.deliveries db' !! k' = DB.deliveries created.2 !! k'))
    created.1.
Proof.
  cbn zeta. unfold create_event_delivery_list_for_webhooks.
  set (objs := map _ webhooks).
  destruct (bulk_create_spec objs db) as (Hrows & _).
  generalize dependent (bulk_create objs db).1. intros rows Hrows.
  generalize dependent (bulk_create objs db).2. intros db1 Hrows.
  clearbody objs.
  induction Hrows as [|obj delivery objs' rows' Hdelivery _ IH]; constructor;
    [|exact IH].
  destruct Hdelivery as (_ & _ & _ & _ & k & Hpk & _ & Hrow).
  eexists _, k.
  split; [exact (delivery_update_stored delivery delivery status k db1 Hpk Hrow)|].
  split; [exact Hpk|]. cbn [DB.with_deliveries DB.deliveries].
  split; [apply lookup_insert_eq|]. intros k' Hk'. now apply lookup_insert_ne.
Qed.
